(** * Bitrix task bot: the intake pipeline, embedded and verified

    A shallow embedding of [bot_handlers.py] and [bitrix.py]: the error
    classifier, the attachment collector, the upload orchestrator and the
    confirm handler with its task submission.  Python [int] is [Z], [str] is
    [string] (the UTF-8 bytes of the text), [None]-able values are [option],
    the per-user [context.user_data] dict is a [gmap string pyval], and the
    remote collaborators are state-passing functions over an abstract
    world. *)

From Stdlib Require Import ZArith Lia Bool Ascii String DecimalString.
From stdpp Require Import base option list strings gmap.

Local Open Scope string_scope.
Local Open Scope Z_scope.

(** ** Python string primitives *)

Module PyStr.

Definition is_upper (c : ascii) : bool :=
  let n := nat_of_ascii c in (Nat.leb 65 n && Nat.leb n 90)%bool.

Definition lower_char (c : ascii) : ascii :=
  if is_upper c then ascii_of_nat (nat_of_ascii c + 32) else c.

(** [s.lower()] on ASCII text *)
Fixpoint ascii_lower (s : string) : string :=
  match s with
  | EmptyString => EmptyString
  | String c r => String (lower_char c) (ascii_lower r)
  end.

(** [str.isspace] on one ASCII character: TAB..CR, FS..US and the blank. *)
Definition is_space (c : ascii) : bool :=
  let n := nat_of_ascii c in
  ((Nat.leb 9 n && Nat.leb n 13) || (Nat.leb 28 n && Nat.leb n 32))%bool.

Fixpoint ascii_lstrip (s : string) : string :=
  match s with
  | EmptyString => EmptyString
  | String c r => if is_space c then ascii_lstrip r else s
  end.

Fixpoint ascii_rstrip (s : string) : string :=
  match s with
  | EmptyString => EmptyString
  | String c r =>
      match ascii_rstrip r with
      | EmptyString => if is_space c then EmptyString else String c EmptyString
      | r' => String c r'
      end
  end.

(** [s.strip()] on ASCII text *)
Definition ascii_strip (s : string) : string := ascii_rstrip (ascii_lstrip s).

(** [s.isascii()]: every byte is below 128. *)
Fixpoint is_ascii (s : string) : bool :=
  match s with
  | EmptyString => true
  | String c r => (Nat.ltb (nat_of_ascii c) 128 && is_ascii r)%bool
  end.

Fixpoint startswith (p s : string) : bool :=
  match p, s with
  | EmptyString, _ => true
  | String a p', String b s' => (Ascii.eqb a b && startswith p' s')%bool
  | String _ _, EmptyString => false
  end.

(** [needle in hay] *)
Fixpoint contains (needle hay : string) : bool :=
  (startswith needle hay ||
   match hay with
   | EmptyString => false
   | String _ r => contains needle r
   end)%bool.

(** truthiness of a [str] *)
Definition truthy (s : string) : bool :=
  match s with EmptyString => false | _ => true end.

(** ["sep".join(l)] *)
Fixpoint join (sep : string) (l : list string) : string :=
  match l with
  | [] => ""
  | [x] => x
  | x :: r => x +:+ sep +:+ join sep r
  end.

(** [str.strip()] and [str.lower()] of the runtime.  Both work on Unicode
    text: [strip] also removes the white space outside ASCII (U+00A0, U+2003
    and the like) and [lower] also folds the letters outside ASCII (U+212A
    gives [k]).  They are not written out here; the development holds for
    any two functions with the four properties below, which CPython's have:
    on ASCII text they are the ASCII functions above; stripping what is
    stripped changes nothing; and [lower] works character by character but
    for the final-sigma rule, which looks at the cased letters next to a
    sigma and so never across a blank. *)
Class Text : Type := {
  strip : string -> string;
  lower : string -> string;
  strip_ascii : forall s, is_ascii s = true -> strip s = ascii_strip s;
  strip_strip : forall s, strip (strip s) = strip s;
  lower_ascii : forall s, is_ascii s = true -> lower s = ascii_lower s;
  lower_blank : forall a b, lower (a +:+ " " +:+ b) = lower a +:+ " " +:+ lower b
}.

End PyStr.

(** ** Limits *)

Definition MAX_ATTACHMENTS_PER_TASK : nat := 10.
Definition MAX_ATTACHMENT_BYTES : Z := 20 * 1024 * 1024.
Definition UPLOAD_PARALLELISM : Z := 2.

(** [_attachment_too_large(size_bytes)]: a missing or zero size is falsy. *)
Definition _attachment_too_large (size_bytes : option Z) : bool :=
  match size_bytes with
  | None => false
  | Some n => if n =? 0 then false else n >? MAX_ATTACHMENT_BYTES
  end.

(** ** Exceptions seen by the handlers *)

Inductive exn : Type :=
| TransportError (text : string)           (* httpx.TransportError and subclasses *)
| BitrixError (message details : string)   (* bitrix.BitrixError *)
| OtherException (cls text : string).      (* any other Exception *)

Inductive result (A : Type) : Type :=
| Ok (a : A)
| Raise (e : exn).
Arguments Ok {A} a.
Arguments Raise {A} e.

(** ** Error classifier *)

Definition retry_markers : list string :=
  [ "timeout"; "readtimeout"; "connecttimeout"; "remoteprotocolerror";
    "all disk upload strategies failed"; "temporar"; "service unavailable";
    "gateway timeout"; "too many request"; "internal"; "network";
    "502"; "503"; "504" ].

Definition _is_retryable_upload_error `{!PyStr.Text} (exc : exn) : bool :=
  match exc with
  | TransportError _ => true
  | BitrixError message details =>
      let details := PyStr.lower (message +:+ " " +:+ details) in
      existsb (fun marker => PyStr.contains marker details) retry_markers
  | OtherException _ _ => false
  end.

(** The failure [upload_to_folder] raises when the file id cannot be read
    from the decoded reply; [payload_text] is [str(payload)]. *)
Definition disk_id_parse_error (payload_text : string) : exn :=
  BitrixError "Cannot parse disk file id from Bitrix response" payload_text.

(** The failure raised when the reply is not JSON at all. *)
Definition non_json_error (status_text body : string) : exn :=
  BitrixError ("Bitrix returned non-JSON response (HTTP " +:+ status_text +:+ ")") body.

(** Does any marker of the transient vocabulary occur in [text], case folded? *)
Definition mentions_marker `{!PyStr.Text} (text : string) : bool :=
  existsb (fun marker => PyStr.contains marker (PyStr.lower text)) retry_markers.

(** ** Data model *)

(** [storage.SavedFile] *)
Record SavedFile : Type := {
  original_name : string;
  local_path : string
}.

(** Values stored in [context.user_data]. *)
Inductive pyval : Type :=
| VStr (s : string)
| VInt (z : Z)
| VBool (b : bool)
| VFiles (l : list SavedFile).

(** Decoded JSON replies of the Bitrix REST endpoint; an object is the
    decoded dict in insertion order. *)
#[warnings="-register-all"]
Inductive json : Type :=
| JNull
| JBool (b : bool)
| JNum (z : Z)
| JStr (s : string)
| JArr (l : list json)
| JObj (kv : list (string * json)).

(** What one [client.post] gives back: httpx raises, or a response whose
    [r.json()] decodes ([Some]) or raises ([None]). *)
Inductive http_reply : Type :=
| HttpRaises (e : exn)
| HttpResponse (status_code : Z) (text : string) (decoded : option json).

(** Conversation states; [END] is [ConversationHandler.END]. *)
Inductive conv_state : Type :=
| WAIT_TITLE | WAIT_DESCRIPTION | WAIT_ATTACHMENTS | CONFIRM | END.

(** One call of [upload_to_folder] as the orchestrator issues it;
    [uc_index] is the position of the file in the input list. *)
Record upload_call : Type := {
  uc_index : nat;
  uc_folder_id : Z;
  uc_local_path : string;
  uc_filename : string;
  uc_attempt : Z;
  uc_max_attempts : Z
}.

(** The observable actions of a handler, in the order they happen. *)
Inductive action : Type :=
| AnswerCallback                                   (* query.answer() *)
| ReplyText (text : string)                        (* message.reply_text *)
| SendChatAction                                   (* chat.send_action *)
| GetFile (file_id : string)                       (* context.bot.get_file *)
| DownloadToDrive (file_id path : string)          (* file.download_to_drive *)
| DiskUpload (c : upload_call)                     (* bitrix.upload_to_folder *)
| HttpPost (method : string) (fields : list (string * string)).  (* BitrixClient.call *)

(** [config.Settings], the fields the handlers read. *)
Record Settings : Type := {
  upload_dir : string;
  allowed_tg_users : list Z;
  bitrix_disk_folder_id : Z;
  bitrix_upload_max_attempts : Z;
  bitrix_upload_parallelism : Z;
  bitrix_default_responsible_id : Z;
  bitrix_group_id : option Z;
  bitrix_priority : option Z;
  bitrix_task_url_template : option string;
  bitrix_portal_base : option string
}.

(** [update.effective_user] *)
Record TgUser : Type := {
  tg_id : Z;
  username : option string
}.

(** A photo size or a document of an incoming message. *)
Record PhotoSize : Type := {
  photo_file_id : string;
  photo_file_unique_id : string;
  photo_file_size : option Z
}.

Record Document : Type := {
  doc_file_id : string;
  doc_file_unique_id : string;
  doc_file_name : option string;
  doc_file_size : option Z
}.

Record Message : Type := {
  msg_text : option string;
  msg_photo : list PhotoSize;
  msg_document : option Document
}.

(** ** The collaborators

    The chat transport's file API, the Bitrix client's disk upload (the
    keyword signature the orchestrator calls), the HTTP endpoint behind
    [BitrixClient.call], the identity link store, the clock and the ticket id
    generator: each answers from the current world and moves it on. *)
Class Collaborators (W : Type) : Type := {
  bot_get_file : W -> string -> result unit * W;
  download_to_drive : W -> string -> string -> result unit * W;
  upload_to_folder : W -> Z -> string -> string -> Z -> Z -> result Z * W;
  http_post : W -> string -> list (string * string) -> http_reply * W;
  _get_linked_bitrix_id : W -> Z -> option Z;
  today_isoformat : W -> string;
  make_ticket_id : W -> string * W
}.

(** Helpers of [storage] and [utils] and Python builtins, taken as pure
    parameters: path building, file name sanitising, [int(str)],
    [str(payload)] and [tpl.format(task_id=...)]. *)
Class Helpers : Type := {
  build_upload_dir : string -> string -> Z -> string -> string;
  make_local_path : string -> string -> string;
  safe_filename : string -> string;
  py_int_of_str : string -> option Z;
  py_str_of_json : json -> string;
  py_format_task_id : string -> Z -> result string
}.

(** ** The handler monad: world, user data and the action trace, with
    exceptions *)

Record ctx (W : Type) : Type := {
  world : W;
  user_data : gmap string pyval;
  trace : list action
}.
Arguments world {W} c.
Arguments user_data {W} c.
Arguments trace {W} c.

Definition io (W A : Type) : Type := ctx W -> result A * ctx W.

Definition io_ret {W A} (a : A) : io W A := fun c => (Ok a, c).

Definition io_bind {W A B} (m : io W A) (k : A -> io W B) : io W B :=
  fun c => match m c with
           | (Ok a, c') => k a c'
           | (Raise e, c') => (Raise e, c')
           end.

Definition io_raise {W A} (e : exn) : io W A := fun c => (Raise e, c).

(** [try: m except handler] *)
Definition io_try {W A} (m : io W A) (handler : exn -> io W A) : io W A :=
  fun c => match m c with
           | (Ok a, c') => (Ok a, c')
           | (Raise e, c') => handler e c'
           end.

Definition emit {W} (a : action) : io W unit :=
  fun c => (Ok tt, {| world := world c; user_data := user_data c;
                      trace := trace c ++ [a] |}).

Definition get_user_data {W} : io W (gmap string pyval) :=
  fun c => (Ok (user_data c), c).

Definition put_user_data {W} (ud : gmap string pyval) : io W unit :=
  fun c => (Ok tt, {| world := world c; user_data := ud; trace := trace c |}).

Definition get_world {W} : io W W := fun c => (Ok (world c), c).

(** Lift a collaborator call. *)
Definition ask {W A} (f : W -> result A * W) : io W A :=
  fun c => let '(r, w') := f (world c) in
           (r, {| world := w'; user_data := user_data c; trace := trace c |}).

Declare Scope io_scope.
Delimit Scope io_scope with io.
Notation "x <- m ;; k" := (io_bind m (fun x => k))
  (at level 100, m at next level, k at level 200, right associativity) : io_scope.
Notation "m ;;; k" := (io_bind m (fun _ => k))
  (at level 100, k at level 200, right associativity) : io_scope.

(** [user_data.clear()] *)
Definition clear_user_data {W} : io W unit := put_user_data ∅.

Definition reply_text {W} (text : string) : io W unit := emit (ReplyText text).

(** ** Small Python helpers used by the handlers *)

Definition nl : string := String (ascii_of_nat 10) "".

(** [str(n)] for an [int] *)
Definition str_of_Z (z : Z) : string := NilZero.string_of_int (Z.to_int z).

(** [(user_data.get(key) or "")] for the text entries: the text stored
    under [key], and the empty text when the entry is absent or falsy.  The
    handlers store only texts under these keys; a truthy value of another
    type, on which the source's [.strip()] raises [AttributeError], is read
    as the empty text here. *)
Definition get_str (ud : gmap string pyval) (key : string) : string :=
  match ud !! key with
  | Some (VStr s) => s
  | _ => ""
  end.

(** [user_data.get("files", [])] *)
Definition staged_files (ud : gmap string pyval) : list SavedFile :=
  match ud !! "files" with
  | Some (VFiles l) => l
  | _ => []
  end.

(** [user_data.get("ticket_id")], [None] when missing or falsy *)
Definition ticket_of (ud : gmap string pyval) : option string :=
  match ud !! "ticket_id" with
  | Some (VStr s) => if PyStr.truthy s then Some s else None
  | _ => None
  end.

(** [os.path.basename] *)
Fixpoint basename (path : string) : string :=
  match path with
  | EmptyString => EmptyString
  | String c r =>
      if PyStr.contains "/" r then basename r
      else if Ascii.eqb c "/" then r else path
  end.

Definition _saved_file_label `{!PyStr.Text} (saved_file : SavedFile) : string :=
  let name := PyStr.strip (original_name saved_file) in
  if PyStr.truthy name then name
  else
    let b := basename (local_path saved_file) in
    if PyStr.truthy b then b else "file".

Definition _is_allowed (settings : Settings) (tg_user_id : Z) : bool :=
  match allowed_tg_users settings with
  | [] => true
  | l => bool_decide (tg_user_id ∈ l)
  end.

(** [s.rstrip("/")] *)
Fixpoint rstrip_slash (s : string) : string :=
  match s with
  | EmptyString => EmptyString
  | String c r =>
      match rstrip_slash r with
      | EmptyString => if Ascii.eqb c "/" then EmptyString else String c EmptyString
      | r' => String c r'
      end
  end.

Definition or_empty (o : option string) : string :=
  match o with Some s => s | None => "" end.

(** Messages *)
Definition MSG_NO_SESSION : string := "Сессия не найдена. Запусти /task заново.".
Definition MSG_LIMIT : string :=
  "Лимит вложений: " +:+ str_of_Z (Z.of_nat MAX_ATTACHMENTS_PER_TASK)
  +:+ " на одну задачу. Нажмите «Готово ✅».".
Definition MSG_TOO_LARGE : string :=
  "Файл слишком большой. Максимальный размер вложения: 20 MB.".
Definition MSG_NOT_A_FILE : string :=
  "Я могу принять фото или документ. Пришли файл/скриншот или нажми Готово ✅.".
Definition MSG_ASK_TITLE : string := "Ок. Введи *Название* задачи:".
Definition MSG_EMPTY_TITLE : string := "Название пустое. Введи название ещё раз:".
Definition MSG_ASK_DESCRIPTION : string :=
  "Теперь введи *Описание* (что сделать/что не работает/контекст):".
Definition MSG_EMPTY_DESCRIPTION : string := "Описание пустое. Введи описание ещё раз:".
Definition MSG_ASK_ATTACHMENTS : string :=
  "Теперь можешь отправить *скриншоты/файлы* (можно несколько). Когда закончишь — нажми *Готово ✅*.".
Definition MSG_CANCELLED : string := "Отменено.".
Definition MSG_FORBIDDEN : string := "Доступ запрещён.".
Definition MSG_LINK_FIRST : string :=
  PyStr.join nl
    [ "Сначала привяжите профиль Bitrix24 ✅";
      "Иначе задачи будут создаваться от технического пользователя.";
      "";
      "Нажмите «🔗 Привязать профиль» или «ℹ️ Как найти ID?»" ].
Definition MSG_MISSING_DATA : string := "Не хватает данных. Запусти /task заново.".
Definition MSG_NOT_LINKED : string :=
  "Нельзя создать задачу без привязки профиля Bitrix24." +:+ nl +:+
  "Сначала нажмите «🔗 Привязать профиль» и пришлите ID/ссылку.".
Definition MSG_CREATING : string := "Создаю задачу в Bitrix24…".
Definition MSG_CREATE_FAILED : string :=
  "Не получилось создать задачу из-за ошибки Bitrix24. Попробуйте позже.".

(** ["\n".join(f"- {name}" for name in failed_files)] *)
Definition failed_list (failed_files : list string) : string :=
  PyStr.join nl (map (fun name => "- " +:+ name) failed_files).

Definition MSG_UPLOADING (n : nat) : string :=
  "Загружаю вложения в Bitrix24 Disk: " +:+ str_of_Z (Z.of_nat n) +:+ " шт.".
Definition MSG_ALL_UPLOADS_FAILED (failed_files : list string) : string :=
  "Не удалось загрузить ни одно вложение, задача не создана." +:+ nl +:+
  "Проверьте доступ к папке Bitrix Disk и попробуйте снова." +:+ nl +:+ nl +:+
  "Неуспешные файлы:" +:+ nl +:+ failed_list failed_files.
Definition MSG_SOME_UPLOADS_FAILED (failed_files : list string) : string :=
  "Часть вложений не загрузилась. Создам задачу только с успешно загруженными файлами."
  +:+ nl +:+ nl +:+ "Неуспешные файлы:" +:+ nl +:+ failed_list failed_files.
Definition MSG_REVIEW (title : string) (n : nat) : string :=
  "Проверим перед созданием:" +:+ nl +:+ nl +:+ "*Название:* " +:+ title +:+ nl +:+
  "*Вложений:* " +:+ str_of_Z (Z.of_nat n) +:+ nl +:+ nl +:+
  "Нажми *Создать ✅* или *Отмена ❌*.".

(** ** Session handlers of the task conversation *)

Section Handlers.
Context {W : Type} `{!PyStr.Text} `{!Collaborators W} `{!Helpers}.
Local Open Scope io_scope.

Definition show_link_required : io W unit :=
  reply_text MSG_LINK_FIRST.

(** Start of a session: the previous draft is dropped. *)
Definition start_session : io W unit :=
  clear_user_data ;;;
  ticket_id <- ask (fun w => let '(t, w') := make_ticket_id w in (Ok t, w')) ;;
  ud <- get_user_data ;;
  put_user_data (<["ticket_id" := VStr ticket_id]> ud) ;;;
  ud <- get_user_data ;;
  put_user_data (<["files" := VFiles []]> ud).

Definition cmd_task (settings : Settings) (u : TgUser) : io W conv_state :=
  w <- get_world ;;
  match _get_linked_bitrix_id w (tg_id u) with
  | None | Some 0 => show_link_required ;;; io_ret END
  | Some _ =>
      if negb (_is_allowed settings (tg_id u)) then
        reply_text MSG_FORBIDDEN ;;; io_ret END
      else
        start_session ;;;
        reply_text MSG_ASK_TITLE ;;;
        io_ret WAIT_TITLE
  end.

Definition cb_start_task : io W conv_state :=
  emit AnswerCallback ;;;
  start_session ;;;
  reply_text MSG_ASK_TITLE ;;;
  io_ret WAIT_TITLE.

Definition on_title (m : Message) : io W conv_state :=
  let title := PyStr.strip (or_empty (msg_text m)) in
  if negb (PyStr.truthy title) then
    reply_text MSG_EMPTY_TITLE ;;; io_ret WAIT_TITLE
  else
    ud <- get_user_data ;;
    put_user_data (<["title" := VStr title]> ud) ;;;
    reply_text MSG_ASK_DESCRIPTION ;;;
    io_ret WAIT_DESCRIPTION.

Definition on_description (m : Message) : io W conv_state :=
  let desc := PyStr.strip (or_empty (msg_text m)) in
  if negb (PyStr.truthy desc) then
    reply_text MSG_EMPTY_DESCRIPTION ;;; io_ret WAIT_DESCRIPTION
  else
    ud <- get_user_data ;;
    put_user_data (<["description" := VStr desc]> ud) ;;;
    reply_text MSG_ASK_ATTACHMENTS ;;;
    io_ret WAIT_ATTACHMENTS.

(** Fetch the blob and write it to the staging path, then append it. *)
Definition stage (file_id : string) (sf : SavedFile) (saved : list SavedFile)
    (confirmation : string) : io W conv_state :=
  emit (GetFile file_id) ;;;
  ask (fun w => bot_get_file w file_id) ;;;
  emit (DownloadToDrive file_id (local_path sf)) ;;;
  ask (fun w => download_to_drive w file_id (local_path sf)) ;;;
  ud <- get_user_data ;;
  put_user_data (<["files" := VFiles (saved ++ [sf])]> ud) ;;;
  reply_text confirmation ;;;
  io_ret WAIT_ATTACHMENTS.

Definition on_attachment (settings : Settings) (u : TgUser) (m : Message)
    : io W conv_state :=
  ud <- get_user_data ;;
  match ticket_of ud with
  | None => reply_text MSG_NO_SESSION ;;; io_ret END
  | Some ticket_id =>
      w <- get_world ;;
      let date_str := today_isoformat w in
      let dir := build_upload_dir (upload_dir settings) date_str (tg_id u) ticket_id in
      emit SendChatAction ;;;
      let saved := staged_files ud in
      if (MAX_ATTACHMENTS_PER_TASK <=? length saved)%nat then
        reply_text MSG_LIMIT ;;; io_ret WAIT_ATTACHMENTS
      else
        match last (msg_photo m) with
        | Some photo =>
            if _attachment_too_large (photo_file_size photo) then
              reply_text MSG_TOO_LARGE ;;; io_ret WAIT_ATTACHMENTS
            else
              let filename := "photo_" +:+ photo_file_unique_id photo +:+ ".jpg" in
              let path := make_local_path dir filename in
              stage (photo_file_id photo)
                {| original_name := filename; local_path := path |} saved
                ("Ок, сохранил фото: " +:+ filename)
        | None =>
            match msg_document m with
            | Some doc =>
                if _attachment_too_large (doc_file_size doc) then
                  reply_text MSG_TOO_LARGE ;;; io_ret WAIT_ATTACHMENTS
                else
                  let original :=
                    match doc_file_name doc with
                    | Some name => if PyStr.truthy name then name
                                   else "document_" +:+ doc_file_unique_id doc
                    | None => "document_" +:+ doc_file_unique_id doc
                    end in
                  let filename := safe_filename original in
                  let path := make_local_path dir filename in
                  stage (doc_file_id doc)
                    {| original_name := original; local_path := path |} saved
                    ("Ок, сохранил файл: " +:+ original)
            | None =>
                reply_text MSG_NOT_A_FILE ;;; io_ret WAIT_ATTACHMENTS
            end
        end
  end.

Definition cb_attachments_done : io W conv_state :=
  emit AnswerCallback ;;;
  ud <- get_user_data ;;
  let title := match ud !! "title" with Some (VStr s) => s | _ => "" end in
  let files := staged_files ud in
  reply_text (MSG_REVIEW title (length files)) ;;;
  io_ret CONFIRM.

Definition cb_cancel_task : io W conv_state :=
  emit AnswerCallback ;;;
  clear_user_data ;;;
  reply_text MSG_CANCELLED ;;;
  io_ret END.

Definition cmd_cancel : io W conv_state :=
  clear_user_data ;;;
  reply_text MSG_CANCELLED ;;;
  io_ret END.

End Handlers.

(** The blob an attachment message carries, as [on_attachment] picks it: the
    last photo size when there is a photo, the document otherwise; the value
    is the reported size. *)
Definition incoming_blob_size (m : Message) : option (option Z) :=
  match last (msg_photo m) with
  | Some photo => Some (photo_file_size photo)
  | None =>
      match msg_document m with
      | Some doc => Some (doc_file_size doc)
      | None => None
      end
  end.

Definition is_download (a : action) : bool :=
  match a with DownloadToDrive _ _ => true | _ => false end.

Definition is_get_file (a : action) : bool :=
  match a with GetFile _ => true | _ => false end.

(** ** Upload orchestrator

    [asyncio.gather] runs one [_upload_one] coroutine per file; a coroutine
    is resumed by the event loop at the semaphore and at every awaited
    upload.  The loop's choices are a parameter: at each turn [choices]
    names one of the coroutines that can run. *)

Inductive task_state : Type :=
| Waiting                          (* before [async with semaphore] *)
| Attempting (attempt : Z)         (* holds a slot, about to run this iteration *)
| Returned (file_id : option Z) (failed : option string).

Definition is_attempting (t : task_state) : bool :=
  match t with Attempting _ => true | _ => false end.

(** Number of coroutines inside the semaphore. *)
Definition holders (tasks : list task_state) : nat :=
  length (List.filter is_attempting tasks).

Definition runnable (slots : Z) (tasks : list task_state) (t : task_state) : bool :=
  match t with
  | Waiting => Z.of_nat (holders tasks) <? slots
  | Attempting _ => true
  | Returned _ _ => false
  end.

Definition runnable_at (slots : Z) (tasks : list task_state) (i : nat) : bool :=
  match tasks !! i with
  | Some t => runnable slots tasks t
  | None => false
  end.

Definition runnable_indices (slots : Z) (tasks : list task_state) : list nat :=
  List.filter (runnable_at slots tasks) (seq 0 (length tasks)).

(** What [gather] hands back for a coroutine. *)
Definition task_result (t : task_state) : option Z * option string :=
  match t with
  | Returned file_id failed => (file_id, failed)
  | _ => (None, None)
  end.

(** The aggregation loop over [results]. *)
Fixpoint collect (results : list (option Z * option string)) : list Z * list string :=
  match results with
  | [] => ([], [])
  | (file_id, failed) :: rest =>
      let '(uploaded_ids, failed_files) := collect rest in
      (match file_id with Some id => id :: uploaded_ids | None => uploaded_ids end,
       match failed with
       | Some name => if PyStr.truthy name then name :: failed_files else failed_files
       | None => failed_files
       end)
  end.

Definition is_disk_upload_of (i : nat) (a : action) : bool :=
  match a with
  | DiskUpload c => Nat.eqb (uc_index c) i
  | _ => false
  end.

(** How often the upload of file [i] was attempted in a trace. *)
Definition attempts_of (i : nat) (tr : list action) : nat :=
  length (List.filter (is_disk_upload_of i) tr).

Definition is_disk_upload (a : action) : bool :=
  match a with DiskUpload _ => true | _ => false end.

Definition is_http_post (a : action) : bool :=
  match a with HttpPost _ _ => true | _ => false end.

(** A call to one of the two remote collaborators. *)
Definition is_collaborator_call (a : action) : bool :=
  (is_disk_upload a || is_http_post a)%bool.

Section Orchestrator.
Context {W : Type} `{!PyStr.Text} `{!Collaborators W}.
Local Open Scope io_scope.

(** One resumption of [_upload_one] for the file at index [i]. *)
Definition upload_one_step (folder_id max_attempts slots : Z) (i : nat)
    (saved_file : SavedFile) (tasks : list task_state) : io W (list task_state) :=
  let file_label := _saved_file_label saved_file in
  match tasks !! i with
  | Some Waiting =>
      if Z.of_nat (holders tasks) <? slots
      then io_ret (<[i := Attempting 1]> tasks)
      else io_ret tasks
  | Some (Attempting attempt) =>
      if attempt <=? max_attempts then
        emit (DiskUpload {| uc_index := i; uc_folder_id := folder_id;
                            uc_local_path := local_path saved_file;
                            uc_filename := file_label;
                            uc_attempt := attempt;
                            uc_max_attempts := max_attempts |}) ;;;
        io_try
          (file_id <- ask (fun w => upload_to_folder w folder_id
                             (local_path saved_file) file_label attempt max_attempts) ;;
           io_ret (<[i := Returned (Some file_id) None]> tasks))
          (fun exc =>
             let retryable :=
               ((attempt <? max_attempts) && _is_retryable_upload_error exc)%bool in
             if retryable
             then io_ret (<[i := Attempting (attempt + 1)]> tasks)
             else io_ret (<[i := Returned None (Some file_label)]> tasks))
      else io_ret (<[i := Returned None (Some file_label)]> tasks)
  | _ => io_ret tasks
  end.

(** The same resumption read as a function: what it does to the state of the
    coroutine of [saved_file], to the trace and to the world. *)
Definition advance (folder_id max_attempts : Z) (i : nat) (saved_file : SavedFile)
    (t : task_state) (w : W) : task_state * list action * W :=
  let file_label := _saved_file_label saved_file in
  match t with
  | Waiting => (Attempting 1, [], w)
  | Attempting attempt =>
      if attempt <=? max_attempts then
        let call := DiskUpload {| uc_index := i; uc_folder_id := folder_id;
                                  uc_local_path := local_path saved_file;
                                  uc_filename := file_label;
                                  uc_attempt := attempt;
                                  uc_max_attempts := max_attempts |} in
        match upload_to_folder w folder_id (local_path saved_file) file_label
                attempt max_attempts with
        | (Ok file_id, w') => (Returned (Some file_id) None, [call], w')
        | (Raise exc, w') =>
            if ((attempt <? max_attempts) && _is_retryable_upload_error exc)%bool
            then (Attempting (attempt + 1), [call], w')
            else (Returned None (Some file_label), [call], w')
        end
      else (Returned None (Some file_label), [], w)
  | Returned file_id failed => (t, [], w)
  end.

(** The coroutine the loop resumes next. *)
Definition pick (choice : nat) (candidates : list nat) : option nat :=
  match candidates with
  | [] => None
  | i0 :: _ => Some (nth (choice mod length candidates) candidates i0)
  end.

Fixpoint event_loop (fuel : nat) (choices : list nat)
    (folder_id max_attempts slots : Z) (files : list SavedFile)
    (tasks : list task_state) : io W (list task_state) :=
  match fuel with
  | O => io_ret tasks
  | S fuel' =>
      match pick (hd O choices) (runnable_indices slots tasks) with
      | None => io_ret tasks
      | Some i =>
          match files !! i with
          | Some saved_file =>
              tasks' <- upload_one_step folder_id max_attempts slots i saved_file tasks ;;
              event_loop fuel' (tl choices) folder_id max_attempts slots files tasks'
          | None => io_ret tasks
          end
      end
  end.

(** Resumptions that are enough for every coroutine to return. *)
Definition enough_turns (n : nat) (max_attempts : Z) : nat :=
  (n * (Z.to_nat max_attempts + 2))%nat.

Definition _upload_files_to_bitrix_disk (choices : list nat)
    (folder_id : Z) (files : list SavedFile)
    (max_attempts upload_parallelism : Z) : io W (list Z * list string) :=
  match files with
  | [] => io_ret ([], [])
  | _ =>
      let slots := Z.max 1 (Z.min upload_parallelism (Z.of_nat (length files))) in
      tasks <- event_loop (enough_turns (length files) max_attempts) choices
                 folder_id max_attempts slots files
                 (replicate (length files) Waiting) ;;
      io_ret (collect (map task_result tasks))
  end.

End Orchestrator.

(** ** Bitrix client and task submission *)

(** [d.get(key)] on a decoded object *)
Fixpoint assoc (key : string) (kv : list (string * json)) : option json :=
  match kv with
  | [] => None
  | (k, v) :: rest => if String.eqb k key then Some v else assoc key rest
  end.

(** [v[key]] with a text key; [None] when the subscription raises. *)
Definition subscript (v : option json) (key : string) : option json :=
  match v with
  | Some (JObj kv) => assoc key kv
  | _ => None
  end.

Definition is_error_text (v : json) : bool :=
  match v with
  | JStr s => String.eqb s "error"
  | _ => false
  end.

Definition created_by_key : string := "fields[CREATED_BY]".

(** Does a POST carry the creator field? *)
Definition has_creator_field (fields : list (string * string)) : bool :=
  existsb (fun kv => String.eqb (fst kv) created_by_key) fields.

Section Bitrix.
Context {W : Type} `{!PyStr.Text} `{!Collaborators W} `{!Helpers}.
Local Open Scope io_scope.

(** Text of a decoded value when it is formatted into a message. *)
Definition json_text (v : json) : string :=
  match v with
  | JStr s => s
  | _ => py_str_of_json v
  end.

(** [int(v)]; [None] when it raises. *)
Definition py_int (v : option json) : option Z :=
  match v with
  | Some (JNum z) => Some z
  | Some (JBool b) => Some (if b then 1 else 0)
  | Some (JStr s) => py_int_of_str s
  | _ => None
  end.

(** [BitrixClient.call] *)
Definition call (method : string) (data : list (string * string)) : io W json :=
  emit (HttpPost method data) ;;;
  r <- ask (fun w => let '(r, w') := http_post w method data in (Ok r, w')) ;;
  match r with
  | HttpRaises e => io_raise e
  | HttpResponse status_code text None =>
      io_raise (non_json_error (str_of_Z status_code) text)
  | HttpResponse _ _ (Some payload) =>
      match payload with
      | JObj kv =>
          match assoc "error" kv with
          | Some err =>
              io_raise (BitrixError (json_text err)
                          (match assoc "error_description" kv with
                           | Some d => json_text d
                           | None => ""
                           end))
          | None => io_ret payload
          end
      | JArr l =>
          if existsb is_error_text l
          then io_raise (OtherException "AttributeError" "'list' object has no attribute 'get'")
          else io_ret payload
      | JStr s =>
          if PyStr.contains "error" s
          then io_raise (OtherException "AttributeError" "'str' object has no attribute 'get'")
          else io_ret payload
      | _ => io_raise (OtherException "TypeError" "argument is not iterable")
      end
  end.

(** The form fields of [tasks.task.add]. *)
Definition task_fields (title description : string) (responsible_id : Z)
    (group_id priority created_by : option Z) : list (string * string) :=
  [ ("fields[TITLE]", title);
    ("fields[DESCRIPTION]", description);
    ("fields[RESPONSIBLE_ID]", str_of_Z responsible_id) ]
  ++ match group_id with Some g => [("fields[GROUP_ID]", str_of_Z g)] | None => [] end
  ++ match priority with Some p => [("fields[PRIORITY]", str_of_Z p)] | None => [] end
  ++ match created_by with Some c => [(created_by_key, str_of_Z c)] | None => [] end.

(** [BitrixClient.create_task]; [webdav_file_ids] is accepted and not sent. *)
Definition create_task (title description : string) (responsible_id : Z)
    (group_id priority created_by : option Z) (webdav_file_ids : list Z) : io W Z :=
  let fields := task_fields title description responsible_id group_id priority created_by in
  resp <- call "tasks.task.add" fields ;;
  match py_int (subscript (subscript (subscript (Some resp) "result") "task") "id") with
  | Some task_id => io_ret task_id
  | None =>
      match py_int (subscript (subscript (Some resp) "result") "id") with
      | Some task_id => io_ret task_id
      | None =>
          io_raise (BitrixError "Cannot parse task id from Bitrix response"
                      (py_str_of_json resp))
      end
  end.

Definition _task_link (settings : Settings) (task_id : Z) : result string :=
  let tpl := PyStr.strip (or_empty (bitrix_task_url_template settings)) in
  if PyStr.truthy tpl then py_format_task_id tpl task_id
  else
    let base := rstrip_slash (PyStr.strip (or_empty (bitrix_portal_base settings))) in
    if PyStr.truthy base then
      Ok (base +:+ "/company/personal/user/"
          +:+ str_of_Z (bitrix_default_responsible_id settings)
          +:+ "/tasks/task/view/" +:+ str_of_Z task_id +:+ "/")
    else Ok "".

Definition build_initiator_block (u : TgUser) : string :=
  let username :=
    match username u with
    | Some name => if PyStr.truthy name then "@" +:+ name else ""
    | None => ""
    end in
  let username :=
    if PyStr.truthy username then username else "tg_id:" +:+ str_of_Z (tg_id u) in
  "Контакт инициатора:" +:+ nl +:+ "Telegram: " +:+ username.

Definition build_attachments_block (files : list SavedFile) (upload_root : string)
    : string := "".

Definition build_task_description (user_desc initiator_block attachments_block : string)
    : string :=
  let parts := [PyStr.strip user_desc; ""; PyStr.strip initiator_block] in
  let attachments_block := PyStr.strip attachments_block in
  let parts :=
    if PyStr.truthy attachments_block then (parts ++ [""; attachments_block])%list else parts in
  PyStr.strip (PyStr.join nl parts).

(** The closing report of a created task. *)
Definition report_created (settings : Settings) (task_id : Z)
    (uploaded_ids : list Z) (failed_files : list string) : io W conv_state :=
  link <- (fun c => (_task_link settings task_id, c)) ;;
  let result_lines := ["Задача создана ✅"; "ID: " +:+ str_of_Z task_id] in
  let result_lines :=
    if PyStr.truthy link then (result_lines ++ ["Ссылка: " +:+ link])%list else result_lines in
  let result_lines :=
    match uploaded_ids with
    | [] => result_lines
    | _ => (result_lines ++
            ["Вложений прикреплено: " +:+ str_of_Z (Z.of_nat (length uploaded_ids))])%list
    end in
  let result_lines :=
    match failed_files with
    | [] => result_lines
    | _ => (result_lines ++ ["Не загрузились файлы:" +:+ nl +:+ failed_list failed_files])%list
    end in
  reply_text (PyStr.join nl result_lines) ;;;
  clear_user_data ;;;
  io_ret END.

Definition report_failure : io W conv_state :=
  reply_text MSG_CREATE_FAILED ;;;
  clear_user_data ;;;
  io_ret END.

(** The two nested [try] blocks around [create_task]. *)
Definition submit (settings : Settings) (title full_desc : string) (created_by : Z)
    (uploaded_ids : list Z) (failed_files : list string) : io W conv_state :=
  let attempt (creator : option Z) :=
    create_task title full_desc (bitrix_default_responsible_id settings)
      (bitrix_group_id settings) (bitrix_priority settings) creator uploaded_ids in
  fun c =>
    match attempt (Some created_by) c with
    | (Ok task_id, c1) => report_created settings task_id uploaded_ids failed_files c1
    | (Raise (BitrixError _ _), c1) =>
        match attempt None c1 with
        | (Ok task_id, c2) => report_created settings task_id uploaded_ids failed_files c2
        | (Raise _, c2) => report_failure c2
        end
    | (Raise _, c1) => report_failure c1
    end.

Definition cb_confirm_create (choices : list nat) (settings : Settings) (u : TgUser)
    : io W conv_state :=
  emit AnswerCallback ;;;
  ud <- get_user_data ;;
  let title := PyStr.strip (get_str ud "title") in
  let user_desc := PyStr.strip (get_str ud "description") in
  let files := staged_files ud in
  if (negb (PyStr.truthy title) || negb (PyStr.truthy user_desc))%bool then
    reply_text MSG_MISSING_DATA ;;;
    clear_user_data ;;;
    io_ret END
  else
    let initiator := build_initiator_block u in
    let attachments := build_attachments_block files (upload_dir settings) in
    let full_desc := build_task_description user_desc initiator attachments in
    w <- get_world ;;
    match _get_linked_bitrix_id w (tg_id u) with
    | None =>
        reply_text MSG_NOT_LINKED ;;;
        clear_user_data ;;;
        io_ret END
    | Some created_by =>
        match files with
        | [] =>
            reply_text MSG_CREATING ;;;
            submit settings title full_desc created_by [] []
        | _ =>
            reply_text (MSG_UPLOADING (length files)) ;;;
            r <- _upload_files_to_bitrix_disk choices
                   (bitrix_disk_folder_id settings) files
                   (bitrix_upload_max_attempts settings)
                   (bitrix_upload_parallelism settings) ;;
            let '(uploaded_ids, failed_files) := r in
            match failed_files, uploaded_ids with
            | _ :: _, [] =>
                reply_text (MSG_ALL_UPLOADS_FAILED failed_files) ;;;
                clear_user_data ;;;
                io_ret END
            | _ :: _, _ =>
                reply_text (MSG_SOME_UPLOADS_FAILED failed_files) ;;;
                reply_text MSG_CREATING ;;;
                submit settings title full_desc created_by uploaded_ids failed_files
            | [], _ =>
                reply_text MSG_CREATING ;;;
                submit settings title full_desc created_by uploaded_ids failed_files
            end
        end
    end.

End Bitrix.

(** ** Sessions as the handlers reach them *)

Inductive handler_call : Type :=
| CallCmdTask (u : TgUser)
| CallCbStartTask
| CallOnTitle (m : Message)
| CallOnDescription (m : Message)
| CallOnAttachment (u : TgUser) (m : Message)
| CallCbAttachmentsDone
| CallCbCancelTask
| CallCmdCancel
| CallCbConfirmCreate (choices : list nat) (u : TgUser).

Section Sessions.
Context {W : Type} `{!PyStr.Text} `{!Collaborators W} `{!Helpers}.

Definition run_handler (settings : Settings) (h : handler_call) : io W conv_state :=
  match h with
  | CallCmdTask u => cmd_task settings u
  | CallCbStartTask => cb_start_task
  | CallOnTitle m => on_title m
  | CallOnDescription m => on_description m
  | CallOnAttachment u m => on_attachment settings u m
  | CallCbAttachmentsDone => cb_attachments_done
  | CallCbCancelTask => cb_cancel_task
  | CallCmdCancel => cmd_cancel
  | CallCbConfirmCreate choices u => cb_confirm_create choices settings u
  end.

(** The contexts a user's conversation can be in: it starts with no staged
    files, every handler of the task conversation may run next, and whatever
    else happens in between (other handlers, the collaborators' own changes)
    leaves the [files] entry alone. *)
Inductive session_reachable (settings : Settings) : ctx W -> Prop :=
| reach_fresh c :
    user_data c !! "files" = None ->
    session_reachable settings c
| reach_handler c h :
    session_reachable settings c ->
    session_reachable settings (run_handler settings h c).2
| reach_elsewhere c c' :
    session_reachable settings c ->
    user_data c' !! "files" = user_data c !! "files" ->
    session_reachable settings c'.

(** The context after a sequence of handler runs; a handler that raises
    leaves the context it had reached. *)
Fixpoint run_handlers (settings : Settings) (hs : list handler_call) (c : ctx W) : ctx W :=
  match hs with
  | [] => c
  | h :: rest => run_handlers settings rest (run_handler settings h c).2
  end.

(** The context in which the confirm handler starts the uploads of [n] files. *)
Definition at_upload_start (c : ctx W) (n : nat) : ctx W :=
  {| world := world c; user_data := user_data c;
     trace := trace c ++ [AnswerCallback; ReplyText (MSG_UPLOADING n)] |}.

End Sessions.

(** Resumptions a coroutine still needs before it has returned, at most. *)
Definition turns_left (max_attempts : Z) (t : task_state) : nat :=
  match t with
  | Waiting => Z.to_nat max_attempts + 2
  | Attempting attempt => Z.to_nat (max_attempts - attempt) + 1
  | Returned _ _ => 0
  end.

Definition total_turns_left (max_attempts : Z) (tasks : list task_state) : nat :=
  list_sum (map (turns_left max_attempts) tasks).

Definition is_returned (t : task_state) : bool :=
  match t with Returned _ _ => true | _ => false end.

(** The form fields of every POST of a trace, in order. *)
Definition http_posts (tr : list action) : list (list (string * string)) :=
  omap (fun a => match a with HttpPost _ fields => Some fields | _ => None end) tr.

(** The outcome of one file as the result lists show it. *)
Definition failed_names `{!PyStr.Text} (files : list SavedFile) (outcomes : list (option Z)) : list string :=
  omap (fun fo => match fo.2 with
                  | None => Some (_saved_file_label fo.1)
                  | Some _ => None
                  end) (zip files outcomes).

(** ** Concrete collaborators for the examples *)

(** The ASCII functions as the runtime's: what the examples compute with,
    on ASCII text. *)
Definition ascii_text : PyStr.Text.
Proof.
  refine {| PyStr.strip := PyStr.ascii_strip; PyStr.lower := PyStr.ascii_lower |}.
  - reflexivity.
  - assert (Hcons : forall c r,
              PyStr.ascii_rstrip (String c r)
              = match PyStr.ascii_rstrip r with
                | EmptyString =>
                    if PyStr.is_space c then EmptyString else String c EmptyString
                | r' => String c r'
                end) by reflexivity.
    assert (Hkeep : forall c r, PyStr.is_space c = false ->
              PyStr.ascii_rstrip (String c r) = String c (PyStr.ascii_rstrip r)).
    { intros c r Hc. rewrite Hcons, Hc. destruct (PyStr.ascii_rstrip r); reflexivity. }
    assert (Hright : forall s,
              PyStr.ascii_rstrip (PyStr.ascii_rstrip s) = PyStr.ascii_rstrip s).
    { induction s as [|c r IH]; [reflexivity|]. rewrite (Hcons c r).
      destruct (PyStr.ascii_rstrip r) as [|c' r'] eqn:Hr.
      - destruct (PyStr.is_space c) eqn:Hc; [reflexivity|].
        rewrite Hcons. change (PyStr.ascii_rstrip "") with EmptyString.
        rewrite Hc. reflexivity.
      - rewrite Hcons, IH. reflexivity. }
    assert (Hleft : forall s,
              PyStr.ascii_lstrip s = EmptyString \/
              exists c r, PyStr.ascii_lstrip s = String c r /\ PyStr.is_space c = false).
    { induction s as [|c r IH]; [left; reflexivity|].
      change (PyStr.ascii_lstrip (String c r))
        with (if PyStr.is_space c then PyStr.ascii_lstrip r else String c r).
      destruct (PyStr.is_space c) eqn:Hc; [exact IH|].
      right. exists c, r. split; [reflexivity|exact Hc]. }
    intros s. unfold PyStr.ascii_strip.
    destruct (Hleft s) as [-> | (c & r & -> & Hc)]; [reflexivity|].
    rewrite (Hkeep c r Hc).
    change (PyStr.ascii_lstrip (String c (PyStr.ascii_rstrip r)))
      with (if PyStr.is_space c then PyStr.ascii_lstrip (PyStr.ascii_rstrip r)
            else String c (PyStr.ascii_rstrip r)).
    rewrite Hc, (Hkeep c _ Hc), Hright. reflexivity.
  - reflexivity.
  - intros a b. induction a as [|ch a IH]; [reflexivity|].
    change (String (PyStr.lower_char ch) (PyStr.ascii_lower (a +:+ " " +:+ b))
            = String (PyStr.lower_char ch)
                (PyStr.ascii_lower a +:+ " " +:+ PyStr.ascii_lower b)).
    rewrite IH. reflexivity.
Defined.

Definition plain_int_of_str (s : string) : option Z :=
  match NilZero.int_of_string s with
  | Some d => Some (Z.of_int d)
  | None => None
  end.

#[export] Instance plain_helpers : Helpers := {|
  build_upload_dir root date_str tg_user_id ticket_id :=
    root +:+ "/" +:+ date_str +:+ "/" +:+ str_of_Z tg_user_id +:+ "/" +:+ ticket_id;
  make_local_path dir filename := dir +:+ "/" +:+ filename;
  safe_filename name := name;
  py_int_of_str := plain_int_of_str;
  py_str_of_json := fun _ => "{...}";
  py_format_task_id tpl task_id := Ok (tpl +:+ str_of_Z task_id)
|}.

(** A world that answers from scripts: each upload and each POST takes the
    next scripted reply; when a script has run out the connection fails. *)
Module Scripted.

#[local] Existing Instance ascii_text.

Record script : Type := {
  uploads : list (result Z);
  posts : list http_reply;
  linked : option Z
}.

#[export] Instance collaborators : Collaborators script := {|
  bot_get_file w _ := (Ok tt, w);
  download_to_drive w _ _ := (Ok tt, w);
  upload_to_folder w _ _ _ _ _ :=
    match uploads w with
    | [] => (Raise (TransportError "connection reset"), w)
    | r :: rest => (r, {| uploads := rest; posts := posts w; linked := linked w |})
    end;
  http_post w _ _ :=
    match posts w with
    | [] => (HttpRaises (TransportError "connection reset"), w)
    | r :: rest => (r, {| uploads := uploads w; posts := rest; linked := linked w |})
    end;
  _get_linked_bitrix_id w _ := linked w;
  today_isoformat _ := "2026-01-15";
  make_ticket_id w := ("T-0001", w)
|}.

Definition settings : Settings := {|
  upload_dir := "/srv/uploads";
  allowed_tg_users := [];
  bitrix_disk_folder_id := 77;
  bitrix_upload_max_attempts := 3;
  bitrix_upload_parallelism := 2;
  bitrix_default_responsible_id := 1;
  bitrix_group_id := None;
  bitrix_priority := Some 2;
  bitrix_task_url_template := None;
  bitrix_portal_base := None
|}.

Definition alice : TgUser := {| tg_id := 4242; username := Some "alice" |}.

Definition file_a : SavedFile :=
  {| original_name := "a.png"; local_path := "/srv/uploads/a.png" |}.
Definition file_b : SavedFile :=
  {| original_name := "  "; local_path := "/srv/uploads/b.pdf" |}.

(** A draft with title, description and the given staged files. *)
Definition draft (title description : string) (files : list SavedFile)
    : gmap string pyval :=
  <["files" := VFiles files]>
    (<["description" := VStr description]>
       (<["title" := VStr title]> (<["ticket_id" := VStr "T-0001"]> ∅))).

Definition start (w : script) (ud : gmap string pyval) : ctx script :=
  {| world := w; user_data := ud; trace := [] |}.

(** A reply that carries a task but no id the client can read. *)
Definition reply_without_id : http_reply :=
  HttpResponse 200 "{...}"
    (Some (JObj [("result", JObj [("task", JObj [("title", JStr "T")])])])).

Definition reply_with_id (task_id : Z) : http_reply :=
  HttpResponse 200 "{...}"
    (Some (JObj [("result", JObj [("task", JObj [("id", JNum task_id)])])])).

Definition big_document : Message :=
  {| msg_text := None; msg_photo := [];
     msg_document := Some {| doc_file_id := "F1"; doc_file_unique_id := "U1";
                             doc_file_name := Some "dump.bin";
                             doc_file_size := Some 20971521 |} |}.

Definition small_document (n : Z) : Message :=
  {| msg_text := None; msg_photo := [];
     msg_document := Some {| doc_file_id := "F" +:+ str_of_Z n;
                             doc_file_unique_id := "U" +:+ str_of_Z n;
                             doc_file_name := Some ("note" +:+ str_of_Z n +:+ ".txt");
                             doc_file_size := Some 1024 |} |}.

Definition text_message (text : string) : Message :=
  {| msg_text := Some text; msg_photo := []; msg_document := None |}.

(** No scripted replies, user linked to Bitrix user 15. *)
Definition quiet : script := {| uploads := []; posts := []; linked := Some 15 |}.

(** The same, for a user who never linked a profile. *)
Definition unlinked : script := {| uploads := []; posts := []; linked := None |}.

(** The first reply to [tasks.task.add] has no readable id, the second has. *)
Definition unreadable_then_created : script :=
  {| uploads := []; posts := [reply_without_id; reply_with_id 901]; linked := Some 15 |}.

(** A conversation: start by button, title, description, ten documents. *)
Definition ten_files_conversation : list handler_call :=
  [CallCbStartTask; CallOnTitle (text_message "Printer"); 
   CallOnDescription (text_message "Does not print")]
  ++ map (fun n => CallOnAttachment alice (small_document n))
       [1; 2; 3; 4; 5; 6; 7; 8; 9; 10].

Definition ten_files_staged : ctx script :=
  run_handlers settings ten_files_conversation (start quiet ∅).

End Scripted.

(** A world in which the storage service is down: every upload fails at the
    transport. *)
Module Outage.

Definition start : ctx unit := {| world := tt; user_data := ∅; trace := [] |}.

#[export] Instance collaborators : Collaborators unit := {|
  bot_get_file w _ := (Ok tt, w);
  download_to_drive w _ _ := (Ok tt, w);
  upload_to_folder w _ _ _ _ _ := (Raise (TransportError "connect timeout"), w);
  http_post w _ _ := (HttpRaises (TransportError "connect timeout"), w);
  _get_linked_bitrix_id _ _ := Some 15;
  today_isoformat _ := "2026-01-15";
  make_ticket_id w := ("T-0001", w)
|}.

End Outage.

(** ** Predicates the statements use *)

(** The confirm handler's own data check: title or description is empty
    after stripping. *)
Definition missing_data `{!PyStr.Text} (ud : gmap string pyval) : bool :=
  (negb (PyStr.truthy (PyStr.strip (get_str ud "title"))) ||
   negb (PyStr.truthy (PyStr.strip (get_str ud "description"))))%bool.

(** What a coroutine may hold for its file: nothing yet, or exactly one of
    a remote id and the file's label. *)
Definition settled `{!PyStr.Text} (f : SavedFile) (t : task_state) : Prop :=
  match t with
  | Waiting | Attempting _ => True
  | Returned (Some _) None => True
  | Returned None (Some name) => name = _saved_file_label f
  | Returned _ _ => False
  end.

(** While every upload fails with a retryable failure: where the coroutine
    of a file stands after [done] attempts have been logged for it. *)
Definition failing_progress `{!PyStr.Text} (max_attempts : Z) (f : SavedFile) (done : nat)
    (t : task_state) : Prop :=
  match t with
  | Waiting => done = 0%nat
  | Attempting attempt =>
      1 <= attempt <= max_attempts /\ done = Z.to_nat (attempt - 1)
  | Returned file_id failed =>
      file_id = None /\ failed = Some (_saved_file_label f) /\
      done = Z.to_nat max_attempts
  end.

(** Every upload attempt, of any file in any world, fails with a failure the
    classifier marks retryable. *)
Definition always_fails_retryably (W : Type) `{!PyStr.Text} `{!Collaborators W} : Prop :=
  forall (w : W) folder_id path name attempt max_attempts,
  exists exc w',
    upload_to_folder w folder_id path name attempt max_attempts = (Raise exc, w') /\
    _is_retryable_upload_error exc = true.

(** The staged files of a context are within the limit. *)
Definition within_limit {W : Type} (c : ctx W) : Prop :=
  (length (staged_files (user_data c)) <= MAX_ATTACHMENTS_PER_TASK)%nat.

(** The end of a submission that did not create a task. *)
Definition terminal_failure {W : Type} (c : ctx W) : result conv_state * ctx W :=
  (Ok END, {| world := world c; user_data := ∅;
              trace := trace c ++ [ReplyText MSG_CREATE_FAILED] |}).

Definition is_bitrix_error {A : Type} (r : result A) : bool :=
  match r with Raise (BitrixError _ _) => true | _ => false end.


From Stdlib Require DecimalPos.

(** ** Further handlers and helpers of [bot_handlers.py] and [bitrix.py] *)

(** *** [parse_bitrix_user_id] *)

(** An ASCII decimal digit.  [parse_bitrix_user_id] below is the code on
    ASCII text, where [str.isdigit], [\d] and [int] know these ten digits
    only; on other text they also accept the other Unicode digits, and [int]
    may raise, which is not modelled: the statements about parsing are about
    ASCII text. *)
Definition is_digit (c : ascii) : bool :=
  let n := nat_of_ascii c in (Nat.leb 48 n && Nat.leb n 57)%bool.

Fixpoint all_digits (s : string) : bool :=
  match s with
  | EmptyString => true
  | String c r => (is_digit c && all_digits r)%bool
  end.

(** [s.isdigit()] *)
Definition isdigit (s : string) : bool := (PyStr.truthy s && all_digits s)%bool.

(** The longest run of digits [s] starts with, and what follows it. *)
Fixpoint digit_run (s : string) : string :=
  match s with
  | EmptyString => EmptyString
  | String c r => if is_digit c then String c (digit_run r) else EmptyString
  end.

Fixpoint after_digits (s : string) : string :=
  match s with
  | EmptyString => EmptyString
  | String c r => if is_digit c then after_digits r else s
  end.

(** [s[n:]] *)
Fixpoint skip (n : nat) (s : string) : string :=
  match n, s with
  | O, _ => s
  | S n', String _ r => skip n' r
  | S _, EmptyString => EmptyString
  end.

(** [int(s)] on a string of decimal digits *)
Definition int_of_digits (s : string) : Z :=
  match NilZero.uint_of_string s with
  | Some d => Z.of_uint d
  | None => 0
  end.

(** The pattern [/user/(\d+)/] tried at the start of [s]: the group. *)
Definition match_user_segment (s : string) : option string :=
  if PyStr.startswith "/user/" s then
    let rest := skip 6 s in
    let digits := digit_run rest in
    if (PyStr.truthy digits && PyStr.startswith "/" (after_digits rest))%bool
    then Some digits else None
  else None.

(** The pattern [user/(\d+)] tried at the start of [s]: the group. *)
Definition match_user_prefix (s : string) : option string :=
  if PyStr.startswith "user/" s then
    let digits := digit_run (skip 5 s) in
    if PyStr.truthy digits then Some digits else None
  else None.

(** [re.search]: the match at the leftmost position that has one. *)
Fixpoint re_search (match_here : string -> option string) (s : string) : option string :=
  match match_here s with
  | Some group => Some group
  | None =>
      match s with
      | EmptyString => None
      | String _ r => re_search match_here r
      end
  end.

Definition parse_bitrix_user_id `{!PyStr.Text} (text : option string) : option Z :=
  let t := PyStr.strip (or_empty text) in
  if isdigit t then Some (int_of_digits t)
  else
    match re_search match_user_segment t with
    | Some group => Some (int_of_digits group)
    | None =>
        match re_search match_user_prefix t with
        | Some group => Some (int_of_digits group)
        | None => None
        end
    end.

(** *** Menu, hydration and the link conversation *)

Definition BTN_CREATE : string := "📝 Создать задачу".
Definition BTN_LINK : string := "🔗 Привязать профиль".
Definition BTN_HELP : string := "ℹ️ Как найти ID?".
Definition BTN_MY_TASKS : string := "📋 Мои задачи".

Definition MSG_CHOOSE_ACTION : string := "Выберите действие:".
Definition MSG_LINK_HOWTO : string :=
  PyStr.join nl
    [ "Привязать профиль Bitrix24:";
      "Пришлите ссылку на ваш профиль или просто число ID.";
      "";
      "Пример:";
      "https://<portal>.bitrix24.ru/company/personal/user/123/";
      "или: 123" ].
Definition MSG_ID_NOT_UNDERSTOOD : string :=
  "Не понял ID. Пришлите ссылку вида .../user/123/ или просто число 123.".
Definition MSG_LINKED : string :=
  "Готово ✅ Профиль привязан." +:+ nl +:+ "Теперь нажмите «" +:+ BTN_CREATE +:+ "».".

(** Truthiness of a stored value. *)
Definition pyval_truthy (v : pyval) : bool :=
  match v with
  | VStr s => PyStr.truthy s
  | VInt z => negb (z =? 0)
  | VBool b => b
  | VFiles l => match l with [] => false | _ => true end
  end.

(** States of the link conversation. *)
Inductive link_state : Type := LINK_WAIT | LINK_END.

(** [linking.set_linked_bitrix_id]: the write side of the identity link. *)
Class LinkStore (W : Type) : Type := {
  _set_linked_bitrix_id : W -> Z -> Z -> W
}.

(** The multipart POST of [disk.folder.uploadfile]: folder id, local path and
    the name the file is sent under; opening the file may raise as well. *)
Class DiskEndpoint (W : Type) : Type := {
  post_file : W -> Z -> string -> string -> http_reply * W
}.

Section MoreHandlers.
Context {W : Type} `{!PyStr.Text} `{!Collaborators W} `{!Helpers}.
Local Open Scope io_scope.

(** [update.effective_user.id] and [update.message.reply_text]: an update
    need not carry a user or a message (an edited message has no
    [update.message]), and the attribute access on [None] raises. *)
Definition no_attribute (name : string) : exn :=
  OtherException "AttributeError"
    ("'NoneType' object has no attribute '" +:+ name +:+ "'").

Definition cmd_start (settings : Settings) (u : option TgUser) (m : option Message)
    : io W unit :=
  match u with
  | None => io_raise (no_attribute "id")
  | Some u =>
      let text :=
        if negb (_is_allowed settings (tg_id u)) then MSG_FORBIDDEN
        else MSG_CHOOSE_ACTION in
      match m with
      | None => io_raise (no_attribute "reply_text")
      | Some _ => reply_text text
      end
  end.

(** Shows the main menu on the first message, once.  The text is read with
    [getattr] and is empty when there is no message. *)
Definition maybe_show_menu (settings : Settings) (u : option TgUser)
    (m : option Message) : io W unit :=
  ud <- get_user_data ;;
  let shown :=
    match ud !! "_menu_shown" with
    | Some v => pyval_truthy v
    | None => false
    end in
  if shown then io_ret tt
  else
    put_user_data (<["_menu_shown" := VBool true]> ud) ;;;
    let txt :=
      PyStr.strip (or_empty (match m with Some m => msg_text m | None => None end)) in
    if bool_decide (txt ∈ [BTN_CREATE; BTN_LINK; BTN_HELP; BTN_MY_TASKS])
    then io_ret tt
    else cmd_start settings u m.

(** Copies the stored link into the user data before any other handler. *)
Definition hydrate_link (u : option TgUser) : io W unit :=
  match u with
  | None => io_ret tt
  | Some u =>
      w <- get_world ;;
      match _get_linked_bitrix_id w (tg_id u) with
      | Some bid =>
          if bid =? 0 then io_ret tt
          else
            ud <- get_user_data ;;
            put_user_data (<["bitrix_user_id" := VInt bid]> ud)
      | None => io_ret tt
      end
  end.

Definition link_start : io W link_state :=
  reply_text MSG_LINK_HOWTO ;;;
  io_ret LINK_WAIT.

Definition link_receive `{!LinkStore W} (settings : Settings) (u : TgUser) (m : Message)
    : io W link_state :=
  if negb (_is_allowed settings (tg_id u)) then
    reply_text MSG_FORBIDDEN ;;; io_ret LINK_END
  else
    match parse_bitrix_user_id (msg_text m) with
    | None | Some 0 =>
        reply_text MSG_ID_NOT_UNDERSTOOD ;;; io_ret LINK_WAIT
    | Some bitrix_user_id =>
        ask (fun w => (Ok tt, _set_linked_bitrix_id w (tg_id u) bitrix_user_id)) ;;;
        reply_text MSG_LINKED ;;;
        io_ret LINK_END
    end.

(** [BitrixClient.upload_to_folder] as [bitrix.py] defines it. *)
Definition client_upload_to_folder `{!DiskEndpoint W} (folder_id : Z)
    (local_path : string) (filename : option string) : io W Z :=
  let name :=
    match filename with
    | Some f => if PyStr.truthy f then f else basename local_path
    | None => basename local_path
    end in
  r <- ask (fun w => let '(r, w') := post_file w folder_id local_path name in (Ok r, w')) ;;
  match r with
  | HttpRaises e => io_raise e
  | HttpResponse status_code text None =>
      io_raise (non_json_error (str_of_Z status_code) text)
  | HttpResponse _ _ (Some payload) =>
      let read_id :=
        match py_int (subscript (subscript (Some payload) "result") "ID") with
        | Some file_id => io_ret file_id
        | None => io_raise (disk_id_parse_error (py_str_of_json payload))
        end in
      match payload with
      | JObj kv =>
          match assoc "error" kv with
          | Some err =>
              io_raise (BitrixError (json_text err)
                          (match assoc "error_description" kv with
                           | Some d => json_text d
                           | None => ""
                           end))
          | None => read_id
          end
      | JArr l =>
          if existsb is_error_text l
          then io_raise (OtherException "AttributeError" "'list' object has no attribute 'get'")
          else read_id
      | JStr s =>
          if PyStr.contains "error" s
          then io_raise (OtherException "AttributeError" "'str' object has no attribute 'get'")
          else read_id
      | _ => io_raise (OtherException "TypeError" "argument is not iterable")
      end
  end.

End MoreHandlers.

(** ** The storage collaborator's answers to a run of upload calls *)

Section Replay.
Context {W : Type} `{!PyStr.Text} `{!Collaborators W}.

(** The upload calls of a trace made again, in order, from a world: each
    call with the answer [upload_to_folder] gives it, and the world after
    the last. *)
Fixpoint replay (tr : list action) (w : W) : list (upload_call * result Z) * W :=
  match tr with
  | [] => ([], w)
  | DiskUpload call :: rest =>
      let '(r, w') := upload_to_folder w (uc_folder_id call) (uc_local_path call)
                        (uc_filename call) (uc_attempt call) (uc_max_attempts call) in
      let '(answers, w'') := replay rest w' in
      ((call, r) :: answers, w'')
  | _ :: rest => replay rest w
  end.

End Replay.

(** The answers to the calls for the file at index [i]. *)
Definition answers_for (i : nat) (answers : list (upload_call * result Z))
    : list (upload_call * result Z) :=
  List.filter (fun a => Nat.eqb (uc_index a.1) i) answers.

(** The remote id a file ends with: the one of its last answer, when that
    is a success. *)
Definition final_id (answers : list (upload_call * result Z)) : option Z :=
  match last answers with
  | Some (_, Ok file_id) => Some file_id
  | _ => None
  end.

(** The outcome of every file, in input order. *)
Definition outcomes_of (n : nat) (answers : list (upload_call * result Z))
    : list (option Z) :=
  map (fun i => final_id (answers_for i answers)) (seq 0 n).

(** A failure after which [_upload_one] tries again. *)
Definition retried `{!PyStr.Text} (max_attempts : Z) (a : upload_call * result Z) : Prop :=
  exists exc,
    a.2 = Raise exc /\ uc_attempt a.1 < max_attempts /\
    _is_retryable_upload_error exc = true.

(** The retry rule on the answers to one file's calls: the attempts are
    numbered from 1, none is beyond [max_attempts], and an attempt is
    followed by another one exactly when it failed, was not the last one
    allowed and the classifier marks its failure retryable. *)
Definition attempt_rule `{!PyStr.Text} (max_attempts : Z)
    (answers : list (upload_call * result Z)) : Prop :=
  forall k a, answers !! k = Some a ->
    uc_attempt a.1 = Z.of_nat k + 1 /\
    uc_attempt a.1 <= max_attempts /\
    (is_Some (answers !! S k) <-> retried max_attempts a).

(** Where the coroutine of a file stands, given the answers to its calls so
    far. *)
Definition history_state `{!PyStr.Text} (max_attempts : Z) (label : string)
    (answers : list (upload_call * result Z)) (t : task_state) : Prop :=
  (forall k a, answers !! k = Some a ->
     uc_attempt a.1 = Z.of_nat k + 1 /\ uc_attempt a.1 <= max_attempts) /\
  match t with
  | Waiting => answers = []
  | Attempting attempt =>
      attempt = Z.of_nat (length answers) + 1 /\
      Forall (retried max_attempts) answers
  | Returned (Some file_id) None =>
      exists before call,
        answers = (before ++ [(call, Ok file_id)])%list /\
        Forall (retried max_attempts) before
  | Returned None (Some name) =>
      name = label /\
      ((answers = [] /\ max_attempts <= 0) \/
       exists before call exc,
         answers = (before ++ [(call, Raise exc)])%list /\
         Forall (retried max_attempts) before /\
         ~ retried max_attempts (call, Raise exc))
  | Returned _ _ => False
  end.

(** An entry of the session that [(user_data.get(key) or "").strip()]
    can read: a text, absent, or a falsy value of another type.  On a truthy
    value that is not a text, [.strip()] raises [AttributeError]; the
    handlers store only texts under [title] and [description]. *)
Definition reads_as_text (ud : gmap string pyval) (key : string) : Prop :=
  match ud !! key with
  | Some (VStr _) | None => True
  | Some v => pyval_truthy v = false
  end.

(** ** Further predicates the statements use *)

(** A logged upload call carries what the file at its index has. *)
Definition call_matches `{!PyStr.Text} (folder_id max_attempts : Z) (files : list SavedFile)
    (a : action) : Prop :=
  match a with
  | DiskUpload c =>
      exists f, files !! uc_index c = Some f /\
        uc_folder_id c = folder_id /\
        uc_local_path c = local_path f /\
        uc_filename c = _saved_file_label f /\
        uc_max_attempts c = max_attempts /\
        1 <= uc_attempt c <= max_attempts
  | _ => False
  end.

(** Every upload, of any file in any world, succeeds. *)
Definition always_succeeds (W : Type) `{!Collaborators W} : Prop :=
  forall (w : W) folder_id path name attempt max_attempts,
  exists file_id w',
    upload_to_folder w folder_id path name attempt max_attempts = (Ok file_id, w').

(** Every upload fails with a failure the classifier marks terminal. *)
Definition always_fails_terminally (W : Type) `{!PyStr.Text} `{!Collaborators W} : Prop :=
  forall (w : W) folder_id path name attempt max_attempts,
  exists exc w',
    upload_to_folder w folder_id path name attempt max_attempts = (Raise exc, w') /\
    _is_retryable_upload_error exc = false.

(** Every upload fails with a retryable failure before attempt [first_ok]
    and is accepted from that attempt on. *)
Definition succeeds_from (W : Type) `{!PyStr.Text} `{!Collaborators W} (first_ok : Z) : Prop :=
  forall (w : W) folder_id path name attempt max_attempts,
    (attempt < first_ok ->
     exists exc w',
       upload_to_folder w folder_id path name attempt max_attempts = (Raise exc, w') /\
       _is_retryable_upload_error exc = true) /\
    (first_ok <= attempt ->
     exists file_id w',
       upload_to_folder w folder_id path name attempt max_attempts = (Ok file_id, w')).


(** The form fields a confirm posts for a creator. *)
Definition confirm_fields {W : Type} `{!PyStr.Text} `{!Collaborators W} `{!Helpers}
    (settings : Settings) (u : TgUser) (c : ctx W) (creator : option Z)
    : list (string * string) :=
  task_fields (PyStr.strip (get_str (user_data c) "title"))
    (build_task_description (PyStr.strip (get_str (user_data c) "description"))
       (build_initiator_block u)
       (build_attachments_block (staged_files (user_data c)) (upload_dir settings)))
    (bitrix_default_responsible_id settings) (bitrix_group_id settings)
    (bitrix_priority settings) creator.

(** The attachment steps of a conversation: files and the "done" button. *)
Definition is_attachment_step (h : handler_call) : bool :=
  match h with
  | CallOnAttachment _ _ | CallCbAttachmentsDone => true
  | _ => false
  end.

(** A run of attachment steps. *)
Definition attachment_steps (hs : list handler_call) : Prop :=
  Forall (fun h => is_attachment_step h = true) hs.

(** ** More concrete collaborators *)

Module Healthy.

(** A storage service that stores every file and numbers them by attempt. *)
#[export] Instance collaborators : Collaborators Z := {|
  bot_get_file w _ := (Ok tt, w);
  download_to_drive w _ _ := (Ok tt, w);
  upload_to_folder w _ _ _ _ _ := (Ok (100 + w), w + 1);
  http_post w _ _ := (HttpRaises (TransportError "connect timeout"), w);
  _get_linked_bitrix_id _ _ := Some 15;
  today_isoformat _ := "2026-01-15";
  make_ticket_id w := ("T-0001", w)
|}.

Definition start : ctx Z := {| world := 0; user_data := ∅; trace := [] |}.

End Healthy.

Module Denied.

(** A storage service that refuses every upload for good. *)
#[export] Instance collaborators : Collaborators unit := {|
  bot_get_file w _ := (Ok tt, w);
  download_to_drive w _ _ := (Ok tt, w);
  upload_to_folder w _ _ _ _ _ := (Raise (BitrixError "ACCESS_DENIED" "no rights"), w);
  http_post w _ _ := (HttpRaises (TransportError "connect timeout"), w);
  _get_linked_bitrix_id _ _ := Some 15;
  today_isoformat _ := "2026-01-15";
  make_ticket_id w := ("T-0001", w)
|}.

End Denied.

Module Recovering.

(** A storage service that times out once per file and then stores it. *)
#[export] Instance collaborators : Collaborators unit := {|
  bot_get_file w _ := (Ok tt, w);
  download_to_drive w _ _ := (Ok tt, w);
  upload_to_folder w _ _ _ attempt _ :=
    if attempt <? 2 then (Raise (TransportError "read timeout"), w) else (Ok 7, w);
  http_post w _ _ := (HttpRaises (TransportError "connect timeout"), w);
  _get_linked_bitrix_id _ _ := Some 15;
  today_isoformat _ := "2026-01-15";
  make_ticket_id w := ("T-0001", w)
|}.

End Recovering.

Module Flaky.

(** A chat transport whose file download fails. *)
#[export] Instance collaborators : Collaborators unit := {|
  bot_get_file w _ := (Ok tt, w);
  download_to_drive w _ _ := (Raise (TransportError "read timeout"), w);
  upload_to_folder w _ _ _ _ _ := (Ok 1, w);
  http_post w _ _ := (HttpRaises (TransportError "connect timeout"), w);
  _get_linked_bitrix_id _ _ := Some 15;
  today_isoformat _ := "2026-01-15";
  make_ticket_id w := ("T-0001", w)
|}.

End Flaky.

(** The keys of the form [create_task] posts. *)
Definition task_form_keys : list string :=
  [ "fields[TITLE]"; "fields[DESCRIPTION]"; "fields[RESPONSIBLE_ID]";
    "fields[GROUP_ID]"; "fields[PRIORITY]"; "fields[CREATED_BY]" ].

Definition only_task_form_keys (fields : list (string * string)) : Prop :=
  Forall (fun kv => In (fst kv) task_form_keys) fields.

(** A disk endpoint that answers from the script of POST replies. *)
Module ScriptedDisk.

#[export] Instance disk_endpoint : DiskEndpoint Scripted.script := {|
  post_file w _ _ _ :=
    match Scripted.posts w with
    | [] => (HttpRaises (TransportError "connection reset"), w)
    | r :: rest =>
        (r, {| Scripted.uploads := Scripted.uploads w; Scripted.posts := rest;
               Scripted.linked := Scripted.linked w |})
    end
|}.

Definition reply_with_file_id (file_id : string) : http_reply :=
  HttpResponse 200 "{...}" (Some (JObj [("result", JObj [("ID", JStr file_id)])])).

End ScriptedDisk.

(** A deployment whose link template names a field [format] is not given. *)
Module Misconfigured.


Definition settings : Settings := {|
  upload_dir := "/srv/uploads";
  allowed_tg_users := [];
  bitrix_disk_folder_id := 77;
  bitrix_upload_max_attempts := 3;
  bitrix_upload_parallelism := 2;
  bitrix_default_responsible_id := 1;
  bitrix_group_id := None;
  bitrix_priority := Some 2;
  bitrix_task_url_template := Some "https://portal.example/tasks/{id}/";
  bitrix_portal_base := None
|}.

End Misconfigured.

(** A link store kept as a finite map from chat user to Bitrix user. *)
Module Linked.

#[export] Instance collaborators : Collaborators (gmap Z Z) := {|
  bot_get_file w _ := (Ok tt, w);
  download_to_drive w _ _ := (Ok tt, w);
  upload_to_folder w _ _ _ _ _ := (Ok 1, w);
  http_post w _ _ := (HttpRaises (TransportError "connect timeout"), w);
  _get_linked_bitrix_id w tg_user_id := w !! tg_user_id;
  today_isoformat _ := "2026-01-15";
  make_ticket_id w := ("T-0001", w)
|}.

#[export] Instance link_store : LinkStore (gmap Z Z) := {|
  _set_linked_bitrix_id w tg_user_id bitrix_user_id := <[tg_user_id := bitrix_user_id]> w
|}.

Definition start : ctx (gmap Z Z) := {| world := ∅; user_data := ∅; trace := [] |}.

End Linked.

(** Further scripted worlds and contexts. *)
Module MoreScripts.
Import Scripted.

#[local] Existing Instance ascii_text.

(** The task endpoint accepts the first request. *)
Definition created_at_once : script :=
  {| uploads := []; posts := [reply_with_id 901]; linked := Some 15 |}.

(** The first upload is stored, the second is refused for good, and the task
    endpoint accepts the first request. *)
Definition one_upload_refused : script :=
  {| uploads := [Ok 501; Raise (BitrixError "ACCESS_DENIED" "no rights")];
     posts := [reply_with_id 901]; linked := Some 15 |}.

(** The disk endpoint answers with the id of the stored file. *)
Definition file_stored : script :=
  {| uploads := []; posts := [ScriptedDisk.reply_with_file_id "555"]; linked := Some 15 |}.

Definition two_files_confirmed : ctx script :=
  start one_upload_refused (draft "T" "D" [file_a; file_b]).

(** The context of [two_files_confirmed] when the uploads are over. *)
Definition two_files_uploaded : ctx script :=
  (_upload_files_to_bitrix_disk [] (bitrix_disk_folder_id settings) [file_a; file_b]
     (bitrix_upload_max_attempts settings) (bitrix_upload_parallelism settings)
     (at_upload_start two_files_confirmed 2)).2.

(** A session of the [Flaky] world with a ticket and no files. *)
Definition flaky_session : ctx unit :=
  {| world := tt; user_data := draft "T" "D" []; trace := [] |}.

End MoreScripts.

(** * Properties *)

Ltac io_unfold :=
  unfold reply_text, clear_user_data in *;
  unfold io_bind, io_ret, io_raise, io_try, emit, get_user_data,
    put_user_data, get_world, ask in *.

(** ** Strings and the size check *)

Lemma saved_file_label_truthy `{!PyStr.Text} (f : SavedFile) :
  PyStr.truthy (_saved_file_label f) = true.
Proof.
  unfold _saved_file_label.
  destruct (PyStr.truthy (PyStr.strip (original_name f))) eqn:E; [exact E|].
  destruct (PyStr.truthy (basename (local_path f))) eqn:E'; [exact E'|reflexivity].
Qed.

Lemma too_large_iff (size_bytes : option Z) :
  _attachment_too_large size_bytes = true <->
  exists n, size_bytes = Some n /\ MAX_ATTACHMENT_BYTES < n.
Proof.
  unfold _attachment_too_large. split.
  - destruct size_bytes as [n|]; [|discriminate].
    destruct (Z.eqb_spec n 0); [discriminate|].
    intros Hgt. exists n. split; [reflexivity|]. apply Z.gtb_lt in Hgt. lia.
  - intros (n & -> & Hn). unfold MAX_ATTACHMENT_BYTES in *.
    destruct (Z.eqb_spec n 0); [lia|]. apply Z.gtb_lt. lia.
Qed.

(** C10: a missing or zero reported size is never too large, and a size is
    too large exactly when it is reported and strictly above 20 * 1024 * 1024
    bytes. *)
Theorem attachment_too_large_only_above_ceiling (size_bytes : option Z) :
  _attachment_too_large None = false /\
  _attachment_too_large (Some 0) = false /\
  (_attachment_too_large size_bytes = true <->
   exists n, size_bytes = Some n /\ 20 * 1024 * 1024 < n).
Proof.
  split; [reflexivity|]. split; [reflexivity|]. apply too_large_iff.
Qed.

(** ** The classifier on parse failures *)

Lemma parse_error_classified_by_payload `{!PyStr.Text} (payload_text : string) :
  _is_retryable_upload_error (disk_id_parse_error payload_text)
  = mentions_marker payload_text.
Proof.
  unfold _is_retryable_upload_error, disk_id_parse_error, mentions_marker.
  cbv zeta.
  rewrite PyStr.lower_blank.
  rewrite (PyStr.lower_ascii "Cannot parse disk file id from Bitrix response")
    by reflexivity.
  generalize (PyStr.lower payload_text). intros lowered.
  cbn. reflexivity.
Qed.

(** C2, as stated, fails: the reply echoes a file name that contains a word
    of the transient vocabulary, and the parse failure is classified
    retryable.  (The payload is ASCII, where [str.lower] is the ASCII
    function.) *)
Lemma parse_failure_classified_retryable :
  @_is_retryable_upload_error ascii_text
    (disk_id_parse_error "{'result': {'FILE': {'ID': '77', 'NAME': 'internal_notes.txt'}}}")
  = true.
Proof. vm_compute. reflexivity. Qed.

(** C2, amended: the failure raised when the disk file id cannot be parsed is
    classified terminal exactly when the raw payload text, lower-cased by
    [str.lower], contains no marker of the transient vocabulary. *)
Theorem parse_failure_terminal_iff_no_marker `{!PyStr.Text} (payload_text : string) :
  _is_retryable_upload_error (disk_id_parse_error payload_text) = false <->
  Forall (fun marker => PyStr.contains marker (PyStr.lower payload_text) = false)
         retry_markers.
Proof.
  rewrite parse_error_classified_by_payload. unfold mentions_marker.
  rewrite <- not_true_iff_false, existsb_exists, Forall_forall.
  split.
  - intros Hno marker Hin. destruct (PyStr.contains marker _) eqn:E; [|reflexivity].
    exfalso. apply Hno. exists marker. split; [apply list_elem_of_In; exact Hin | exact E].
  - intros Hall (marker & Hin & Hc). apply list_elem_of_In in Hin.
    rewrite (Hall marker Hin) in Hc. discriminate.
Qed.

(** ** Attachment collector *)

Section AttachmentProofs.
Context {W : Type} `{!PyStr.Text} `{!Collaborators W} `{!Helpers}.

Lemma on_attachment_at_limit settings u m (c : ctx W) ticket :
  ticket_of (user_data c) = Some ticket ->
  (MAX_ATTACHMENTS_PER_TASK <= length (staged_files (user_data c)))%nat ->
  on_attachment settings u m c =
    (Ok WAIT_ATTACHMENTS,
     {| world := world c; user_data := user_data c;
        trace := trace c ++ [SendChatAction; ReplyText MSG_LIMIT] |}).
Proof.
  intros Ht Hlen. unfold on_attachment. io_unfold. cbv beta iota. rewrite Ht.
  destruct (Nat.leb_spec MAX_ATTACHMENTS_PER_TASK (length (staged_files (user_data c))));
    [|lia].
  cbn. rewrite <- app_assoc. reflexivity.
Qed.

(** C7: a blob whose reported size exceeds the ceiling is not staged: the
    handler returns with the world and the session untouched, its only
    actions are chat actions (no fetch, no write to the staging area), and on
    a session with room left the reply is the size message and the
    conversation stays at the attachment step. *)
Theorem oversized_blob_not_staged settings u m (c : ctx W) size :
  incoming_blob_size m = Some (Some size) ->
  MAX_ATTACHMENT_BYTES < size ->
  exists st new,
    on_attachment settings u m c =
      (Ok st, {| world := world c; user_data := user_data c; trace := trace c ++ new |}) /\
    Forall (fun a => is_download a = false /\ is_get_file a = false) new /\
    (forall ticket, ticket_of (user_data c) = Some ticket ->
       (length (staged_files (user_data c)) < MAX_ATTACHMENTS_PER_TASK)%nat ->
       st = WAIT_ATTACHMENTS /\ new = [SendChatAction; ReplyText MSG_TOO_LARGE]).
Proof.
  intros Hblob Hsize.
  assert (Hbig : _attachment_too_large (Some size) = true).
  { apply too_large_iff. exists size. split; [reflexivity|exact Hsize]. }
  unfold on_attachment. io_unfold. cbv beta iota.
  destruct (ticket_of (user_data c)) as [ticket|] eqn:Ht.
  - destruct (Nat.leb_spec MAX_ATTACHMENTS_PER_TASK
                (length (staged_files (user_data c)))); cbn.
    + eexists _, [_; _]. rewrite <- app_assoc. split; [reflexivity|]. split.
      * repeat constructor.
      * intros ? _ ?. lia.
    + unfold incoming_blob_size in Hblob.
      destruct (last (msg_photo m)) as [photo|] eqn:Hp.
      * injection Hblob as Hps. rewrite Hps, Hbig. cbn.
        eexists _, [_; _]. rewrite <- app_assoc. split; [reflexivity|]. split.
        -- repeat constructor.
        -- intros. split; reflexivity.
      * destruct (msg_document m) as [doc|]; [|discriminate].
        injection Hblob as Hds. rewrite Hds, Hbig. cbn.
        eexists _, [_; _]. rewrite <- app_assoc. split; [reflexivity|]. split.
        -- repeat constructor.
        -- intros. split; reflexivity.
  - eexists _, [_]. split; [reflexivity|]. split.
    + repeat constructor.
    + intros ? ?. discriminate.
Qed.

End AttachmentProofs.

(** ** Upload orchestrator *)

Section OrchestratorProofs.
Context {W : Type} `{!PyStr.Text} `{!Collaborators W}.

Lemma upload_one_step_advance folder_id max_attempts slots i f tasks t (c : ctx W) :
  tasks !! i = Some t ->
  runnable slots tasks t = true ->
  upload_one_step folder_id max_attempts slots i f tasks c =
    let '(t', new, w') := advance folder_id max_attempts i f t (world c) in
    (Ok (<[i := t']> tasks),
     {| world := w'; user_data := user_data c; trace := trace c ++ new |}).
Proof.
  intros Hi Hrun. unfold upload_one_step, advance. rewrite Hi.
  destruct t as [|attempt|file_id failed]; cbn in Hrun.
  - rewrite Hrun. io_unfold. rewrite app_nil_r. destruct c; reflexivity.
  - destruct (attempt <=? max_attempts).
    + io_unfold. cbn.
      destruct (upload_to_folder (world c) folder_id (local_path f)
                  (_saved_file_label f) attempt max_attempts) as [[file_id|exc] w'].
      * reflexivity.
      * destruct ((attempt <? max_attempts) && _is_retryable_upload_error exc)%bool;
          reflexivity.
    + io_unfold. rewrite app_nil_r. destruct c; reflexivity.
  - discriminate.
Qed.

Lemma pick_in choice candidates i :
  pick choice candidates = Some i -> In i candidates.
Proof.
  unfold pick. destruct candidates as [|i0 rest]; [discriminate|].
  intros Heq.
  assert (Hi : i = nth (choice mod length (i0 :: rest)) (i0 :: rest) i0) by congruence.
  rewrite Hi. apply (nth_In (i0 :: rest)). apply Nat.mod_upper_bound. discriminate.
Qed.

Lemma pick_none choice candidates :
  pick choice candidates = None -> candidates = [].
Proof. unfold pick. destruct candidates; [reflexivity|discriminate]. Qed.

Lemma runnable_indices_in slots tasks i :
  In i (runnable_indices slots tasks) ->
  exists t, tasks !! i = Some t /\ runnable slots tasks t = true.
Proof.
  unfold runnable_indices. rewrite filter_In. intros [_ Hr]. unfold runnable_at in Hr.
  destruct (tasks !! i) as [t|]; [|discriminate]. exists t. split; [reflexivity|exact Hr].
Qed.

Lemma runnable_indices_complete slots tasks i t :
  tasks !! i = Some t -> runnable slots tasks t = true ->
  In i (runnable_indices slots tasks).
Proof.
  intros Hi Hr. unfold runnable_indices. apply filter_In. split.
  - apply in_seq. apply lookup_lt_Some in Hi. lia.
  - unfold runnable_at. rewrite Hi. exact Hr.
Qed.

Lemma holders_zero tasks :
  Forall (fun t => is_attempting t = false) tasks -> holders tasks = 0%nat.
Proof.
  unfold holders. induction 1 as [|t l Ht _ IH]; [reflexivity|].
  cbn. rewrite Ht. exact IH.
Qed.

(** When nothing can run and the semaphore has a slot, every coroutine has
    returned. *)
Lemma nothing_runnable_all_returned slots tasks :
  1 <= slots ->
  runnable_indices slots tasks = [] ->
  Forall (fun t => is_returned t = true) tasks.
Proof.
  intros Hslots Hnone.
  assert (Hnot : forall i t, tasks !! i = Some t -> runnable slots tasks t = false).
  { intros i t Hi. destruct (runnable slots tasks t) eqn:E; [|reflexivity].
    pose proof (runnable_indices_complete _ _ _ _ Hi E) as Hin.
    rewrite Hnone in Hin. destruct Hin. }
  assert (Hna : Forall (fun t => is_attempting t = false) tasks).
  { apply Forall_lookup. intros i t Hi. specialize (Hnot i t Hi).
    destruct t; cbn in *; congruence. }
  apply Forall_lookup. intros i t Hi. specialize (Hnot i t Hi).
  destruct t as [|a|]; cbn [runnable is_returned] in *; try congruence.
  rewrite (holders_zero _ Hna) in Hnot. apply Z.ltb_ge in Hnot. exfalso. lia.
Qed.

Lemma list_sum_insert (l : list nat) i x y :
  l !! i = Some x ->
  (list_sum (<[i := y]> l) + x = list_sum l + y)%nat.
Proof.
  revert i. induction l as [|a l IH]; intros [|i] Hi; try discriminate Hi.
  - injection Hi as ->. simpl. lia.
  - specialize (IH i Hi). simpl. simpl in IH. lia.
Qed.

Lemma total_turns_left_insert max_attempts tasks i t t' :
  tasks !! i = Some t ->
  (total_turns_left max_attempts (<[i := t']> tasks) + turns_left max_attempts t
   = total_turns_left max_attempts tasks + turns_left max_attempts t')%nat.
Proof.
  intros Hi. unfold total_turns_left. rewrite list_fmap_insert.
  apply list_sum_insert. rewrite list_lookup_fmap, Hi. reflexivity.
Qed.

Lemma advance_turns_left folder_id max_attempts i f t (w : W) :
  is_returned t = false ->
  (turns_left max_attempts (advance folder_id max_attempts i f t w).1.1
   < turns_left max_attempts t)%nat.
Proof.
  intros Hr. destruct t as [|attempt|]; [| |discriminate]; cbn.
  - lia.
  - destruct (Z.leb_spec attempt max_attempts).
    + destruct (upload_to_folder _ _ _ _ _ _) as [[file_id|exc] w']; cbn; [lia|].
      destruct (Z.ltb_spec attempt max_attempts); cbn.
      * destruct (_is_retryable_upload_error exc); cbn; lia.
      * lia.
    + cbn. lia.
Qed.

Lemma total_turns_left_cons max_attempts t tasks :
  total_turns_left max_attempts (t :: tasks)
  = (turns_left max_attempts t + total_turns_left max_attempts tasks)%nat.
Proof. reflexivity. Qed.

Lemma total_turns_left_zero max_attempts tasks :
  total_turns_left max_attempts tasks = 0%nat ->
  Forall (fun t => is_returned t = true) tasks.
Proof.
  induction tasks as [|t l IH]; intros Hz; constructor;
    rewrite total_turns_left_cons in Hz.
  - destruct t; unfold turns_left in Hz; [lia|lia|reflexivity].
  - apply IH. lia.
Qed.

Lemma runnable_not_returned slots tasks t :
  runnable slots tasks t = true -> is_returned t = false.
Proof. destruct t; cbn; congruence. Qed.

(** The event loop always hands back the task list; with enough turns every
    coroutine has returned, and a property kept by each resumption holds at
    the end. *)
Lemma event_loop_run (P : list task_state -> W -> list action -> Prop)
    folder_id max_attempts slots files :
  1 <= slots ->
  (forall i f t tasks w tr,
     files !! i = Some f -> tasks !! i = Some t -> is_returned t = false ->
     P tasks w tr ->
     P (<[i := (advance folder_id max_attempts i f t w).1.1]> tasks)
       (advance folder_id max_attempts i f t w).2
       (tr ++ (advance folder_id max_attempts i f t w).1.2)%list) ->
  forall fuel choices tasks (c : ctx W),
    length tasks = length files ->
    (total_turns_left max_attempts tasks <= fuel)%nat ->
    P tasks (world c) (trace c) ->
    exists tasks' c',
      event_loop fuel choices folder_id max_attempts slots files tasks c = (Ok tasks', c') /\
      user_data c' = user_data c /\
      length tasks' = length files /\
      Forall (fun t => is_returned t = true) tasks' /\
      P tasks' (world c') (trace c').
Proof.
  intros Hslots Hstep. induction fuel as [|fuel IH]; intros choices tasks c Hlen Hfuel HP.
  - exists tasks, c. cbn. repeat split; try assumption.
    apply (total_turns_left_zero max_attempts). lia.
  - cbn [event_loop].
    destruct (pick (hd 0%nat choices) (runnable_indices slots tasks)) as [i|] eqn:Hpick.
    + apply pick_in, runnable_indices_in in Hpick as (t & Hi & Hr).
      assert (Hf : exists f, files !! i = Some f).
      { apply lookup_lt_is_Some. rewrite <- Hlen. apply lookup_lt_Some in Hi. exact Hi. }
      destruct Hf as [f Hf]. rewrite Hf. unfold io_bind.
      rewrite (upload_one_step_advance _ _ _ _ _ _ _ _ Hi Hr).
      pose proof (runnable_not_returned _ _ _ Hr) as Hnr.
      pose proof (Hstep i f t tasks (world c) (trace c) Hf Hi Hnr HP) as HP'.
      pose proof (advance_turns_left folder_id max_attempts i f t (world c) Hnr) as Hdec.
      pose proof (total_turns_left_insert max_attempts tasks i t
                    (advance folder_id max_attempts i f t (world c)).1.1 Hi) as Hsum.
      destruct (advance folder_id max_attempts i f t (world c)) as [[t' new] w'].
      cbn [fst snd] in *.
      destruct (IH (tl choices) (<[i := t']> tasks)
                  {| world := w'; user_data := user_data c; trace := trace c ++ new |})
        as (tasks' & c' & Hrun & Hud & Hlen' & Hall & HP'').
      * rewrite length_insert. exact Hlen.
      * lia.
      * exact HP'.
      * exists tasks', c'. repeat split; assumption.
    + apply pick_none in Hpick. exists tasks, c. repeat split; try assumption.
      apply (nothing_runnable_all_returned slots); assumption.
Qed.


Lemma total_turns_left_waiting max_attempts n :
  total_turns_left max_attempts (replicate n Waiting) = enough_turns n max_attempts.
Proof.
  unfold enough_turns. induction n as [|n IH]; [reflexivity|].
  cbn [replicate]. rewrite total_turns_left_cons, IH. unfold turns_left. lia.
Qed.

(** The orchestrator on a non-empty input: it returns, every coroutine has
    returned, and a property kept by each resumption holds at the end. *)
Lemma orchestrator_run (P : list task_state -> W -> list action -> Prop)
    choices folder_id files max_attempts upload_parallelism (c : ctx W) :
  files <> [] ->
  (forall i f t tasks w tr,
     files !! i = Some f -> tasks !! i = Some t -> is_returned t = false ->
     P tasks w tr ->
     P (<[i := (advance folder_id max_attempts i f t w).1.1]> tasks)
       (advance folder_id max_attempts i f t w).2
       (tr ++ (advance folder_id max_attempts i f t w).1.2)%list) ->
  P (replicate (length files) Waiting) (world c) (trace c) ->
  exists tasks c',
    _upload_files_to_bitrix_disk choices folder_id files max_attempts upload_parallelism c
      = (Ok (collect (map task_result tasks)), c') /\
    user_data c' = user_data c /\
    length tasks = length files /\
    Forall (fun t => is_returned t = true) tasks /\
    P tasks (world c') (trace c').
Proof.
  intros Hne Hstep HP. unfold _upload_files_to_bitrix_disk.
  destruct files as [|f0 files']; [congruence|].
  set (files := f0 :: files') in *.
  set (slots := Z.max 1 (Z.min upload_parallelism (Z.of_nat (length files)))).
  destruct (event_loop_run P folder_id max_attempts slots files ltac:(lia) Hstep
              (enough_turns (length files) max_attempts) choices
              (replicate (length files) Waiting) c)
    as (tasks & c' & Hrun & Hud & Hlen & Hall & HP').
  - apply length_replicate.
  - rewrite total_turns_left_waiting. lia.
  - exact HP.
  - exists tasks, c'. unfold io_bind. rewrite Hrun. unfold io_ret.
    repeat split; assumption.
Qed.

Lemma advance_settled folder_id max_attempts i f t (w : W) :
  settled f t -> settled f (advance folder_id max_attempts i f t w).1.1.
Proof.
  destruct t as [|attempt|file_id failed]; cbn; intros Hs; [exact I| |exact Hs].
  destruct (attempt <=? max_attempts); [|reflexivity].
  destruct (upload_to_folder _ _ _ _ _ _) as [[file_id|exc] w']; cbn; [exact I|].
  destruct ((attempt <? max_attempts) && _is_retryable_upload_error exc)%bool;
    cbn; [exact I|reflexivity].
Qed.

Lemma advance_trace folder_id max_attempts i f t (w : W) :
  Forall (fun a => is_disk_upload a = true)
         (advance folder_id max_attempts i f t w).1.2.
Proof.
  destruct t as [|attempt|file_id failed]; cbn; [constructor| |constructor].
  destruct (attempt <=? max_attempts); [|constructor].
  destruct (upload_to_folder _ _ _ _ _ _) as [[file_id|exc] w']; cbn;
    [repeat constructor|].
  destruct ((attempt <? max_attempts) && _is_retryable_upload_error exc)%bool;
    cbn; repeat constructor.
Qed.

Lemma collect_settled files tasks :
  Forall2 settled files tasks ->
  Forall (fun t => is_returned t = true) tasks ->
  collect (map task_result tasks)
  = (omap id (map (fun t => (task_result t).1) tasks),
     failed_names files (map (fun t => (task_result t).1) tasks)).
Proof.
  unfold failed_names.
  induction 1 as [|f t files tasks Hs _ IH]; intros Hall; [reflexivity|].
  inversion Hall as [|? ? Hr Hall']; subst.
  cbn [map collect]. rewrite (IH Hall').
  destruct t as [| |[id|] [name|]]; cbn in Hr, Hs; try discriminate; try contradiction.
  - reflexivity.
  - subst name. cbn. rewrite saved_file_label_truthy. reflexivity.
Qed.

Lemma partition_lengths files (outcomes : list (option Z)) :
  length outcomes = length files ->
  (length (omap id outcomes) + length (failed_names files outcomes) = length files)%nat.
Proof.
  unfold failed_names. revert outcomes.
  induction files as [|f files IH]; intros [|o outcomes] Hlen; try discriminate;
    [reflexivity|].
  injection Hlen as Hlen. specialize (IH outcomes Hlen).
  destruct o; cbn in *; lia.
Qed.

Lemma orchestrator_partition choices folder_id files max_attempts
    upload_parallelism (c : ctx W) :
  exists outcomes new c',
    _upload_files_to_bitrix_disk choices folder_id files max_attempts upload_parallelism c
      = (Ok (omap id outcomes, failed_names files outcomes), c') /\
    length outcomes = length files /\
    (length (omap id outcomes) + length (failed_names files outcomes)
     = length files)%nat /\
    user_data c' = user_data c /\
    trace c' = (trace c ++ new)%list /\
    Forall (fun a => is_disk_upload a = true) new /\
    (_upload_files_to_bitrix_disk choices folder_id [] max_attempts upload_parallelism c
     = (Ok ([], []), c)).
Proof.
  destruct files as [|f0 files'].
  - exists [], [], c. cbn. rewrite app_nil_r. repeat split; constructor.
  - set (files := f0 :: files').
    destruct (orchestrator_run
                (fun tasks _ tr =>
                   Forall2 settled files tasks /\
                   exists new, tr = (trace c ++ new)%list /\
                               Forall (fun a => is_disk_upload a = true) new)
                choices folder_id files max_attempts upload_parallelism c)
      as (tasks & c' & Hrun & Hud & Hlen & Hall & Hset & new & Htr & Hnew).
    + discriminate.
    + intros i f t tasks w tr Hf Ht _ [Hset (new & -> & Hnew)]. split.
      * rewrite <- (list_insert_id files i f Hf).
        apply Forall2_insert; [exact Hset|]. apply advance_settled.
        exact (Forall2_lookup_lr _ _ _ _ _ _ Hset Hf Ht).
      * eexists. rewrite <- app_assoc. split; [reflexivity|].
        apply Forall_app. split; [exact Hnew|apply advance_trace].
    + split.
      * apply Forall2_replicate_r; [reflexivity|].
        apply Forall_forall. intros; exact I.
      * exists []. rewrite app_nil_r. split; [reflexivity|constructor].
    + exists (map (fun t => (task_result t).1) tasks), new, c'.
      rewrite Hrun, (collect_settled files tasks Hset Hall).
      assert (Hlo : length (map (fun t => (task_result t).1) tasks) = length files)
        by (rewrite length_map; exact Hlen).
      repeat split; try assumption. apply partition_lengths. exact Hlo.
Qed.


Lemma attempts_of_app i (tr new : list action) :
  attempts_of i (tr ++ new) = (attempts_of i tr + attempts_of i new)%nat.
Proof. unfold attempts_of. rewrite List.filter_app, length_app. reflexivity. Qed.

Lemma advance_failing folder_id max_attempts i f t (w : W) done :
  always_fails_retryably W ->
  1 <= max_attempts ->
  failing_progress max_attempts f done t ->
  failing_progress max_attempts f
    (done + attempts_of i (advance folder_id max_attempts i f t w).1.2)
    (advance folder_id max_attempts i f t w).1.1.
Proof.
  intros Hfail Hmax Hp. destruct t as [|attempt|file_id failed]; cbn in Hp |- *.
  - subst done. split; [lia|reflexivity].
  - destruct Hp as [Hrange ->].
    destruct (Z.leb_spec attempt max_attempts) as [_|Hgt]; [|lia].
    destruct (Hfail w folder_id (local_path f) (_saved_file_label f) attempt max_attempts)
      as (exc & w' & -> & ->).
    rewrite andb_true_r.
    destruct (Z.ltb_spec attempt max_attempts) as [Hlt|Hge];
      cbn; rewrite Nat.eqb_refl; cbn.
    + split; [lia|]. lia.
    + split; [reflexivity|]. split; [reflexivity|]. lia.
  - destruct Hp as (-> & -> & ->). cbn. repeat split. lia.
Qed.

Lemma advance_other_attempts folder_id max_attempts i j f t (w : W) :
  i <> j -> attempts_of j (advance folder_id max_attempts i f t w).1.2 = 0%nat.
Proof.
  intros Hne.
  assert (Hcall : forall c, uc_index c = i -> attempts_of j [DiskUpload c] = 0%nat).
  { intros c Hc. unfold attempts_of. cbn. rewrite Hc.
    destruct (Nat.eqb_spec i j); [contradiction|reflexivity]. }
  destruct t as [|attempt|file_id failed]; cbn; [reflexivity| |reflexivity].
  destruct (attempt <=? max_attempts); [|reflexivity].
  destruct (upload_to_folder _ _ _ _ _ _) as [[file_id|exc] w']; cbn [fst snd];
    [apply Hcall; reflexivity|].
  destruct ((attempt <? max_attempts) && _is_retryable_upload_error exc)%bool;
    cbn [fst snd]; apply Hcall; reflexivity.
Qed.

Lemma collect_all_failed files tasks :
  Forall2 (fun f t => t = Returned None (Some (_saved_file_label f))) files tasks ->
  collect (map task_result tasks) = ([], map _saved_file_label files).
Proof.
  induction 1 as [|f t files tasks -> _ IH]; [reflexivity|].
  cbn [map collect task_result]. rewrite IH, saved_file_label_truthy. reflexivity.
Qed.

Lemma orchestrator_all_failing choices folder_id files max_attempts
    upload_parallelism (c : ctx W) :
  files <> [] ->
  1 <= max_attempts ->
  always_fails_retryably W ->
  exists c',
    _upload_files_to_bitrix_disk choices folder_id files max_attempts upload_parallelism c
      = (Ok ([], map _saved_file_label files), c') /\
    forall i, (i < length files)%nat ->
      attempts_of i (trace c') = (attempts_of i (trace c) + Z.to_nat max_attempts)%nat.
Proof.
  intros Hne Hmax Hfail.
  destruct (orchestrator_run
              (fun tasks _ tr =>
                 forall i f t, files !! i = Some f -> tasks !! i = Some t ->
                   exists done,
                     attempts_of i tr = (attempts_of i (trace c) + done)%nat /\
                     failing_progress max_attempts f done t)
              choices folder_id files max_attempts upload_parallelism c Hne)
    as (tasks & c' & Hrun & _ & Hlen & Hall & Hinv).
  - intros i f t tasks w tr Hf Ht _ Hinv j g u Hg Hu.
    rewrite attempts_of_app.
    destruct (decide (i = j)) as [<-|Hne'].
    + rewrite list_lookup_insert_eq in Hu by (apply lookup_lt_Some in Ht; exact Ht).
      injection Hu as <-. assert (g = f) as -> by congruence.
      destruct (Hinv i f t Hf Ht) as (done & Hcount & Hp).
      exists (done + attempts_of i (advance folder_id max_attempts i f t w).1.2)%nat.
      split; [lia|]. apply advance_failing; assumption.
    + rewrite list_lookup_insert_ne in Hu by exact Hne'.
      destruct (Hinv j g u Hg Hu) as (done & Hcount & Hp).
      exists done. rewrite (advance_other_attempts _ _ i j) by exact Hne'.
      split; [lia|exact Hp].
  - intros i f t Hf Ht. apply lookup_replicate in Ht as [-> _].
    exists 0%nat. split; [lia|reflexivity].
  - assert (Hret : forall i f t, files !! i = Some f -> tasks !! i = Some t ->
               t = Returned None (Some (_saved_file_label f)) /\
               attempts_of i (trace c')
               = (attempts_of i (trace c) + Z.to_nat max_attempts)%nat).
    { intros i f t Hf Ht. destruct (Hinv i f t Hf Ht) as (done & Hcount & Hp).
      rewrite Forall_lookup in Hall. specialize (Hall i t Ht).
      destruct t as [| |file_id failed]; cbn in Hall; try discriminate.
      destruct Hp as (-> & -> & ->). split; [reflexivity|exact Hcount]. }
    exists c'. split.
    + rewrite Hrun. f_equal. f_equal. apply collect_all_failed.
      apply Forall2_same_length_lookup. split; [symmetry; exact Hlen|].
      intros i f t Hf Ht. apply (Hret i f t Hf Ht).
    + intros i Hi.
      destruct (lookup_lt_is_Some_2 files i Hi) as [f Hf].
      destruct (lookup_lt_is_Some_2 tasks i ltac:(lia)) as [t Ht].
      apply (Hret i f t Hf Ht).
Qed.


End OrchestratorProofs.

(** ** Task submission and the confirm handler *)

Section SubmissionProofs.
Context {W : Type} `{!PyStr.Text} `{!Collaborators W} `{!Helpers}.

Lemma http_posts_app (tr new : list action) :
  http_posts (tr ++ new) = (http_posts tr ++ http_posts new)%list.
Proof. unfold http_posts. apply omap_app. Qed.

Lemma call_effect method data (c : ctx W) :
  user_data (call method data c).2 = user_data c /\
  trace (call method data c).2 = (trace c ++ [HttpPost method data])%list.
Proof.
  unfold call. io_unfold. cbn.
  destruct (http_post (world c) method data) as [[e|status text [payload|]] w']; cbn;
    try (split; reflexivity).
  destruct payload as [| | | s | l | kv]; cbn; try (split; reflexivity).
  - destruct (PyStr.contains "error" s); cbn; split; reflexivity.
  - destruct (existsb is_error_text l); cbn; split; reflexivity.
  - destruct (assoc "error" kv); cbn; split; reflexivity.
Qed.

Lemma create_task_effect title description responsible_id group_id priority created_by
    webdav_file_ids (c : ctx W) :
  let fields := task_fields title description responsible_id group_id priority created_by in
  let out := create_task title description responsible_id group_id priority created_by
               webdav_file_ids c in
  user_data out.2 = user_data c /\
  trace out.2 = (trace c ++ [HttpPost "tasks.task.add" fields])%list.
Proof.
  cbv zeta. unfold create_task, io_bind.
  pose proof (call_effect "tasks.task.add"
                (task_fields title description responsible_id group_id priority created_by) c)
    as Hcall.
  destruct (call _ _ c) as [[resp|e] c1]; cbn [fst snd] in *; [|exact Hcall].
  destruct (py_int (subscript (subscript (subscript (Some resp) "result") "task") "id"));
    [exact Hcall|].
  destruct (py_int (subscript (subscript (Some resp) "result") "id")); exact Hcall.
Qed.

Lemma task_fields_creator title description responsible_id group_id priority created_by :
  has_creator_field (task_fields title description responsible_id group_id priority created_by)
  = match created_by with Some _ => true | None => false end.
Proof.
  unfold task_fields, has_creator_field.
  destruct group_id, priority, created_by; reflexivity.
Qed.

(** The closing report posts nothing: it replies and clears, or it raises
    and leaves the context alone. *)
Lemma report_created_effect settings task_id uploaded_ids failed_files (c : ctx W) :
  (exists text,
     report_created settings task_id uploaded_ids failed_files c =
       (Ok END, {| world := world c; user_data := ∅;
                   trace := trace c ++ [ReplyText text] |})) \/
  (exists e, report_created settings task_id uploaded_ids failed_files c = (Raise e, c)).
Proof.
  unfold report_created. io_unfold.
  destruct (_task_link settings task_id) as [link|e]; [left|right; eexists; reflexivity].
  eexists. cbn. reflexivity.
Qed.

Lemma report_created_posts settings task_id uploaded_ids failed_files (c : ctx W) :
  http_posts (trace (report_created settings task_id uploaded_ids failed_files c).2)
  = http_posts (trace c).
Proof.
  destruct (report_created_effect settings task_id uploaded_ids failed_files c)
    as [[text ->] | [e ->]]; cbn; [|reflexivity].
  rewrite http_posts_app. cbn. apply app_nil_r.
Qed.

Lemma report_failure_eq (c : ctx W) : report_failure c = terminal_failure c.
Proof. reflexivity. Qed.

(** The retry of a submission, for every collaborator: the first
    [create_task] call carries the creator field.  When it fails with a
    [BitrixError], whatever its text, exactly one further call is made,
    without the creator field, and its id is the one reported when it
    succeeds; when it fails with any other exception, or when the second
    call fails, no further call is made and the submission ends with the
    failure message and a cleared session. *)
Lemma submit_retries_on_bitrix_error settings title full_desc created_by
    uploaded_ids failed_files (c : ctx W) :
  let attempt creator :=
    create_task title full_desc (bitrix_default_responsible_id settings)
      (bitrix_group_id settings) (bitrix_priority settings) creator uploaded_ids in
  let fields creator :=
    task_fields title full_desc (bitrix_default_responsible_id settings)
      (bitrix_group_id settings) (bitrix_priority settings) creator in
  let run := submit settings title full_desc created_by uploaded_ids failed_files c in
  exists r1 c1,
    attempt (Some created_by) c = (r1, c1) /\
    http_posts (trace run.2)
    = (http_posts (trace c) ++
       fields (Some created_by) :: (if is_bitrix_error r1 then [fields None] else []))%list /\
    has_creator_field (fields (Some created_by)) = true /\
    has_creator_field (fields None) = false /\
    match r1 with
    | Ok task_id => run = report_created settings task_id uploaded_ids failed_files c1
    | Raise (BitrixError _ _) =>
        exists r2 c2,
          attempt None c1 = (r2, c2) /\
          match r2 with
          | Ok task_id => run = report_created settings task_id uploaded_ids failed_files c2
          | Raise _ => run = terminal_failure c2
          end
    | Raise _ => run = terminal_failure c1
    end.
Proof.
  cbv zeta. unfold submit. cbv beta zeta.
  pose proof (create_task_effect title full_desc (bitrix_default_responsible_id settings)
                (bitrix_group_id settings) (bitrix_priority settings) (Some created_by)
                uploaded_ids c) as [_ Htr1].
  cbv zeta in Htr1.
  destruct (create_task _ _ _ _ _ (Some created_by) _ c) as [r1 c1] eqn:E1.
  cbn [fst snd] in Htr1.
  exists r1, c1. split; [reflexivity|].
  rewrite !task_fields_creator.
  assert (Hposts1 : http_posts (trace c1)
                    = (http_posts (trace c) ++
                       [task_fields title full_desc (bitrix_default_responsible_id settings)
                          (bitrix_group_id settings) (bitrix_priority settings)
                          (Some created_by)])%list).
  { rewrite Htr1, http_posts_app. reflexivity. }
  rewrite ?report_failure_eq.
  destruct r1 as [task_id|e1].
  - rewrite report_created_posts. cbn. repeat split; try reflexivity. exact Hposts1.
  - assert (Hterm : http_posts (trace (terminal_failure c1).2)
                    = http_posts (trace c1)).
    { cbn. rewrite http_posts_app. cbn. apply app_nil_r. }
    destruct e1 as [text|message details|cls text];
      try (rewrite Hterm; cbn; repeat split; try reflexivity; exact Hposts1).
    pose proof (create_task_effect title full_desc (bitrix_default_responsible_id settings)
                  (bitrix_group_id settings) (bitrix_priority settings) None
                  uploaded_ids c1) as [_ Htr2].
    cbv zeta in Htr2.
    destruct (create_task _ _ _ _ _ None _ c1) as [r2 c2] eqn:E2.
    cbn [fst snd] in Htr2.
    assert (Hposts2 : http_posts (trace c2)
                      = (http_posts (trace c) ++
                         [task_fields title full_desc (bitrix_default_responsible_id settings)
                            (bitrix_group_id settings) (bitrix_priority settings)
                            (Some created_by);
                          task_fields title full_desc (bitrix_default_responsible_id settings)
                            (bitrix_group_id settings) (bitrix_priority settings) None])%list).
    { rewrite Htr2, http_posts_app, Hposts1, <- app_assoc. reflexivity. }
    cbn [is_bitrix_error].
    destruct r2 as [task_id|e2].
    + rewrite report_created_posts. repeat split; try exact Hposts2.
      eexists _, _. split; reflexivity.
    + rewrite report_failure_eq.
      split.
      * cbn. rewrite http_posts_app. cbn. rewrite app_nil_r. exact Hposts2.
      * repeat split. eexists _, _. split; reflexivity.
Qed.


Lemma submit_user_data settings title full_desc created_by uploaded_ids failed_files
    (c : ctx W) :
  let c' := (submit settings title full_desc created_by uploaded_ids failed_files c).2 in
  user_data c' = ∅ \/ user_data c' = user_data c.
Proof.
  cbv zeta. unfold submit. cbv beta zeta.
  assert (Hreport : forall task_id (c0 : ctx W),
            user_data c0 = user_data c ->
            user_data (report_created settings task_id uploaded_ids failed_files c0).2 = ∅ \/
            user_data (report_created settings task_id uploaded_ids failed_files c0).2
            = user_data c).
  { intros task_id c0 Hc0.
    destruct (report_created_effect settings task_id uploaded_ids failed_files c0)
      as [[text ->] | [e ->]]; [left; reflexivity|right; exact Hc0]. }
  pose proof (create_task_effect title full_desc (bitrix_default_responsible_id settings)
                (bitrix_group_id settings) (bitrix_priority settings) (Some created_by)
                uploaded_ids c) as [Hud1 _].
  cbv zeta in Hud1.
  destruct (create_task _ _ _ _ _ (Some created_by) _ c) as [[task_id|e1] c1];
    cbn [fst snd] in Hud1.
  - apply Hreport. exact Hud1.
  - destruct e1 as [text|message details|cls text]; try (left; reflexivity).
    pose proof (create_task_effect title full_desc (bitrix_default_responsible_id settings)
                  (bitrix_group_id settings) (bitrix_priority settings) None
                  uploaded_ids c1) as [Hud2 _].
    cbv zeta in Hud2.
    destruct (create_task _ _ _ _ _ None _ c1) as [[task_id|e2] c2];
      cbn [fst snd] in Hud2.
    + apply Hreport. congruence.
    + left; reflexivity.
Qed.

Lemma http_posts_none (new : list action) :
  Forall (fun a => is_http_post a = false) new -> http_posts new = [].
Proof.
  induction 1 as [|a new Ha _ IH]; [reflexivity|].
  destruct a; try discriminate; exact IH.
Qed.

Lemma http_posts_disk_uploads (new : list action) :
  Forall (fun a => is_disk_upload a = true) new -> http_posts new = [].
Proof.
  induction 1 as [|a new Ha _ IH]; [reflexivity|].
  destruct a; try discriminate. exact IH.
Qed.

Lemma confirm_missing_data choices settings u (c : ctx W) :
  missing_data (user_data c) = true ->
  cb_confirm_create choices settings u c =
    (Ok END, {| world := world c; user_data := ∅;
                trace := trace c ++ [AnswerCallback; ReplyText MSG_MISSING_DATA] |}).
Proof.
  unfold missing_data. intros Hm. unfold cb_confirm_create. io_unfold. cbv beta iota.
  cbn [user_data world trace]. rewrite Hm. cbn. rewrite <- app_assoc. reflexivity.
Qed.

Lemma confirm_not_linked choices settings u (c : ctx W) :
  missing_data (user_data c) = false ->
  _get_linked_bitrix_id (world c) (tg_id u) = None ->
  cb_confirm_create choices settings u c =
    (Ok END, {| world := world c; user_data := ∅;
                trace := trace c ++ [AnswerCallback; ReplyText MSG_NOT_LINKED] |}).
Proof.
  unfold missing_data. intros Hm Hl. unfold cb_confirm_create. io_unfold. cbv beta iota.
  cbn [user_data world trace]. rewrite Hm. cbv beta iota. cbn [user_data world trace].
  rewrite Hl. cbn. rewrite <- app_assoc. reflexivity.
Qed.

(** The confirm handler past its two guards, on a session with staged
    files: what it does with the orchestrator's result. *)
Lemma confirm_with_files choices settings u (c : ctx W) created_by :
  missing_data (user_data c) = false ->
  _get_linked_bitrix_id (world c) (tg_id u) = Some created_by ->
  staged_files (user_data c) <> [] ->
  let files := staged_files (user_data c) in
  let title := PyStr.strip (get_str (user_data c) "title") in
  let full_desc :=
    build_task_description (PyStr.strip (get_str (user_data c) "description"))
      (build_initiator_block u) (build_attachments_block files (upload_dir settings)) in
  let say (c0 : ctx W) (texts : list string) : ctx W :=
    {| world := world c0; user_data := user_data c0;
       trace := trace c0 ++ map ReplyText texts |} in
  cb_confirm_create choices settings u c =
    match _upload_files_to_bitrix_disk choices (bitrix_disk_folder_id settings) files
            (bitrix_upload_max_attempts settings) (bitrix_upload_parallelism settings)
            (at_upload_start c (length files)) with
    | (Ok (uploaded_ids, failed_files), c1) =>
        match failed_files, uploaded_ids with
        | _ :: _, [] =>
            (Ok END, {| world := world c1; user_data := ∅;
                        trace := trace c1 ++
                                 [ReplyText (MSG_ALL_UPLOADS_FAILED failed_files)] |})
        | _ :: _, _ =>
            submit settings title full_desc created_by uploaded_ids failed_files
              (say c1 [MSG_SOME_UPLOADS_FAILED failed_files; MSG_CREATING])
        | [], _ =>
            submit settings title full_desc created_by uploaded_ids failed_files
              (say c1 [MSG_CREATING])
        end
    | (Raise e, c1) => (Raise e, c1)
    end.
Proof.
  unfold missing_data. intros Hm Hl Hfiles. cbv zeta.
  unfold cb_confirm_create, at_upload_start. io_unfold. cbv beta iota.
  cbn [user_data world trace]. rewrite Hm. cbv beta iota. cbn [user_data world trace].
  rewrite Hl.
  destruct (staged_files (user_data c)) as [|f0 rest] eqn:Hst; [congruence|].
  cbv beta iota. cbn [user_data world trace]. rewrite <- app_assoc. cbn [app].
  destruct (_upload_files_to_bitrix_disk _ _ _ _ _ _) as [[[uploaded_ids failed_files]|e] c1];
    [|reflexivity].
  destruct failed_files as [|n0 names], uploaded_ids as [|i0 ids]; cbn [map];
    try reflexivity; rewrite <- ?app_assoc; reflexivity.
Qed.

Lemma confirm_without_files choices settings u (c : ctx W) created_by :
  missing_data (user_data c) = false ->
  _get_linked_bitrix_id (world c) (tg_id u) = Some created_by ->
  staged_files (user_data c) = [] ->
  cb_confirm_create choices settings u c =
    submit settings (PyStr.strip (get_str (user_data c) "title"))
      (build_task_description (PyStr.strip (get_str (user_data c) "description"))
         (build_initiator_block u) (build_attachments_block [] (upload_dir settings)))
      created_by [] []
      {| world := world c; user_data := user_data c;
         trace := trace c ++ [AnswerCallback; ReplyText MSG_CREATING] |}.
Proof.
  unfold missing_data. intros Hm Hl Hfiles.
  unfold cb_confirm_create. io_unfold. cbv beta iota.
  cbn [user_data world trace]. rewrite Hm. cbv beta iota. cbn [user_data world trace].
  rewrite Hl, Hfiles. cbv beta iota. cbn [user_data world trace].
  rewrite <- app_assoc. reflexivity.
Qed.

(** The confirm handler leaves the session cleared, or, when the closing
    report raises, as it found it. *)
Lemma confirm_user_data choices settings u (c : ctx W) :
  let c' := (cb_confirm_create choices settings u c).2 in
  user_data c' = ∅ \/ user_data c' = user_data c.
Proof.
  cbv zeta. destruct (missing_data (user_data c)) eqn:Hm.
  { rewrite confirm_missing_data by exact Hm. left; reflexivity. }
  destruct (_get_linked_bitrix_id (world c) (tg_id u)) as [created_by|] eqn:Hl.
  2:{ rewrite confirm_not_linked by assumption. left; reflexivity. }
  destruct (staged_files (user_data c)) as [|f0 rest] eqn:Hst.
  { rewrite (confirm_without_files _ _ _ _ created_by) by assumption.
    apply (submit_user_data settings _ _ created_by [] []
             {| world := world c; user_data := user_data c;
                trace := trace c ++ [AnswerCallback; ReplyText MSG_CREATING] |}). }
  rewrite (confirm_with_files _ _ _ _ created_by) by (try assumption; congruence).
  rewrite Hst.
  destruct (orchestrator_partition choices (bitrix_disk_folder_id settings) (f0 :: rest)
              (bitrix_upload_max_attempts settings) (bitrix_upload_parallelism settings)
              (at_upload_start c (length (f0 :: rest))))
    as (outcomes & new & c1 & -> & _ & _ & Hud & _).
  cbn [user_data at_upload_start] in Hud.
  destruct (failed_names (f0 :: rest) outcomes) as [|n0 names].
  - match goal with
    | |- context [submit ?s ?t ?d ?cb ?up ?fl ?c0] =>
        destruct (submit_user_data s t d cb up fl c0) as [Hsub|Hsub]
    end; [left; exact Hsub|right; rewrite Hsub; exact Hud].
  - destruct (omap id outcomes) as [|i0 ids]; [left; reflexivity|].
    match goal with
    | |- context [submit ?s ?t ?d ?cb ?up ?fl ?c0] =>
        destruct (submit_user_data s t d cb up fl c0) as [Hsub|Hsub]
    end; [left; exact Hsub|right; rewrite Hsub; exact Hud].
Qed.

(** C8: a confirm on a session whose title or description is empty after
    [str.strip] is rejected at once: the handler answers the button, replies
    that data is missing, clears the session and ends the conversation; the
    world is untouched and no call to the storage or ticketing collaborator
    is made.  Nothing is assumed of what the earlier steps validated; the
    two entries are only taken to be such that the handler can read them. *)
Theorem confirm_rejects_missing_data choices settings u (c : ctx W) :
  reads_as_text (user_data c) "title" ->
  reads_as_text (user_data c) "description" ->
  PyStr.strip (get_str (user_data c) "title") = "" \/
  PyStr.strip (get_str (user_data c) "description") = "" ->
  exists new,
    cb_confirm_create choices settings u c =
      (Ok END, {| world := world c; user_data := ∅; trace := trace c ++ new |}) /\
    new = [AnswerCallback; ReplyText MSG_MISSING_DATA] /\
    Forall (fun a => is_collaborator_call a = false) new.
Proof.
  intros _ _ Hempty. eexists. split; [|split; [reflexivity|repeat constructor]].
  apply confirm_missing_data. unfold missing_data.
  destruct Hempty as [-> | ->]; [reflexivity|]. apply orb_true_r.
Qed.

(** C9, amended: a confirm by a user with no linked Bitrix identity, on a
    session whose title and description the handler can read, makes no call
    to the storage or ticketing collaborator, clears the session and ends
    the conversation; the reply is the link-required message when title and
    description are both non-empty after [str.strip], and the missing-data
    message otherwise.  The button-driven start never looks at the link: it
    always opens a session and asks for the title. *)
Theorem confirm_without_link_creates_nothing choices settings u (c : ctx W) :
  reads_as_text (user_data c) "title" ->
  reads_as_text (user_data c) "description" ->
  _get_linked_bitrix_id (world c) (tg_id u) = None ->
  (exists text,
     cb_confirm_create choices settings u c =
       (Ok END, {| world := world c; user_data := ∅;
                   trace := trace c ++ [AnswerCallback; ReplyText text] |}) /\
     text = (if missing_data (user_data c) then MSG_MISSING_DATA else MSG_NOT_LINKED)) /\
  (cb_start_task c).1 = Ok WAIT_TITLE /\
  staged_files (user_data (cb_start_task c).2) = [].
Proof.
  intros _ _ Hl. split; [|split].
  - eexists. split; [|reflexivity].
    destruct (missing_data (user_data c)) eqn:Hm.
    + apply confirm_missing_data. exact Hm.
    + apply confirm_not_linked; assumption.
  - unfold cb_start_task, start_session. io_unfold. cbn.
    destruct (make_ticket_id (world c)); reflexivity.
  - unfold cb_start_task, start_session. io_unfold. cbn.
    destruct (make_ticket_id (world c)); reflexivity.
Qed.

(** C5: on a session with staged files, when the uploads the handler starts
    return no id and a non-empty list of failed names, the confirm ends the
    conversation with the session cleared, its last action is a failure
    reply (the list of the failed names once the data and link checks have
    passed), and the trace holds no POST to the ticketing collaborator
    beyond those it started with. *)
Theorem all_uploads_failed_no_task choices settings u (c : ctx W) failed_files c1 :
  staged_files (user_data c) <> [] ->
  _upload_files_to_bitrix_disk choices (bitrix_disk_folder_id settings)
    (staged_files (user_data c)) (bitrix_upload_max_attempts settings)
    (bitrix_upload_parallelism settings)
    (at_upload_start c (length (staged_files (user_data c))))
  = (Ok ([], failed_files), c1) ->
  failed_files <> [] ->
  exists c' new text,
    cb_confirm_create choices settings u c = (Ok END, c') /\
    user_data c' = ∅ /\
    trace c' = (trace c ++ new ++ [ReplyText text])%list /\
    http_posts (trace c') = http_posts (trace c) /\
    text = (if missing_data (user_data c) then MSG_MISSING_DATA
            else match _get_linked_bitrix_id (world c) (tg_id u) with
                 | None => MSG_NOT_LINKED
                 | Some _ => MSG_ALL_UPLOADS_FAILED failed_files
                 end).
Proof.
  intros Hfiles Hrun Hfailed.
  destruct (missing_data (user_data c)) eqn:Hm.
  { rewrite confirm_missing_data by exact Hm.
    eexists _, [AnswerCallback], _.
    split; [reflexivity|]. cbn [user_data trace].
    split; [reflexivity|]. split; [reflexivity|]. split; [|reflexivity].
    rewrite http_posts_app, (http_posts_none [_; _]) by (repeat constructor).
    apply app_nil_r. }
  destruct (_get_linked_bitrix_id (world c) (tg_id u)) as [created_by|] eqn:Hl.
  2:{ rewrite confirm_not_linked by assumption.
      eexists _, [AnswerCallback], _.
      split; [reflexivity|]. cbn [user_data trace].
      split; [reflexivity|]. split; [reflexivity|]. split; [|reflexivity].
      rewrite http_posts_app, (http_posts_none [_; _]) by (repeat constructor).
    apply app_nil_r. }
  rewrite (confirm_with_files _ _ _ _ created_by) by assumption.
  destruct (orchestrator_partition choices (bitrix_disk_folder_id settings)
              (staged_files (user_data c))
              (bitrix_upload_max_attempts settings) (bitrix_upload_parallelism settings)
              (at_upload_start c (length (staged_files (user_data c)))))
    as (outcomes & new & c1' & Hrun' & _ & _ & _ & Htr & Hnew & _).
  rewrite Hrun in Hrun'. injection Hrun' as _ _ <-.
  rewrite Hrun. destruct failed_files as [|n0 names]; [congruence|].
  exists {| world := world c1; user_data := ∅;
            trace := trace c1 ++ [ReplyText (MSG_ALL_UPLOADS_FAILED (n0 :: names))] |},
         ([AnswerCallback;
           ReplyText (MSG_UPLOADING (length (staged_files (user_data c))))] ++ new)%list,
         (MSG_ALL_UPLOADS_FAILED (n0 :: names)).
  split; [reflexivity|]. split; [reflexivity|].
  cbn [trace]. rewrite Htr. cbn [at_upload_start trace].
  split; [rewrite <- !app_assoc; reflexivity|]. split; [|reflexivity].
  rewrite !http_posts_app, (http_posts_disk_uploads new Hnew).
  change (http_posts [AnswerCallback; ReplyText ?x]) with (@nil (list (string * string))).
  change (http_posts [ReplyText ?x]) with (@nil (list (string * string))).
  rewrite !app_nil_r. reflexivity.
Qed.

End SubmissionProofs.

(** ** Sessions and the attachment limit *)

Lemma staged_files_empty : staged_files ∅ = [].
Proof. reflexivity. Qed.

Lemma staged_files_insert_files (ud : gmap string pyval) l :
  staged_files (<["files" := VFiles l]> ud) = l.
Proof. unfold staged_files. rewrite lookup_insert_eq. reflexivity. Qed.

Lemma staged_files_insert_other (ud : gmap string pyval) key v :
  key <> "files" -> staged_files (<[key := v]> ud) = staged_files ud.
Proof. intros Hne. unfold staged_files. rewrite lookup_insert_ne by exact Hne. reflexivity. Qed.

Lemma staged_files_same_entry (ud ud' : gmap string pyval) :
  ud' !! "files" = ud !! "files" -> staged_files ud' = staged_files ud.
Proof. intros Heq. unfold staged_files. rewrite Heq. reflexivity. Qed.

Section SessionProofs.
Context {W : Type} `{!PyStr.Text} `{!Collaborators W} `{!Helpers}.

Lemma start_session_staged (c : ctx W) :
  staged_files (user_data (start_session c).2) = [].
Proof.
  unfold start_session. io_unfold. cbn.
  destruct (make_ticket_id (world c)); cbn. apply staged_files_insert_files.
Qed.

Lemma start_session_ok (c : ctx W) : exists c', start_session c = (Ok tt, c').
Proof.
  unfold start_session. io_unfold. cbn.
  destruct (make_ticket_id (world c)); cbn. eexists; reflexivity.
Qed.

Lemma stage_within_limit file_id sf saved confirmation (c : ctx W) :
  within_limit c ->
  (length saved < MAX_ATTACHMENTS_PER_TASK)%nat ->
  within_limit (stage file_id sf saved confirmation c).2.
Proof.
  unfold within_limit. intros Hc Hlen. unfold stage. io_unfold. cbn.
  destruct (bot_get_file (world c) file_id) as [[[]|e] w1]; cbn; [|exact Hc].
  destruct (download_to_drive w1 file_id (local_path sf)) as [[[]|e] w2]; cbn; [|exact Hc].
  rewrite staged_files_insert_files, length_app. cbn. lia.
Qed.

Lemma on_attachment_within_limit settings u m (c : ctx W) :
  within_limit c -> within_limit (on_attachment settings u m c).2.
Proof.
  intros Hc. unfold on_attachment. unfold io_bind at 1. unfold get_user_data at 1.
  destruct (ticket_of (user_data c)) as [ticket|]; [|exact Hc].
  unfold io_bind at 1. unfold get_world at 1.
  unfold io_bind at 1. unfold emit at 1.
  set (c1 := {| world := world c; user_data := user_data c;
                trace := trace c ++ [SendChatAction] |}).
  assert (Hc1 : within_limit c1) by exact Hc.
  destruct (Nat.leb_spec MAX_ATTACHMENTS_PER_TASK (length (staged_files (user_data c))))
    as [Hfull|Hroom]; [exact Hc|].
  destruct (last (msg_photo m)) as [photo|].
  - destruct (_attachment_too_large (photo_file_size photo)); [exact Hc|].
    apply stage_within_limit; assumption.
  - destruct (msg_document m) as [doc|]; [|exact Hc].
    destruct (_attachment_too_large (doc_file_size doc)); [exact Hc|].
    apply stage_within_limit; assumption.
Qed.

Lemma empty_within_limit (c : ctx W) : user_data c = ∅ -> within_limit c.
Proof. unfold within_limit. intros ->. rewrite staged_files_empty. cbn. lia. Qed.

(** Every handler of the task conversation keeps the staged files within
    the limit. *)
Lemma handler_within_limit settings h (c : ctx W) :
  within_limit c -> within_limit (run_handler settings h c).2.
Proof.
  intros Hc. destruct h as [u| |m|m|u m| | | |choices u]; cbn [run_handler].
  - unfold cmd_task. unfold io_bind at 1. unfold get_world at 1.
    assert (Hstart : within_limit
              ((start_session ;;; reply_text MSG_ASK_TITLE ;;; io_ret WAIT_TITLE)%io c).2).
    { unfold within_limit, io_bind at 1.
      pose proof (start_session_staged c) as Hs.
      destruct (start_session_ok c) as [c' Hc']. rewrite Hc' in Hs |- *.
      cbn in Hs |- *. rewrite Hs. cbn. lia. }
    destruct (_get_linked_bitrix_id (world c) (tg_id u)) as [[|p|p]|];
      try exact Hc;
      (destruct (_is_allowed settings (tg_id u)); [exact Hstart|exact Hc]).
  - unfold cb_start_task. unfold io_bind at 1. unfold emit at 1.
    unfold within_limit, io_bind at 1.
    set (c0 := {| world := world c; user_data := user_data c;
                  trace := trace c ++ [AnswerCallback] |}).
    pose proof (start_session_staged c0) as Hs.
    destruct (start_session_ok c0) as [c' Hc']. rewrite Hc' in Hs |- *.
    cbn in Hs |- *. rewrite Hs. cbn. lia.
  - unfold on_title.
    destruct (negb (PyStr.truthy (PyStr.strip (or_empty (msg_text m))))); [exact Hc|].
    unfold within_limit. cbn. rewrite staged_files_insert_other by discriminate. exact Hc.
  - unfold on_description.
    destruct (negb (PyStr.truthy (PyStr.strip (or_empty (msg_text m))))); [exact Hc|].
    unfold within_limit. cbn. rewrite staged_files_insert_other by discriminate. exact Hc.
  - apply on_attachment_within_limit. exact Hc.
  - exact Hc.
  - apply empty_within_limit. reflexivity.
  - apply empty_within_limit. reflexivity.
  - destruct (confirm_user_data choices settings u c) as [Hsub|Hsub].
    + apply empty_within_limit. exact Hsub.
    + unfold within_limit. rewrite Hsub. exact Hc.
Qed.

Lemma reachable_within_limit settings (c : ctx W) :
  session_reachable settings c -> within_limit c.
Proof.
  induction 1 as [c Hfresh|c h _ IH|c c' _ IH Hsame].
  - unfold within_limit, staged_files. rewrite Hfresh. cbn. lia.
  - apply handler_within_limit. exact IH.
  - unfold within_limit. rewrite (staged_files_same_entry _ _ Hsame). exact IH.
Qed.

(** C6: in every context the conversation can reach, at most 10 files are
    staged; and an attachment event on a session that already holds 10 is
    answered with the limit message at the attachment step, with the world
    and the session, its staged files included, left as they were. *)
Theorem staged_count_never_exceeds_limit settings (c : ctx W) :
  session_reachable settings c ->
  (length (staged_files (user_data c)) <= 10)%nat /\
  forall u m ticket,
    ticket_of (user_data c) = Some ticket ->
    length (staged_files (user_data c)) = 10%nat ->
    on_attachment settings u m c =
      (Ok WAIT_ATTACHMENTS,
       {| world := world c; user_data := user_data c;
          trace := trace c ++ [SendChatAction; ReplyText MSG_LIMIT] |}) /\
    staged_files (user_data (on_attachment settings u m c).2)
    = staged_files (user_data c).
Proof.
  intros Hreach. split.
  - exact (reachable_within_limit settings c Hreach).
  - intros u m ticket Ht Hlen.
    assert (Hrej := on_attachment_at_limit settings u m c ticket Ht
                      ltac:(unfold MAX_ATTACHMENTS_PER_TASK; lia)).
    split; [exact Hrej|]. rewrite Hrej. reflexivity.
Qed.

Lemma reachable_after settings hs (c : ctx W) :
  session_reachable settings c -> session_reachable settings (run_handlers settings hs c).
Proof.
  revert c. induction hs as [|h hs IH]; intros c Hc; [exact Hc|].
  cbn [run_handlers]. apply IH. apply reach_handler. exact Hc.
Qed.

End SessionProofs.

(** * Further properties *)

(** ** The orchestrator under any collaborator *)

Section MoreOrchestratorProofs.
Context {W : Type} `{!PyStr.Text} `{!Collaborators W}.

(** The orchestrator with a per-file count: a relation between a file, the
    number of its logged attempts and its coroutine that each resumption
    keeps holds for every file at the end. *)
Lemma orchestrator_tracks (Q : SavedFile -> nat -> task_state -> Prop)
    choices folder_id files max_attempts upload_parallelism (c : ctx W) :
  files <> [] ->
  (forall f, Q f 0%nat Waiting) ->
  (forall i f t w done,
     files !! i = Some f -> is_returned t = false -> Q f done t ->
     Q f (done + attempts_of i (advance folder_id max_attempts i f t w).1.2)%nat
       (advance folder_id max_attempts i f t w).1.1) ->
  exists tasks c',
    _upload_files_to_bitrix_disk choices folder_id files max_attempts upload_parallelism c
      = (Ok (collect (map task_result tasks)), c') /\
    length tasks = length files /\
    forall i f, files !! i = Some f ->
      exists fid failed done,
        tasks !! i = Some (Returned fid failed) /\
        attempts_of i (trace c') = (attempts_of i (trace c) + done)%nat /\
        Q f done (Returned fid failed).
Proof.
  intros Hne Hstart Hkeep.
  destruct (orchestrator_run
              (fun tasks _ tr =>
                 forall i f t, files !! i = Some f -> tasks !! i = Some t ->
                   exists done,
                     attempts_of i tr = (attempts_of i (trace c) + done)%nat /\
                     Q f done t)
              choices folder_id files max_attempts upload_parallelism c Hne)
    as (tasks & c' & Hrun & _ & Hlen & Hall & Hinv).
  - intros i f t tasks w tr Hf Ht Hnr Hinv j g u Hg Hu.
    rewrite attempts_of_app.
    destruct (decide (i = j)) as [<-|Hne'].
    + rewrite list_lookup_insert_eq in Hu by (apply lookup_lt_Some in Ht; exact Ht).
      injection Hu as <-. assert (g = f) as -> by congruence.
      destruct (Hinv i f t Hf Ht) as (done & Hcount & HQ).
      exists (done + attempts_of i (advance folder_id max_attempts i f t w).1.2)%nat.
      split; [lia|]. apply Hkeep; assumption.
    + rewrite list_lookup_insert_ne in Hu by exact Hne'.
      destruct (Hinv j g u Hg Hu) as (done & Hcount & HQ).
      exists done. rewrite (advance_other_attempts _ _ i j) by exact Hne'.
      split; [lia|exact HQ].
  - intros i f t Hf Ht. apply lookup_replicate in Ht as [-> _].
    exists 0%nat. split; [lia|apply Hstart].
  - exists tasks, c'. split; [exact Hrun|]. split; [exact Hlen|].
    intros i f Hf.
    destruct (lookup_lt_is_Some_2 tasks i) as [t Ht].
    { rewrite Hlen. apply lookup_lt_Some in Hf. exact Hf. }
    destruct (Hinv i f t Hf Ht) as (done & Hcount & HQ).
    rewrite Forall_lookup in Hall. specialize (Hall i t Ht).
    destruct t as [| |fid failed]; cbn in Hall; try discriminate.
    exists fid, failed, done. repeat split; assumption.
Qed.


Lemma advance_calls_match folder_id max_attempts files i f t (w : W) :
  files !! i = Some f ->
  match t with Attempting attempt => 1 <= attempt | _ => True end ->
  Forall (call_matches folder_id max_attempts files)
         (advance folder_id max_attempts i f t w).1.2 /\
  match (advance folder_id max_attempts i f t w).1.1 with
  | Attempting attempt => 1 <= attempt
  | _ => True
  end.
Proof.
  intros Hf Hone. destruct t as [|attempt|file_id failed]; cbn [advance].
  - cbn. split; [constructor|lia].
  - destruct (Z.leb_spec attempt max_attempts) as [Hle|Hgt];
      [|cbn; split; [constructor|exact I]].
    assert (Hcall : call_matches folder_id max_attempts files
              (DiskUpload {| uc_index := i; uc_folder_id := folder_id;
                             uc_local_path := local_path f;
                             uc_filename := _saved_file_label f;
                             uc_attempt := attempt;
                             uc_max_attempts := max_attempts |})).
    { exists f. cbn. repeat split; try reflexivity; try assumption. }
    destruct (upload_to_folder _ _ _ _ _ _) as [[file_id|exc] w']; cbn [fst snd].
    + split; [repeat constructor; exact Hcall|exact I].
    + destruct ((attempt <? max_attempts) && _is_retryable_upload_error exc)%bool;
        cbn [fst snd]; (split; [repeat constructor; exact Hcall|]); [lia|exact I].
  - cbn. split; [constructor|exact I].
Qed.

(** Every call the orchestrator logs is a call for one of the input files. *)
Lemma orchestrator_calls_match choices folder_id files max_attempts
    upload_parallelism (c : ctx W) :
  exists r new c',
    _upload_files_to_bitrix_disk choices folder_id files max_attempts upload_parallelism c
      = (Ok r, c') /\
    trace c' = (trace c ++ new)%list /\
    Forall (call_matches folder_id max_attempts files) new.
Proof.
  destruct files as [|f0 files'].
  { exists ([], []), [], c. cbn. rewrite app_nil_r. repeat split; constructor. }
  set (files := f0 :: files').
  destruct (orchestrator_run
              (fun tasks _ tr =>
                 (exists new, tr = (trace c ++ new)%list /\
                    Forall (call_matches folder_id max_attempts files) new) /\
                 forall i t, tasks !! i = Some t ->
                   match t with Attempting attempt => 1 <= attempt | _ => True end)
              choices folder_id files max_attempts upload_parallelism c)
    as (tasks & c' & Hrun & _ & _ & _ & (new & Htr & Hnew) & _).
  - discriminate.
  - intros i f t tasks w tr Hf Ht _ [(new & -> & Hnew) Hone].
    destruct (advance_calls_match folder_id max_attempts files i f t w Hf (Hone i t Ht))
      as [Hcalls Hone'].
    split.
    + eexists. rewrite <- app_assoc. split; [reflexivity|].
      apply Forall_app. split; assumption.
    + intros j u Hu. destruct (decide (i = j)) as [<-|Hne].
      * rewrite list_lookup_insert_eq in Hu by (apply lookup_lt_Some in Ht; exact Ht).
        injection Hu as <-. exact Hone'.
      * rewrite list_lookup_insert_ne in Hu by exact Hne. exact (Hone j u Hu).
  - split.
    + exists []. rewrite app_nil_r. split; [reflexivity|constructor].
    + intros i t Ht. apply lookup_replicate in Ht as [-> _]. exact I.
  - exists (collect (map task_result tasks)), new, c'. repeat split; assumption.
Qed.


(** X3: every upload call the orchestrator makes is for one of the input
    files: it carries the configured folder, that file's staging path, its
    label as the name to store it under, and an attempt number between 1 and
    [max_attempts]. *)
Theorem upload_calls_carry_their_file choices folder_id files max_attempts
    upload_parallelism (c : ctx W) :
  exists r new c',
    _upload_files_to_bitrix_disk choices folder_id files max_attempts upload_parallelism c
      = (Ok r, c') /\
    trace c' = (trace c ++ new)%list /\
    Forall (call_matches folder_id max_attempts files) new.
Proof.
  apply orchestrator_calls_match.
Qed.

Lemma attempts_of_one_call i call :
  uc_index call = i -> attempts_of i [DiskUpload call] = 1%nat.
Proof. intros Hc. unfold attempts_of. cbn. rewrite Hc, Nat.eqb_refl. reflexivity. Qed.

Lemma collect_all_uploaded tasks :
  Forall (fun t => exists file_id, t = Returned (Some file_id) None) tasks ->
  exists uploaded,
    collect (map task_result tasks) = (uploaded, []) /\ length uploaded = length tasks.
Proof.
  induction 1 as [|t tasks [file_id ->] _ (uploaded & IH & Hlen)].
  - exists []. split; reflexivity.
  - exists (file_id :: uploaded). cbn [map collect task_result]. rewrite IH.
    split; [reflexivity|]. cbn [length]. rewrite Hlen. reflexivity.
Qed.

(** X4: when the storage collaborator accepts every upload and
    [max_attempts >= 1], every file is attempted exactly once, nothing is
    reported as failed and one remote id per file comes back, for every
    choice of the event loop. *)
Theorem accepted_uploads_attempted_once choices folder_id files max_attempts
    upload_parallelism (c : ctx W) :
  1 <= max_attempts ->
  always_succeeds W ->
  exists uploaded c',
    _upload_files_to_bitrix_disk choices folder_id files max_attempts upload_parallelism c
      = (Ok (uploaded, []), c') /\
    length uploaded = length files /\
    forall i, (i < length files)%nat ->
      attempts_of i (trace c') = (attempts_of i (trace c) + 1)%nat.
Proof.
  intros Hmax Hok.
  destruct files as [|f0 files'].
  { exists [], c. split; [reflexivity|]. split; [reflexivity|]. cbn. intros i Hi. lia. }
  set (files := f0 :: files').
  destruct (orchestrator_tracks
              (fun _ done t =>
                 match t with
                 | Waiting => done = 0%nat
                 | Attempting attempt => attempt = 1 /\ done = 0%nat
                 | Returned file_id failed =>
                     is_Some file_id /\ failed = None /\ done = 1%nat
                 end)
              choices folder_id files max_attempts upload_parallelism c)
    as (tasks & c' & Hrun & Hlen & Hfin).
  - discriminate.
  - intros f. reflexivity.
  - intros i f t w done _ _ Hp.
    destruct t as [|attempt|file_id failed]; cbn [advance].
    + subst done. cbn. split; reflexivity.
    + destruct Hp as [-> ->].
      destruct (Z.leb_spec 1 max_attempts) as [_|Hgt]; [|lia].
      destruct (Hok w folder_id (local_path f) (_saved_file_label f) 1 max_attempts)
        as (file_id & w' & ->).
      cbn [fst snd]. rewrite attempts_of_one_call by reflexivity.
      split; [eexists; reflexivity|]. split; reflexivity.
    + cbn [fst snd]. unfold attempts_of at 1. cbn [List.filter length].
      rewrite Nat.add_0_r. exact Hp.
  - assert (Hall : Forall (fun t => exists file_id, t = Returned (Some file_id) None) tasks).
    { apply Forall_lookup. intros i t Ht.
      destruct (lookup_lt_is_Some_2 files i) as [f Hf].
      { rewrite <- Hlen. apply lookup_lt_Some in Ht. exact Ht. }
      destruct (Hfin i f Hf) as (fid & failed & done & Ht' & _ & [id ->] & -> & _).
      exists id. congruence. }
    destruct (collect_all_uploaded tasks Hall) as (uploaded & Hcollect & Hlen').
    exists uploaded, c'. rewrite Hrun, Hcollect. split; [reflexivity|].
    split; [congruence|].
    intros i Hi. destruct (lookup_lt_is_Some_2 files i Hi) as [f Hf].
    destruct (Hfin i f Hf) as (fid & failed & done & _ & Hcount & _ & _ & ->).
    exact Hcount.
Qed.

(** X5: when every upload fails with a failure the classifier marks
    terminal and [max_attempts >= 1], every file is attempted exactly once
    and reported as failed, whatever [max_attempts] allows. *)
Theorem terminal_failures_not_retried choices folder_id files max_attempts
    upload_parallelism (c : ctx W) :
  1 <= max_attempts ->
  always_fails_terminally W ->
  exists c',
    _upload_files_to_bitrix_disk choices folder_id files max_attempts upload_parallelism c
      = (Ok ([], map _saved_file_label files), c') /\
    forall i, (i < length files)%nat ->
      attempts_of i (trace c') = (attempts_of i (trace c) + 1)%nat.
Proof.
  intros Hmax Hfail.
  destruct files as [|f0 files'].
  { exists c. split; [reflexivity|]. cbn. intros i Hi. lia. }
  set (files := f0 :: files').
  destruct (orchestrator_tracks
              (fun f done t =>
                 match t with
                 | Waiting => done = 0%nat
                 | Attempting attempt => attempt = 1 /\ done = 0%nat
                 | Returned file_id failed =>
                     file_id = None /\ failed = Some (_saved_file_label f) /\
                     done = 1%nat
                 end)
              choices folder_id files max_attempts upload_parallelism c)
    as (tasks & c' & Hrun & Hlen & Hfin).
  - discriminate.
  - intros f. reflexivity.
  - intros i f t w done _ _ Hp.
    destruct t as [|attempt|file_id failed]; cbn [advance].
    + subst done. cbn. split; reflexivity.
    + destruct Hp as [-> ->].
      destruct (Z.leb_spec 1 max_attempts) as [_|Hgt]; [|lia].
      destruct (Hfail w folder_id (local_path f) (_saved_file_label f) 1 max_attempts)
        as (exc & w' & -> & ->).
      rewrite andb_false_r. cbn [fst snd].
      rewrite attempts_of_one_call by reflexivity. repeat split.
    + cbn [fst snd]. unfold attempts_of at 1. cbn [List.filter length].
      rewrite Nat.add_0_r. exact Hp.
  - exists c'. split.
    + rewrite Hrun. f_equal. f_equal. apply collect_all_failed.
      apply Forall2_same_length_lookup. split; [symmetry; exact Hlen|].
      intros i f t Hf Ht.
      destruct (Hfin i f Hf) as (fid & failed & done & Ht' & _ & -> & -> & _).
      congruence.
    + intros i Hi. destruct (lookup_lt_is_Some_2 files i Hi) as [f Hf].
      destruct (Hfin i f Hf) as (fid & failed & done & _ & Hcount & _ & _ & ->).
      exact Hcount.
Qed.

(** X6: with [max_attempts <= 0] the attempt loop is empty: the
    orchestrator calls nobody, leaves the context as it was and reports every
    file as failed. *)
Theorem no_attempts_allowed_fails_all choices folder_id files max_attempts
    upload_parallelism (c : ctx W) :
  max_attempts <= 0 ->
  _upload_files_to_bitrix_disk choices folder_id files max_attempts upload_parallelism c
  = (Ok ([], map _saved_file_label files), c).
Proof.
  intros Hmax.
  destruct files as [|f0 files']; [reflexivity|].
  set (files := f0 :: files').
  destruct (orchestrator_run
              (fun tasks w tr =>
                 w = world c /\ tr = trace c /\
                 Forall2 (fun f t => t = Waiting \/ t = Attempting 1 \/
                                     t = Returned None (Some (_saved_file_label f)))
                         files tasks)
              choices folder_id files max_attempts upload_parallelism c)
    as (tasks & c' & Hrun & Hud & Hlen & Hall & Hw & Htr & Hshape).
  - discriminate.
  - intros i f t tasks w tr Hf Ht _ (-> & -> & Hshape).
    pose proof (Forall2_lookup_lr _ _ _ _ _ _ Hshape Hf Ht) as Ht'.
    assert (Hadv : advance folder_id max_attempts i f t (world c)
                   = (match t with
                      | Waiting => Attempting 1
                      | Attempting _ => Returned None (Some (_saved_file_label f))
                      | Returned _ _ => t
                      end, [], world c)).
    { destruct Ht' as [-> | [-> | ->]]; cbn [advance]; try reflexivity.
      destruct (Z.leb_spec 1 max_attempts); [lia|reflexivity]. }
    rewrite Hadv. cbn [fst snd]. rewrite app_nil_r.
    split; [reflexivity|]. split; [reflexivity|].
    rewrite <- (list_insert_id files i f Hf).
    apply Forall2_insert; [exact Hshape|].
    destruct Ht' as [-> | [-> | ->]]; auto.
  - split; [reflexivity|]. split; [reflexivity|].
    apply Forall2_replicate_r; [reflexivity|].
    apply Forall_forall. intros f _. left. reflexivity.
  - rewrite Hrun. f_equal.
    + f_equal. apply collect_all_failed.
      apply Forall2_same_length_lookup. split; [symmetry; exact Hlen|].
      intros i f t Hf Ht.
      pose proof (Forall2_lookup_lr _ _ _ _ _ _ Hshape Hf Ht) as Ht'.
      rewrite Forall_lookup in Hall. specialize (Hall i t Ht).
      destruct Ht' as [-> | [-> | ->]]; cbn in Hall; try discriminate. reflexivity.
    + destruct c, c'; cbn in *. congruence.
Qed.

(** X7: when every upload times out or fails retryably before attempt
    [first_ok] and is accepted from then on, and [first_ok] is within
    [max_attempts], every file is uploaded after exactly [first_ok] attempts
    and nothing is reported as failed, for every choice of the event loop. *)
Theorem uploads_retried_until_accepted choices folder_id files max_attempts
    upload_parallelism first_ok (c : ctx W) :
  1 <= first_ok <= max_attempts ->
  succeeds_from W first_ok ->
  exists uploaded c',
    _upload_files_to_bitrix_disk choices folder_id files max_attempts upload_parallelism c
      = (Ok (uploaded, []), c') /\
    length uploaded = length files /\
    forall i, (i < length files)%nat ->
      attempts_of i (trace c') = (attempts_of i (trace c) + Z.to_nat first_ok)%nat.
Proof.
  intros Hfirst Hok.
  destruct files as [|f0 files'].
  { exists [], c. split; [reflexivity|]. split; [reflexivity|]. cbn. intros i Hi. lia. }
  set (files := f0 :: files').
  destruct (orchestrator_tracks
              (fun _ done t =>
                 match t with
                 | Waiting => done = 0%nat
                 | Attempting attempt =>
                     1 <= attempt <= first_ok /\ done = Z.to_nat (attempt - 1)
                 | Returned file_id failed =>
                     is_Some file_id /\ failed = None /\ done = Z.to_nat first_ok
                 end)
              choices folder_id files max_attempts upload_parallelism c)
    as (tasks & c' & Hrun & Hlen & Hfin).
  - discriminate.
  - intros f. reflexivity.
  - intros i f t w done _ _ Hp.
    destruct t as [|attempt|file_id failed]; cbn [advance].
    + subst done. cbn [fst snd]. unfold attempts_of. cbn [List.filter length].
      split; [lia|reflexivity].
    + destruct Hp as [Hrange ->].
      destruct (Z.leb_spec attempt max_attempts) as [_|Hgt]; [|lia].
      destruct (Hok w folder_id (local_path f) (_saved_file_label f) attempt max_attempts)
        as [Hbefore Hfrom].
      destruct (Z.lt_ge_cases attempt first_ok) as [Hlt|Hge].
      * destruct (Hbefore Hlt) as (exc & w' & -> & Hretry). rewrite Hretry.
        destruct (Z.ltb_spec attempt max_attempts) as [_|Hge']; [|lia].
        cbn [andb fst snd]. rewrite attempts_of_one_call by reflexivity.
        split; [lia|]. lia.
      * destruct (Hfrom Hge) as (file_id & w' & ->).
        cbn [fst snd]. rewrite attempts_of_one_call by reflexivity.
        split; [eexists; reflexivity|]. split; [reflexivity|]. lia.
    + cbn [fst snd]. unfold attempts_of at 1. cbn [List.filter length].
      rewrite Nat.add_0_r. exact Hp.
  - assert (Hall : Forall (fun t => exists file_id, t = Returned (Some file_id) None) tasks).
    { apply Forall_lookup. intros i t Ht.
      destruct (lookup_lt_is_Some_2 files i) as [f Hf].
      { rewrite <- Hlen. apply lookup_lt_Some in Ht. exact Ht. }
      destruct (Hfin i f Hf) as (fid & failed & done & Ht' & _ & [id ->] & -> & _).
      exists id. congruence. }
    destruct (collect_all_uploaded tasks Hall) as (uploaded & Hcollect & Hlen').
    exists uploaded, c'. rewrite Hrun, Hcollect. split; [reflexivity|].
    split; [congruence|].
    intros i Hi. destruct (lookup_lt_is_Some_2 files i Hi) as [f Hf].
    destruct (Hfin i f Hf) as (fid & failed & done & _ & Hcount & _ & _ & ->).
    exact Hcount.
Qed.

(** X8: every name the orchestrator reports as failed is the label of one
    of the input files, and no such name is empty. *)
Theorem failed_names_are_labels_of_inputs choices folder_id files max_attempts
    upload_parallelism (c : ctx W) :
  exists uploaded failed c',
    _upload_files_to_bitrix_disk choices folder_id files max_attempts upload_parallelism c
      = (Ok (uploaded, failed), c') /\
    Forall (fun name =>
              PyStr.truthy name = true /\
              exists f, f ∈ files /\ name = _saved_file_label f) failed.
Proof.
  destruct (orchestrator_partition choices folder_id files max_attempts
              upload_parallelism c)
    as (outcomes & new & c' & Hrun & _).
  exists (omap id outcomes), (failed_names files outcomes), c'.
  split; [exact Hrun|].
  apply Forall_forall. intros name Hin.
  unfold failed_names in Hin. apply list_elem_of_omap in Hin as ([f o] & Hzip & Hname).
  cbn [fst snd] in Hname. destruct o as [file_id|]; [discriminate|].
  injection Hname as <-. split; [apply saved_file_label_truthy|].
  exists f. split; [|reflexivity].
  apply elem_of_zip_l in Hzip. exact Hzip.
Qed.

End MoreOrchestratorProofs.

(** ** The orchestrator against the storage collaborator's answers *)

Section ReplayProofs.
Context {W : Type} `{!PyStr.Text} `{!Collaborators W}.

Lemma list_snoc_cases {A : Type} (l : list A) :
  l = [] \/ exists before a, l = (before ++ [a])%list.
Proof.
  induction l as [|a before _] using rev_ind; [left; reflexivity|].
  right. exists before, a. reflexivity.
Qed.

Lemma replay_app (tr new : list action) (w : W) :
  replay (tr ++ new) w
  = (((replay tr w).1 ++ (replay new (replay tr w).2).1)%list,
     (replay new (replay tr w).2).2).
Proof.
  revert w. induction tr as [|a tr IH]; intros w.
  - cbn [app replay fst snd]. destruct (replay new w); reflexivity.
  - destruct a as [| | | | |call|]; cbn [app replay]; try apply IH.
    destruct (upload_to_folder w (uc_folder_id call) (uc_local_path call)
                (uc_filename call) (uc_attempt call) (uc_max_attempts call)) as [r w'].
    rewrite IH. destruct (replay tr w') as [a1 w1]. cbn [fst snd].
    destruct (replay new w1) as [a2 w2]. reflexivity.
Qed.

Lemma answers_for_app i (a b : list (upload_call * result Z)) :
  answers_for i (a ++ b) = (answers_for i a ++ answers_for i b)%list.
Proof. unfold answers_for. apply List.filter_app. Qed.

Lemma answers_for_own i (added : list (upload_call * result Z)) :
  Forall (fun a => uc_index a.1 = i) added -> answers_for i added = added.
Proof.
  unfold answers_for. induction 1 as [|a l Ha _ IH]; [reflexivity|].
  cbn [List.filter]. rewrite Ha, Nat.eqb_refl, IH. reflexivity.
Qed.

Lemma answers_for_other i j (added : list (upload_call * result Z)) :
  i <> j -> Forall (fun a => uc_index a.1 = i) added -> answers_for j added = [].
Proof.
  intros Hne. unfold answers_for. induction 1 as [|a l Ha _ IH]; [reflexivity|].
  cbn [List.filter]. rewrite Ha.
  destruct (Nat.eqb_spec i j); [contradiction|exact IH].
Qed.

Lemma numbered_snoc max_attempts (answers : list (upload_call * result Z)) a :
  (forall k b, answers !! k = Some b ->
     uc_attempt b.1 = Z.of_nat k + 1 /\ uc_attempt b.1 <= max_attempts) ->
  uc_attempt a.1 = Z.of_nat (length answers) + 1 ->
  uc_attempt a.1 <= max_attempts ->
  forall k b, (answers ++ [a])%list !! k = Some b ->
    uc_attempt b.1 = Z.of_nat k + 1 /\ uc_attempt b.1 <= max_attempts.
Proof.
  intros Hnum Ha Hle k b Hk.
  apply lookup_app_Some in Hk as [Hk | [Hge Hk]]; [exact (Hnum k b Hk)|].
  apply list_lookup_singleton_Some in Hk as [Hz <-].
  assert (k = length answers) as -> by lia. split; assumption.
Qed.

(** One resumption against the answers: the calls it logs, made again from
    the world it started in, give the world it ends in, and the coroutine
    stands where the answers so far put it. *)
Lemma advance_history folder_id max_attempts i f t (w : W) answers :
  is_returned t = false ->
  history_state max_attempts (_saved_file_label f) answers t ->
  exists added,
    replay (advance folder_id max_attempts i f t w).1.2 w
    = (added, (advance folder_id max_attempts i f t w).2) /\
    Forall (fun a => uc_index a.1 = i) added /\
    history_state max_attempts (_saved_file_label f) (answers ++ added)
      (advance folder_id max_attempts i f t w).1.1.
Proof.
  intros Hnr [Hnum Hstate].
  destruct t as [|attempt|file_id failed]; [| |discriminate].
  - exists []. cbn [advance fst snd replay]. rewrite app_nil_r.
    split; [reflexivity|]. split; [constructor|]. split; [exact Hnum|].
    subst answers. cbn. split; [reflexivity|constructor].
  - destruct Hstate as [Hatt Hall]. cbn [advance].
    destruct (Z.leb_spec attempt max_attempts) as [Hle|Hgt].
    + set (call := {| uc_index := i; uc_folder_id := folder_id;
                      uc_local_path := local_path f;
                      uc_filename := _saved_file_label f;
                      uc_attempt := attempt;
                      uc_max_attempts := max_attempts |}).
      assert (Hnum' : forall r k b, (answers ++ [(call, r)])%list !! k = Some b ->
                uc_attempt b.1 = Z.of_nat k + 1 /\ uc_attempt b.1 <= max_attempts).
      { intros r. apply numbered_snoc; [exact Hnum|exact Hatt|exact Hle]. }
      destruct (upload_to_folder w folder_id (local_path f) (_saved_file_label f)
                  attempt max_attempts) as [[file_id|exc] w'] eqn:Hup.
      * exists [(call, Ok file_id)]. cbn [fst snd replay].
        change (uc_folder_id call) with folder_id.
        change (uc_local_path call) with (local_path f).
        change (uc_filename call) with (_saved_file_label f).
        change (uc_attempt call) with attempt.
        change (uc_max_attempts call) with max_attempts.
        rewrite Hup. split; [reflexivity|]. split; [repeat constructor|].
        split; [apply Hnum'|]. exists answers, call. split; [reflexivity|exact Hall].
      * destruct ((attempt <? max_attempts) && _is_retryable_upload_error exc)%bool
          eqn:Hretry; cbn [fst snd replay];
          change (uc_folder_id call) with folder_id;
          change (uc_local_path call) with (local_path f);
          change (uc_filename call) with (_saved_file_label f);
          change (uc_attempt call) with attempt;
          change (uc_max_attempts call) with max_attempts;
          rewrite Hup; exists [(call, Raise exc)];
          (split; [reflexivity|]); (split; [repeat constructor|]);
          (split; [apply Hnum'|]).
        -- apply andb_true_iff in Hretry as [Hlt Hcls]. apply Z.ltb_lt in Hlt.
           split; [rewrite length_app; cbn [length]; lia|].
           apply Forall_app. split; [exact Hall|]. apply Forall_cons_2; [|constructor].
           exists exc. cbn [fst snd]. repeat split; assumption.
        -- split; [reflexivity|]. right. exists answers, call, exc.
           split; [reflexivity|]. split; [exact Hall|].
           intros (exc' & Heq & Hlt & Hcls). cbn [fst snd] in Heq, Hlt.
           injection Heq as <-. change (uc_attempt call) with attempt in Hlt.
           apply Z.ltb_lt in Hlt. rewrite Hlt, Hcls in Hretry. discriminate.
    + exists []. cbn [fst snd replay]. rewrite app_nil_r.
      split; [reflexivity|]. split; [constructor|]. split; [exact Hnum|].
      split; [reflexivity|]. left.
      destruct (list_snoc_cases answers) as [Hnil | (before & a & Hsnoc)].
      * subst answers. cbn [length] in Hatt. split; [reflexivity|lia].
      * exfalso. subst answers. rewrite length_app in Hatt. cbn [length] in Hatt.
        apply Forall_app in Hall as [_ Hlast].
        apply Forall_cons_1 in Hlast as [(exc & _ & Hlt & _) _].
        destruct (Hnum (length before) a) as [Hk _].
        { rewrite lookup_app_r by lia. rewrite Nat.sub_diag. reflexivity. }
        lia.
Qed.

Lemma history_settled max_attempts f answers t :
  history_state max_attempts (_saved_file_label f) answers t -> settled f t.
Proof.
  intros [_ Hstate]. destruct t as [| |[file_id|] [name|]]; cbn in *;
    try exact I; try contradiction.
  destruct Hstate as [-> _]. reflexivity.
Qed.

Lemma history_outcome max_attempts label answers file_id failed :
  history_state max_attempts label answers (Returned file_id failed) ->
  file_id = final_id answers.
Proof.
  intros [_ Hstate]. unfold final_id.
  destruct file_id as [file_id|], failed as [name|]; cbn in Hstate; try contradiction.
  - destruct Hstate as (before & call & -> & _). rewrite last_snoc. reflexivity.
  - destruct Hstate as [_ [[-> _] | (before & call & exc & -> & _)]];
      [reflexivity|]. rewrite last_snoc. reflexivity.
Qed.

Lemma retried_rule_snoc max_attempts (before : list (upload_call * result Z)) a :
  (forall k b, (before ++ [a])%list !! k = Some b ->
     uc_attempt b.1 = Z.of_nat k + 1 /\ uc_attempt b.1 <= max_attempts) ->
  Forall (retried max_attempts) before ->
  ~ retried max_attempts a ->
  attempt_rule max_attempts (before ++ [a]).
Proof.
  intros Hnum Hall Hlast k b Hk.
  destruct (Hnum k b Hk) as [Hn Hle]. split; [exact Hn|]. split; [exact Hle|].
  apply lookup_app_Some in Hk as [Hk | [Hge Hk]].
  - split.
    + intros _. rewrite Forall_lookup in Hall. exact (Hall k b Hk).
    + intros _. apply lookup_lt_is_Some. apply lookup_lt_Some in Hk.
      rewrite length_app. cbn [length]. lia.
  - apply list_lookup_singleton_Some in Hk as [Hz <-]. split.
    + intros Hnext. exfalso. apply lookup_lt_is_Some in Hnext.
      rewrite length_app in Hnext. cbn [length] in Hnext. lia.
    + intros Hr. contradiction.
Qed.

Lemma history_rule max_attempts label answers file_id failed :
  history_state max_attempts label answers (Returned file_id failed) ->
  attempt_rule max_attempts answers.
Proof.
  intros [Hnum Hstate].
  destruct file_id as [file_id|], failed as [name|]; cbn in Hstate; try contradiction.
  - destruct Hstate as (before & call & -> & Hall).
    apply retried_rule_snoc; [exact Hnum|exact Hall|].
    intros (exc & Heq & _). discriminate.
  - destruct Hstate as [_ [[-> _] | (before & call & exc & -> & Hall & Hlast)]].
    + intros k b Hk. discriminate.
    + apply retried_rule_snoc; assumption.
Qed.

(** The orchestrator against the collaborator: it returns; the world it
    ends in is the one the logged calls, made in order from the world it
    started in, lead to; and every coroutine has returned what the answers
    to its own calls determine. *)
Lemma orchestrator_replay choices folder_id files max_attempts
    upload_parallelism (c : ctx W) :
  exists tasks new c',
    _upload_files_to_bitrix_disk choices folder_id files max_attempts upload_parallelism c
      = (Ok (collect (map task_result tasks)), c') /\
    user_data c' = user_data c /\
    length tasks = length files /\
    trace c' = (trace c ++ new)%list /\
    world c' = (replay new (world c)).2 /\
    forall i f, files !! i = Some f ->
      exists file_id failed,
        tasks !! i = Some (Returned file_id failed) /\
        history_state max_attempts (_saved_file_label f)
          (answers_for i (replay new (world c)).1) (Returned file_id failed).
Proof.
  destruct files as [|f0 files'].
  { exists [], [], c. cbn. rewrite app_nil_r. repeat split. intros i f Hf. discriminate. }
  set (files := f0 :: files').
  destruct (orchestrator_run
              (fun tasks w tr =>
                 exists new, tr = (trace c ++ new)%list /\
                   (replay new (world c)).2 = w /\
                   forall i f t, files !! i = Some f -> tasks !! i = Some t ->
                     history_state max_attempts (_saved_file_label f)
                       (answers_for i (replay new (world c)).1) t)
              choices folder_id files max_attempts upload_parallelism c)
    as (tasks & c' & Hrun & Hud & Hlen & Hall & new & Htr & Hw & Hinv).
  - discriminate.
  - intros i f t tasks w tr Hf Ht Hnr (new & -> & Hw & Hinv).
    destruct (advance_history folder_id max_attempts i f t w
                (answers_for i (replay new (world c)).1) Hnr (Hinv i f t Hf Ht))
      as (added & Hrep & Hidx & Hhist).
    exists (new ++ (advance folder_id max_attempts i f t w).1.2)%list.
    split; [rewrite app_assoc; reflexivity|].
    rewrite replay_app, Hw, Hrep. cbn [fst snd]. split; [reflexivity|].
    intros j g u Hg Hu. rewrite answers_for_app.
    destruct (decide (i = j)) as [<-|Hne].
    + rewrite list_lookup_insert_eq in Hu by (apply lookup_lt_Some in Ht; exact Ht).
      injection Hu as <-. assert (g = f) as -> by congruence.
      rewrite (answers_for_own i added Hidx). exact Hhist.
    + rewrite list_lookup_insert_ne in Hu by exact Hne.
      rewrite (answers_for_other i j added Hne Hidx), app_nil_r.
      exact (Hinv j g u Hg Hu).
  - exists []. rewrite app_nil_r. split; [reflexivity|]. split; [reflexivity|].
    intros i f t Hf Ht. apply lookup_replicate in Ht as [-> _].
    split; [intros k b Hk; discriminate|reflexivity].
  - exists tasks, new, c'. repeat split; try assumption; [symmetry; exact Hw|].
    intros i f Hf.
    destruct (lookup_lt_is_Some_2 tasks i) as [t Ht].
    { rewrite Hlen. apply lookup_lt_Some in Hf. exact Hf. }
    pose proof (Hinv i f t Hf Ht) as Hhist.
    rewrite Forall_lookup in Hall. specialize (Hall i t Ht).
    destruct t as [| |file_id failed]; cbn in Hall; try discriminate.
    exists file_id, failed. split; [exact Ht|exact Hhist].
Qed.

Lemma outcomes_of_lookup n answers i :
  (i < n)%nat ->
  outcomes_of n answers !! i = Some (final_id (answers_for i answers)).
Proof.
  intros Hi. unfold outcomes_of.
  change (map ?g ?l) with (g <$> l).
  rewrite list_lookup_fmap, lookup_seq_lt by exact Hi. reflexivity.
Qed.

Lemma outcomes_of_length n answers : length (outcomes_of n answers) = n.
Proof. unfold outcomes_of. rewrite length_map, length_seq. reflexivity. Qed.

(** What the orchestrator returns, read off the collaborator's answers. *)
Lemma orchestrator_outcomes choices folder_id files max_attempts
    upload_parallelism (c : ctx W) :
  exists new c',
    _upload_files_to_bitrix_disk choices folder_id files max_attempts upload_parallelism c
      = (Ok (omap id (outcomes_of (length files) (replay new (world c)).1),
             failed_names files (outcomes_of (length files) (replay new (world c)).1)),
         c') /\
    user_data c' = user_data c /\
    trace c' = (trace c ++ new)%list /\
    world c' = (replay new (world c)).2 /\
    Forall (call_matches folder_id max_attempts files) new /\
    forall i, (i < length files)%nat ->
      attempt_rule max_attempts (answers_for i (replay new (world c)).1).
Proof.
  destruct (orchestrator_replay choices folder_id files max_attempts
              upload_parallelism c)
    as (tasks & new & c' & Hrun & Hud & Hlen & Htr & Hw & Hfin).
  destruct (orchestrator_calls_match choices folder_id files max_attempts
              upload_parallelism c)
    as (r2 & new2 & c2 & Hrun2 & Htr2 & Hmatch).
  rewrite Hrun in Hrun2. injection Hrun2 as _ <-.
  rewrite Htr in Htr2. apply app_inv_head in Htr2 as <-.
  exists new, c'.
  assert (Hset : Forall2 settled files tasks).
  { apply Forall2_same_length_lookup. split; [symmetry; exact Hlen|].
    intros i f t Hf Ht. destruct (Hfin i f Hf) as (file_id & failed & Ht' & Hhist).
    rewrite Ht in Ht'. injection Ht' as ->.
    exact (history_settled _ _ _ _ Hhist). }
  assert (Hall : Forall (fun t => is_returned t = true) tasks).
  { apply Forall_lookup. intros i t Ht.
    destruct (lookup_lt_is_Some_2 files i) as [f Hf].
    { rewrite <- Hlen. apply lookup_lt_Some in Ht. exact Ht. }
    destruct (Hfin i f Hf) as (file_id & failed & Ht' & _).
    rewrite Ht in Ht'. injection Ht' as ->. reflexivity. }
  assert (Hout : map (fun t => (task_result t).1) tasks
                 = outcomes_of (length files) (replay new (world c)).1).
  { apply list_eq_same_length with (length files).
    - rewrite outcomes_of_length. reflexivity.
    - rewrite length_map. exact Hlen.
    - intros i x y Hi Hx Hy.
      rewrite outcomes_of_lookup in Hy by exact Hi. injection Hy as <-.
      destruct (lookup_lt_is_Some_2 files i Hi) as [f Hf].
      destruct (Hfin i f Hf) as (file_id & failed & Ht & Hhist).
      change (map ?g ?l) with (g <$> l) in Hx.
      rewrite list_lookup_fmap, Ht in Hx. cbn in Hx. injection Hx as <-.
      exact (history_outcome _ _ _ _ _ Hhist). }
  rewrite Hrun, (collect_settled files tasks Hset Hall), Hout.
  split; [reflexivity|]. split; [exact Hud|]. split; [exact Htr|].
  split; [exact Hw|]. split; [exact Hmatch|].
  intros i Hi. destruct (lookup_lt_is_Some_2 files i Hi) as [f Hf].
  destruct (Hfin i f Hf) as (file_id & failed & _ & Hhist).
  exact (history_rule _ _ _ _ _ Hhist).
Qed.

Lemma answers_for_length i (tr : list action) (w : W) :
  length (answers_for i (replay tr w).1) = attempts_of i tr.
Proof.
  unfold answers_for, attempts_of. revert w.
  induction tr as [|a tr IH]; intros w; [reflexivity|].
  destruct a as [| | | | |call|]; cbn [replay List.filter is_disk_upload_of]; try apply IH.
  destruct (upload_to_folder w (uc_folder_id call) (uc_local_path call)
              (uc_filename call) (uc_attempt call) (uc_max_attempts call)) as [r w'].
  specialize (IH w'). destruct (replay tr w') as [answers w''].
  cbn [fst snd List.filter] in *.
  destruct (Nat.eqb (uc_index call) i); cbn [length]; [f_equal|]; exact IH.
Qed.

(** C4: the result partitions the input.  Whatever the event loop's choices,
    the orchestrator returns.  Its new log entries are upload calls, each
    carrying the path and the label of the input file at its index, and the
    world it ends in is the one these calls, made in this order, lead to.
    The outcome of the file at index [i] is the id of the collaborator's
    last answer to the calls for [i] when that answer is a success, and no
    id otherwise; [uploaded] lists the ids of the files that have one and
    [failed] the labels of the others, each in input order, so the two
    lengths add up to the number of files.  On the empty input both lists
    are empty and the context, log included, is untouched. *)
Theorem upload_result_partitions_input choices folder_id files max_attempts
    upload_parallelism (c : ctx W) :
  (exists new c',
     let answers := (replay new (world c)).1 in
     let outcomes := outcomes_of (length files) answers in
     _upload_files_to_bitrix_disk choices folder_id files max_attempts
       upload_parallelism c
     = (Ok (omap id outcomes, failed_names files outcomes), c') /\
     trace c' = (trace c ++ new)%list /\
     world c' = (replay new (world c)).2 /\
     user_data c' = user_data c /\
     Forall (call_matches folder_id max_attempts files) new /\
     (forall i, (i < length files)%nat ->
        outcomes !! i = Some (final_id (answers_for i answers))) /\
     length outcomes = length files /\
     (length (omap id outcomes) + length (failed_names files outcomes)
      = length files)%nat) /\
  _upload_files_to_bitrix_disk choices folder_id [] max_attempts upload_parallelism c
  = (Ok ([], []), c).
Proof.
  split; [|reflexivity].
  destruct (orchestrator_outcomes choices folder_id files max_attempts
              upload_parallelism c)
    as (new & c' & Hrun & Hud & Htr & Hw & Hmatch & _).
  exists new, c'. cbv zeta.
  pose proof (outcomes_of_length (length files) (replay new (world c)).1) as Hlen.
  split; [exact Hrun|]. split; [exact Htr|]. split; [exact Hw|].
  split; [exact Hud|]. split; [exact Hmatch|].
  split; [intros i Hi; apply outcomes_of_lookup; exact Hi|].
  split; [exact Hlen|]. apply partition_lengths. exact Hlen.
Qed.

(** C3: whatever the collaborator answers and whatever the event loop
    chooses, the orchestrator returns; its new log entries are upload calls
    for the input files, and the world it ends in is the one these calls,
    made in this order, lead to.  The answers to the calls for one file obey
    the retry rule: the attempts are numbered from 1, none is beyond
    [max_attempts], and an attempt is followed by another one exactly when
    it failed with [attempt < max_attempts] and a failure the classifier
    marks retryable.  On a non-empty input with [max_attempts >= 1], when
    every attempt fails with a retryable failure, the collaborator is
    called exactly [max_attempts] times for each file, no id is returned
    and [failed] holds the labels of all files. *)
Theorem retryable_failures_exhaust_attempts choices folder_id files max_attempts
    upload_parallelism (c : ctx W) :
  exists uploaded failed new c',
    let answers := (replay new (world c)).1 in
    _upload_files_to_bitrix_disk choices folder_id files max_attempts
      upload_parallelism c
    = (Ok (uploaded, failed), c') /\
    trace c' = (trace c ++ new)%list /\
    world c' = (replay new (world c)).2 /\
    Forall (call_matches folder_id max_attempts files) new /\
    (forall i, (i < length files)%nat ->
       attempt_rule max_attempts (answers_for i answers)) /\
    (files <> [] -> 1 <= max_attempts -> always_fails_retryably W ->
     uploaded = [] /\
     failed = map _saved_file_label files /\
     forall i, (i < length files)%nat ->
       length (answers_for i answers) = Z.to_nat max_attempts).
Proof.
  destruct (orchestrator_outcomes choices folder_id files max_attempts
              upload_parallelism c)
    as (new & c' & Hrun & Hud & Htr & Hw & Hmatch & Hrule).
  eexists _, _, new, c'. cbv zeta.
  split; [exact Hrun|]. split; [exact Htr|]. split; [exact Hw|].
  split; [exact Hmatch|]. split; [exact Hrule|].
  intros Hne Hmax Hfail.
  destruct (orchestrator_all_failing choices folder_id files max_attempts
              upload_parallelism c Hne Hmax Hfail) as (c2 & Hrun2 & Hcount).
  rewrite Hrun in Hrun2. injection Hrun2 as Hup Hfailed <-.
  split; [exact Hup|]. split; [exact Hfailed|].
  intros i Hi. rewrite answers_for_length.
  specialize (Hcount i Hi). rewrite Htr, attempts_of_app in Hcount. lia.
Qed.

End ReplayProofs.

(** ** The classifier's vocabulary and the Bitrix client *)

Lemma startswith_app (p a b : string) :
  PyStr.startswith p a = true -> PyStr.startswith p (a +:+ b) = true.
Proof.
  revert a. induction p as [|ch p IH]; intros a Hp; [reflexivity|].
  destruct a as [|ch' a]; [discriminate|].
  change (String ch' a +:+ b) with (String ch' (a +:+ b)).
  change (Ascii.eqb ch ch' && PyStr.startswith p a = true) in Hp.
  change (Ascii.eqb ch ch' && PyStr.startswith p (a +:+ b) = true).
  apply andb_true_iff in Hp as [Heq Hp]. apply andb_true_iff. split; [exact Heq|].
  apply IH. exact Hp.
Qed.

Lemma contains_app_l (needle a b : string) :
  PyStr.contains needle a = true -> PyStr.contains needle (a +:+ b) = true.
Proof.
  induction a as [|ch a IH]; intros Hc.
  - cbn in Hc. rewrite orb_false_r in Hc.
    destruct needle; [|discriminate]. destruct b; reflexivity.
  - change (PyStr.startswith needle (String ch a) || PyStr.contains needle a = true) in Hc.
    change (PyStr.startswith needle (String ch a +:+ b)
            || PyStr.contains needle (a +:+ b) = true).
    apply orb_true_iff in Hc as [Hs|Hr]; apply orb_true_iff.
    + left. apply startswith_app. exact Hs.
    + right. apply IH. exact Hr.
Qed.

Lemma contains_app_r (needle a b : string) :
  PyStr.contains needle b = true -> PyStr.contains needle (a +:+ b) = true.
Proof.
  intros Hc. induction a as [|ch a IH]; [exact Hc|].
  change (PyStr.startswith needle (String ch a +:+ b)
          || PyStr.contains needle (a +:+ b) = true).
  apply orb_true_iff. right. exact IH.
Qed.

Lemma bitrix_error_marker_retryable `{!PyStr.Text} marker message details :
  In marker retry_markers ->
  PyStr.contains marker (PyStr.lower message) = true \/
  PyStr.contains marker (PyStr.lower details) = true ->
  _is_retryable_upload_error (BitrixError message details) = true.
Proof.
  intros Hin Hc. unfold _is_retryable_upload_error.
  apply existsb_exists. exists marker. split; [exact Hin|].
  rewrite PyStr.lower_blank. destruct Hc as [Hm|Hd].
  - apply contains_app_l. exact Hm.
  - apply contains_app_r, contains_app_r. exact Hd.
Qed.

(** X9: a structured Bitrix failure is retryable as soon as its message or
    its details mention a word of the transient vocabulary, in any letter
    case. *)
Theorem marker_in_message_or_details_is_retryable `{!PyStr.Text} marker message details :
  In marker retry_markers ->
  PyStr.contains marker (PyStr.lower message) = true \/
  PyStr.contains marker (PyStr.lower details) = true ->
  _is_retryable_upload_error (BitrixError message details) = true.
Proof. apply bitrix_error_marker_retryable. Qed.

(** X10: a reply that is not JSON and carries HTTP status 502, 503 or 504
    raises a failure the classifier marks retryable, whatever the body. *)
Theorem gateway_status_replies_are_retryable `{!PyStr.Text} status body :
  In status [502; 503; 504] ->
  _is_retryable_upload_error (non_json_error (str_of_Z status) body) = true.
Proof.
  intros Hin. unfold non_json_error.
  assert (Hcases : status = 502 \/ status = 503 \/ status = 504).
  { cbn in Hin. intuition. }
  destruct Hcases as [-> | [-> | ->]].
  - apply (bitrix_error_marker_retryable "502");
      [|left; rewrite PyStr.lower_ascii by (vm_compute; reflexivity);
        vm_compute; reflexivity].
    unfold retry_markers. cbn. intuition.
  - apply (bitrix_error_marker_retryable "503");
      [|left; rewrite PyStr.lower_ascii by (vm_compute; reflexivity);
        vm_compute; reflexivity].
    unfold retry_markers. cbn. intuition.
  - apply (bitrix_error_marker_retryable "504");
      [|left; rewrite PyStr.lower_ascii by (vm_compute; reflexivity);
        vm_compute; reflexivity].
    unfold retry_markers. cbn. intuition.
Qed.

Section ClientProofs.
Context {W : Type} `{!PyStr.Text} `{!Collaborators W} `{!Helpers}.

Lemma call_returns method data (c : ctx W) payload c' :
  call method data c = (Ok payload, c') ->
  exists status text,
    http_post (world c) method data
    = (HttpResponse status text (Some payload), world c') /\
    (forall kv, payload = JObj kv -> assoc "error" kv = None).
Proof.
  unfold call. io_unfold. cbn.
  destruct (http_post (world c) method data) as [[e|status text [p|]] w'];
    cbn; try discriminate.
  destruct p as [| | | s | l | kv]; cbn; try discriminate.
  - destruct (PyStr.contains "error" s); cbn; [discriminate|].
    intros [= <- <-]. exists status, text. split; [reflexivity|]. intros kv; discriminate.
  - destruct (existsb is_error_text l); cbn; [discriminate|].
    intros [= <- <-]. exists status, text. split; [reflexivity|]. intros kv; discriminate.
  - destruct (assoc "error" kv) eqn:Herr; cbn; [discriminate|].
    intros [= <- <-]. exists status, text. split; [reflexivity|].
    intros kv' [= <-]. exact Herr.
Qed.

(** X11: [call] hands back a payload only when the endpoint answered with
    JSON, and never a decoded object that has an [error] key; it posts
    exactly once and leaves the session alone. *)
Theorem call_never_returns_an_error_payload method data (c : ctx W) payload c' :
  call method data c = (Ok payload, c') ->
  (exists status text,
     http_post (world c) method data
     = (HttpResponse status text (Some payload), world c')) /\
  (forall kv, payload = JObj kv -> assoc "error" kv = None) /\
  user_data c' = user_data c /\
  trace c' = (trace c ++ [HttpPost method data])%list.
Proof.
  intros Hcall.
  destruct (call_returns method data c payload c' Hcall) as (status & text & Hpost & Herr).
  pose proof (call_effect method data c) as [Hud Htr]. rewrite Hcall in Hud, Htr.
  cbn [fst snd] in Hud, Htr.
  split; [exists status, text; exact Hpost|]. repeat split; assumption.
Qed.

(** X12: [create_task] returns an id only when the reply was JSON without an
    [error] key, and the id is the one read at [result.task.id], or, only
    when that one cannot be read, the one at [result.id]. *)
Theorem create_task_id_comes_from_reply title description responsible_id group_id
    priority created_by webdav_file_ids (c : ctx W) task_id c' :
  create_task title description responsible_id group_id priority created_by
    webdav_file_ids c = (Ok task_id, c') ->
  exists status text payload,
    http_post (world c) "tasks.task.add"
      (task_fields title description responsible_id group_id priority created_by)
    = (HttpResponse status text (Some payload), world c') /\
    (forall kv, payload = JObj kv -> assoc "error" kv = None) /\
    let nested := py_int (subscript (subscript (subscript (Some payload) "result") "task") "id") in
    let flat := py_int (subscript (subscript (Some payload) "result") "id") in
    (nested = Some task_id \/ (nested = None /\ flat = Some task_id)).
Proof.
  unfold create_task, io_bind. intros Hrun.
  destruct (call "tasks.task.add" _ c) as [[resp|e] c1] eqn:Hcall; [|discriminate].
  destruct (call_returns _ _ c resp c1 Hcall) as (status & text & Hpost & Herr).
  cbv zeta.
  destruct (py_int (subscript (subscript (subscript (Some resp) "result") "task") "id"))
    as [nested|] eqn:Hn.
  - unfold io_ret in Hrun. injection Hrun as <- <-.
    exists status, text, resp. rewrite Hn. repeat split; try assumption. left; reflexivity.
  - destruct (py_int (subscript (subscript (Some resp) "result") "id")) as [flat|] eqn:Hf.
    + unfold io_ret in Hrun. injection Hrun as <- <-.
      exists status, text, resp. rewrite Hn, Hf. repeat split; try assumption.
      right; split; reflexivity.
    + discriminate.
Qed.

Lemma task_fields_keys title description responsible_id group_id priority created_by :
  only_task_form_keys
    (task_fields title description responsible_id group_id priority created_by).
Proof.
  unfold only_task_form_keys, task_fields, task_form_keys, created_by_key.
  destruct group_id, priority, created_by; cbn [app];
    repeat (apply Forall_cons_2; [cbn [fst In]; intuition reflexivity|]);
    apply Forall_nil_2.
Qed.

End ClientProofs.

Section DiskClientProofs.
Context {W : Type} `{!PyStr.Text} `{!Collaborators W} `{!Helpers} `{!DiskEndpoint W}.

(** X13: the client's [upload_to_folder] returns a file id only when the
    endpoint answered with JSON that has no [error] key and whose
    [result.ID] reads as that id; the file is sent under the given name, or
    under the last segment of its path when no name is given. *)
Theorem client_upload_id_comes_from_reply folder_id local_path filename (c : ctx W)
    file_id c' :
  client_upload_to_folder folder_id local_path filename c = (Ok file_id, c') ->
  let name :=
    match filename with
    | Some f => if PyStr.truthy f then f else basename local_path
    | None => basename local_path
    end in
  exists status text payload,
    post_file (world c) folder_id local_path name
    = (HttpResponse status text (Some payload), world c') /\
    (forall kv, payload = JObj kv -> assoc "error" kv = None) /\
    py_int (subscript (subscript (Some payload) "result") "ID") = Some file_id /\
    user_data c' = user_data c /\ trace c' = trace c.
Proof.
  unfold client_upload_to_folder. io_unfold. cbv zeta.
  set (name := match filename with
               | Some f => if PyStr.truthy f then f else basename local_path
               | None => basename local_path
               end).
  destruct (post_file (world c) folder_id local_path name) as [[e|status text [p|]] w'];
    cbn; try discriminate.
  assert (Hread : forall c0 : ctx W,
            match py_int (subscript (subscript (Some p) "result") "ID") with
            | Some fid => (fun c1 : ctx W => (Ok fid, c1))
            | None => (fun c1 : ctx W => (Raise (disk_id_parse_error (py_str_of_json p)), c1))
            end c0 = (Ok file_id, c') ->
            py_int (subscript (subscript (Some p) "result") "ID") = Some file_id /\ c0 = c').
  { intros c0. destruct (py_int _); [|discriminate]. intros [= <- <-]. split; reflexivity. }
  destruct p as [| | | s | l | kv]; cbn; try discriminate.
  - destruct (PyStr.contains "error" s); cbn; [discriminate|].
    intros Hrun. apply Hread in Hrun as [Hid <-]. cbn.
    exists status, text, (JStr s). repeat split; try assumption. intros kv; discriminate.
  - destruct (existsb is_error_text l); cbn; [discriminate|].
    intros Hrun. apply Hread in Hrun as [Hid <-]. cbn.
    exists status, text, (JArr l). repeat split; try assumption. intros kv; discriminate.
  - destruct (assoc "error" kv) eqn:Herr; cbn; [discriminate|].
    intros Hrun. apply Hread in Hrun as [Hid <-]. cbn.
    exists status, text, (JObj kv). repeat split; try assumption.
    intros kv' [= <-]. exact Herr.
Qed.

End DiskClientProofs.

(** ** The confirm handler from end to end *)

Section MoreSubmissionProofs.
Context {W : Type} `{!PyStr.Text} `{!Collaborators W} `{!Helpers}.

Lemma http_posts_reply tr text : http_posts (tr ++ [ReplyText text]) = http_posts tr.
Proof. rewrite http_posts_app. apply app_nil_r. Qed.

Lemma http_posts_post tr method fields :
  http_posts (tr ++ [HttpPost method fields]) = (http_posts tr ++ [fields])%list.
Proof. rewrite http_posts_app. reflexivity. Qed.

Lemma report_created_outcome settings task_id uploaded_ids failed_files (c : ctx W) :
  match _task_link settings task_id with
  | Ok _ =>
      exists text,
        report_created settings task_id uploaded_ids failed_files c =
          (Ok END, {| world := world c; user_data := ∅;
                      trace := trace c ++ [ReplyText text] |})
  | Raise e => report_created settings task_id uploaded_ids failed_files c = (Raise e, c)
  end.
Proof.
  unfold report_created. io_unfold.
  destruct (_task_link settings task_id) as [link|e]; [|reflexivity].
  eexists. cbn. reflexivity.
Qed.


(** What a submission leaves behind: the forms it posted, and either the end
    of the session or the failure of the link formatting after the call that
    posted the last form returned a task id. *)
Lemma submit_outcome settings title full_desc created_by uploaded_ids failed_files
    (c : ctx W) :
  let attempt creator :=
    create_task title full_desc (bitrix_default_responsible_id settings)
      (bitrix_group_id settings) (bitrix_priority settings) creator uploaded_ids in
  let fields creator :=
    task_fields title full_desc (bitrix_default_responsible_id settings)
      (bitrix_group_id settings) (bitrix_priority settings) creator in
  let run := submit settings title full_desc created_by uploaded_ids failed_files c in
  exists posted,
    http_posts (trace run.2) = (http_posts (trace c) ++ posted)%list /\
    (posted = [fields (Some created_by)] \/
     posted = [fields (Some created_by); fields None]) /\
    ((run.1 = Ok END /\ user_data run.2 = ∅) \/
     (exists e task_id,
        run.1 = Raise e /\ _task_link settings task_id = Raise e /\
        user_data run.2 = user_data c /\
        exists creator c0,
          attempt creator c0 = (Ok task_id, run.2) /\
          last posted = Some (fields creator))).
Proof.
  cbv zeta. unfold submit. cbv beta zeta.
  assert (Hreport : forall task_id (c0 : ctx W),
            let out := report_created settings task_id uploaded_ids failed_files c0 in
            http_posts (trace out.2) = http_posts (trace c0) /\
            ((out.1 = Ok END /\ user_data out.2 = ∅) \/
             (exists e, out = (Raise e, c0) /\ _task_link settings task_id = Raise e))).
  { intros task_id c0. cbv zeta.
    pose proof (report_created_outcome settings task_id uploaded_ids failed_files c0) as Hout.
    destruct (_task_link settings task_id) as [link|e] eqn:Hlink.
    - destruct Hout as [text ->]. cbn [fst snd trace user_data].
      split; [apply http_posts_reply|]. left. split; reflexivity.
    - rewrite Hout. cbn [fst snd]. split; [reflexivity|]. right.
      exists e. split; reflexivity. }
  pose proof (create_task_effect title full_desc (bitrix_default_responsible_id settings)
                (bitrix_group_id settings) (bitrix_priority settings) (Some created_by)
                uploaded_ids c) as [Hud1 Htr1].
  cbv zeta in Hud1, Htr1.
  destruct (create_task _ _ _ _ _ (Some created_by) _ c) as [[task_id|e1] c1] eqn:E1;
    cbn [fst snd] in Hud1, Htr1.
  - destruct (Hreport task_id c1) as [Hposts Hend]. cbv zeta in Hposts, Hend.
    eexists. split; [rewrite Hposts, Htr1; apply http_posts_post|].
    split; [left; reflexivity|].
    destruct Hend as [[Hres Hud]|(e & Hout & Hlink)]; [left; split; assumption|].
    right. exists e, task_id. rewrite Hout. cbn [fst snd].
    split; [reflexivity|]. split; [exact Hlink|]. split; [exact Hud1|].
    exists (Some created_by), c. split; [exact E1|reflexivity].
  - assert (Hfail : forall c0 : ctx W,
              http_posts (trace (report_failure c0).2) = http_posts (trace c0) /\
              (report_failure c0).1 = Ok END /\ user_data (report_failure c0).2 = ∅).
    { intros c0. rewrite report_failure_eq. unfold terminal_failure. cbn [fst snd trace user_data].
      split; [apply http_posts_reply|]. split; reflexivity. }
    destruct e1 as [text|message details|cls text].
    + destruct (Hfail c1) as (Hposts & Hres & Hud).
      eexists. split; [rewrite Hposts, Htr1; apply http_posts_post|].
      split; [left; reflexivity|]. left. split; assumption.
    + pose proof (create_task_effect title full_desc (bitrix_default_responsible_id settings)
                    (bitrix_group_id settings) (bitrix_priority settings) None
                    uploaded_ids c1) as [Hud2 Htr2].
      cbv zeta in Hud2, Htr2.
      destruct (create_task _ _ _ _ _ None _ c1) as [[task_id|e2] c2] eqn:E2;
        cbn [fst snd] in Hud2, Htr2.
      * destruct (Hreport task_id c2) as [Hposts Hend]. cbv zeta in Hposts, Hend.
        eexists. split.
        { rewrite Hposts, Htr2, Htr1, !http_posts_post, <- app_assoc. reflexivity. }
        split; [right; reflexivity|].
        destruct Hend as [[Hres Hud]|(e & Hout & Hlink)]; [left; split; assumption|].
        right. exists e, task_id. rewrite Hout. cbn [fst snd].
        split; [reflexivity|]. split; [exact Hlink|].
        split; [rewrite Hud2; exact Hud1|].
        exists None, c1. split; [exact E2|reflexivity].
      * destruct (Hfail c2) as (Hposts & Hres & Hud).
        eexists. split.
        { rewrite Hposts, Htr2, Htr1, !http_posts_post, <- app_assoc. reflexivity. }
        split; [right; reflexivity|]. left. split; assumption.
    + destruct (Hfail c1) as (Hposts & Hres & Hud).
      eexists. split; [rewrite Hposts, Htr1; apply http_posts_post|].
      split; [left; reflexivity|]. left. split; assumption.
Qed.

Lemma submit_trace_starts settings title full_desc created_by uploaded_ids failed_files
    (c : ctx W) :
  exists rest,
    trace (submit settings title full_desc created_by uploaded_ids failed_files c).2
    = (trace c ++
       HttpPost "tasks.task.add"
         (task_fields title full_desc (bitrix_default_responsible_id settings)
            (bitrix_group_id settings) (bitrix_priority settings) (Some created_by))
       :: rest)%list.
Proof.
  unfold submit. cbv beta zeta.
  assert (Hreport : forall task_id (c0 : ctx W),
            exists rest,
              trace (report_created settings task_id uploaded_ids failed_files c0).2
              = (trace c0 ++ rest)%list).
  { intros task_id c0.
    destruct (report_created_effect settings task_id uploaded_ids failed_files c0)
      as [[text ->] | [e ->]]; cbn [snd trace].
    - eexists; reflexivity.
    - exists []. symmetry. apply app_nil_r. }
  pose proof (create_task_effect title full_desc (bitrix_default_responsible_id settings)
                (bitrix_group_id settings) (bitrix_priority settings) (Some created_by)
                uploaded_ids c) as [_ Htr1].
  cbv zeta in Htr1.
  destruct (create_task _ _ _ _ _ (Some created_by) _ c) as [[task_id|e1] c1];
    cbn [fst snd] in Htr1.
  - destruct (Hreport task_id c1) as [rest ->]. rewrite Htr1, <- app_assoc.
    eexists; reflexivity.
  - destruct e1 as [text|message details|cls text].
    + rewrite report_failure_eq. unfold terminal_failure. cbn [snd trace].
      rewrite Htr1, <- app_assoc. eexists; reflexivity.
    + pose proof (create_task_effect title full_desc (bitrix_default_responsible_id settings)
                    (bitrix_group_id settings) (bitrix_priority settings) None
                    uploaded_ids c1) as [_ Htr2].
      cbv zeta in Htr2.
      destruct (create_task _ _ _ _ _ None _ c1) as [[task_id|e2] c2];
        cbn [fst snd] in Htr2.
      * destruct (Hreport task_id c2) as [rest ->]. rewrite Htr2, Htr1, <- !app_assoc.
        eexists; reflexivity.
      * rewrite report_failure_eq. unfold terminal_failure. cbn [snd trace].
        rewrite Htr2, Htr1, <- !app_assoc. eexists; reflexivity.
    + rewrite report_failure_eq. unfold terminal_failure. cbn [snd trace].
      rewrite Htr1, <- app_assoc. eexists; reflexivity.
Qed.

(** The confirm handler in one statement: the forms it posted, and how it
    ended. *)
Lemma confirm_outcome choices settings u (c : ctx W) :
  let title := PyStr.strip (get_str (user_data c) "title") in
  let full_desc :=
    build_task_description (PyStr.strip (get_str (user_data c) "description"))
      (build_initiator_block u)
      (build_attachments_block (staged_files (user_data c)) (upload_dir settings)) in
  let run := cb_confirm_create choices settings u c in
  exists posted,
    http_posts (trace run.2) = (http_posts (trace c) ++ posted)%list /\
    (posted = [] \/
     exists created_by,
       missing_data (user_data c) = false /\
       _get_linked_bitrix_id (world c) (tg_id u) = Some created_by /\
       (posted = [confirm_fields settings u c (Some created_by)] \/
        posted = [confirm_fields settings u c (Some created_by);
                  confirm_fields settings u c None])) /\
    ((run.1 = Ok END /\ user_data run.2 = ∅) \/
     (posted <> [] /\
      exists e task_id,
        run.1 = Raise e /\ _task_link settings task_id = Raise e /\
        user_data run.2 = user_data c /\
        exists creator uploaded_ids c0,
          create_task title full_desc (bitrix_default_responsible_id settings)
            (bitrix_group_id settings) (bitrix_priority settings) creator uploaded_ids c0
          = (Ok task_id, run.2) /\
          last posted = Some (confirm_fields settings u c creator))).
Proof.
  cbv zeta. destruct (missing_data (user_data c)) eqn:Hm.
  { rewrite confirm_missing_data by exact Hm. cbn [fst snd trace user_data].
    exists []. split.
    { rewrite http_posts_app.
      change (http_posts [AnswerCallback; ReplyText ?x]) with (@nil (list (string * string))).
      reflexivity. }
    split; [left; reflexivity|]. left; split; reflexivity. }
  destruct (_get_linked_bitrix_id (world c) (tg_id u)) as [created_by|] eqn:Hl.
  2:{ rewrite confirm_not_linked by assumption. cbn [fst snd trace user_data].
      exists []. split.
      { rewrite http_posts_app.
        change (http_posts [AnswerCallback; ReplyText ?x]) with (@nil (list (string * string))).
        reflexivity. }
      split; [left; reflexivity|]. left; split; reflexivity. }
  assert (Hsubmit : forall uploaded_ids failed_files (c0 : ctx W),
            http_posts (trace c0) = http_posts (trace c) ->
            user_data c0 = user_data c ->
            let run :=
              submit settings (PyStr.strip (get_str (user_data c) "title"))
                (build_task_description (PyStr.strip (get_str (user_data c) "description"))
                   (build_initiator_block u)
                   (build_attachments_block (staged_files (user_data c))
                      (upload_dir settings)))
                created_by uploaded_ids failed_files c0 in
            exists posted,
              http_posts (trace run.2) = (http_posts (trace c) ++ posted)%list /\
              (posted = [] \/
               exists created_by0,
                 false = false /\ Some created_by = Some created_by0 /\
                 (posted = [confirm_fields settings u c (Some created_by0)] \/
                  posted = [confirm_fields settings u c (Some created_by0);
                            confirm_fields settings u c None])) /\
              ((run.1 = Ok END /\ user_data run.2 = ∅) \/
               (posted <> [] /\
                exists e task_id,
                  run.1 = Raise e /\ _task_link settings task_id = Raise e /\
                  user_data run.2 = user_data c /\
                  exists creator uploaded_ids0 c00,
                    create_task (PyStr.strip (get_str (user_data c) "title"))
                      (build_task_description
                         (PyStr.strip (get_str (user_data c) "description"))
                         (build_initiator_block u)
                         (build_attachments_block (staged_files (user_data c))
                            (upload_dir settings)))
                      (bitrix_default_responsible_id settings)
                      (bitrix_group_id settings) (bitrix_priority settings)
                      creator uploaded_ids0 c00
                    = (Ok task_id, run.2) /\
                    last posted = Some (confirm_fields settings u c creator)))).
  { intros uploaded_ids failed_files c0 Hposts Hud. cbv zeta.
    destruct (submit_outcome settings (PyStr.strip (get_str (user_data c) "title"))
                (build_task_description (PyStr.strip (get_str (user_data c) "description"))
                   (build_initiator_block u)
                   (build_attachments_block (staged_files (user_data c))
                      (upload_dir settings)))
                created_by uploaded_ids failed_files c0)
      as (posted & Hp & Hshape & Hend).
    cbv zeta in Hp, Hshape, Hend.
    exists posted. split; [rewrite Hp, Hposts; reflexivity|].
    split.
    - right. exists created_by. split; [reflexivity|]. split; [reflexivity|].
      unfold confirm_fields. exact Hshape.
    - destruct Hend as [Hend|(e & tid & Hres & Hlink & Hud' & creator & c00 & Hcall & Hlast)];
        [left; exact Hend|].
      right. split.
      + destruct Hshape as [-> | ->]; discriminate.
      + exists e, tid. split; [exact Hres|]. split; [exact Hlink|].
        split; [rewrite Hud'; exact Hud|].
        exists creator, uploaded_ids, c00. split; [exact Hcall|].
        unfold confirm_fields. exact Hlast. }
  destruct (staged_files (user_data c)) as [|f0 rest] eqn:Hst.
  { rewrite (confirm_without_files _ _ _ _ created_by) by assumption.
    apply Hsubmit; [|reflexivity].
    cbn [trace]. rewrite http_posts_app.
    change (http_posts [AnswerCallback; ReplyText ?x]) with (@nil (list (string * string))).
    apply app_nil_r. }
  rewrite (confirm_with_files _ _ _ _ created_by) by (try assumption; congruence).
  rewrite Hst.
  destruct (orchestrator_partition choices (bitrix_disk_folder_id settings) (f0 :: rest)
              (bitrix_upload_max_attempts settings) (bitrix_upload_parallelism settings)
              (at_upload_start c (length (f0 :: rest))))
    as (outcomes & new & c1 & -> & _ & _ & Hud & Htr & Hnew & _).
  cbn [user_data at_upload_start] in Hud. cbn [trace at_upload_start] in Htr.
  assert (Hposts1 : http_posts (trace c1) = http_posts (trace c)).
  { rewrite Htr, !http_posts_app, (http_posts_disk_uploads new Hnew).
    change (http_posts [AnswerCallback; ReplyText ?x]) with (@nil (list (string * string))).
    rewrite !app_nil_r. reflexivity. }
  destruct (failed_names (f0 :: rest) outcomes) as [|n0 names].
  - apply Hsubmit; [|exact Hud].
    cbn [trace map]. rewrite http_posts_reply. exact Hposts1.
  - destruct (omap id outcomes) as [|i0 ids].
    + cbn [fst snd trace user_data]. exists []. split.
      { rewrite http_posts_reply, app_nil_r. exact Hposts1. }
      split; [left; reflexivity|]. left; split; reflexivity.
    + apply Hsubmit; [|exact Hud].
      cbn [trace map].
      change [ReplyText ?a; ReplyText ?b] with ([ReplyText a] ++ [ReplyText b])%list.
      rewrite app_assoc, !http_posts_reply. exact Hposts1.
Qed.

(** X14: one confirm posts at most two forms to the task endpoint, the first
    with the linked creator and the second without; each form has only the
    six task fields, so the ids of the uploaded files are never sent. *)
Theorem confirm_posts_only_task_forms choices settings u (c : ctx W) :
  exists posted,
    http_posts (trace (cb_confirm_create choices settings u c).2)
    = (http_posts (trace c) ++ posted)%list /\
    (posted = [] \/
     exists created_by,
       missing_data (user_data c) = false /\
       _get_linked_bitrix_id (world c) (tg_id u) = Some created_by /\
       (posted = [confirm_fields settings u c (Some created_by)] \/
        posted = [confirm_fields settings u c (Some created_by);
                  confirm_fields settings u c None])) /\
    Forall only_task_form_keys posted.
Proof.
  destruct (confirm_outcome choices settings u c) as (posted & Hp & Hshape & _).
  exists posted. split; [exact Hp|]. split; [exact Hshape|].
  destruct Hshape as [-> | (created_by & _ & _ & [-> | ->])].
  - apply Forall_nil_2.
  - apply Forall_cons_2; [apply task_fields_keys|apply Forall_nil_2].
  - apply Forall_cons_2; [apply task_fields_keys|].
    apply Forall_cons_2; [apply task_fields_keys|apply Forall_nil_2].
Qed.



(** X17: when some uploads succeed and some fail, the confirm handler tells
    the user which files failed and goes on to create the task with the
    linked creator. *)
Theorem partial_upload_failure_still_submits choices settings u (c : ctx W)
    created_by id0 ids name0 names c1 :
  missing_data (user_data c) = false ->
  _get_linked_bitrix_id (world c) (tg_id u) = Some created_by ->
  staged_files (user_data c) <> [] ->
  _upload_files_to_bitrix_disk choices (bitrix_disk_folder_id settings)
    (staged_files (user_data c)) (bitrix_upload_max_attempts settings)
    (bitrix_upload_parallelism settings)
    (at_upload_start c (length (staged_files (user_data c))))
  = (Ok (id0 :: ids, name0 :: names), c1) ->
  exists rest,
    trace (cb_confirm_create choices settings u c).2
    = (trace c1 ++
       [ReplyText (MSG_SOME_UPLOADS_FAILED (name0 :: names)); ReplyText MSG_CREATING;
        HttpPost "tasks.task.add" (confirm_fields settings u c (Some created_by))]
       ++ rest)%list.
Proof.
  intros Hm Hl Hfiles Hrun.
  rewrite (confirm_with_files _ _ _ _ created_by) by assumption.
  rewrite Hrun.
  match goal with
  | |- context [submit ?s ?t ?d ?cb ?up ?fl ?c0] =>
      destruct (submit_trace_starts s t d cb up fl c0) as [rest ->]
  end.
  exists rest. cbn [trace map]. rewrite <- app_assoc. reflexivity.
Qed.

End MoreSubmissionProofs.

(** ** The conversation handlers, step by step *)

Lemma rstrip_cons (c : ascii) (r : string) :
  PyStr.ascii_rstrip (String c r)
  = match PyStr.ascii_rstrip r with
    | EmptyString => if PyStr.is_space c then EmptyString else String c EmptyString
    | r' => String c r'
    end.
Proof. reflexivity. Qed.

Lemma rstrip_nonspace_head (c : ascii) (r : string) :
  PyStr.is_space c = false ->
  PyStr.ascii_rstrip (String c r) = String c (PyStr.ascii_rstrip r).
Proof.
  intros Hc. rewrite rstrip_cons, Hc. destruct (PyStr.ascii_rstrip r); reflexivity.
Qed.

Lemma lstrip_nonspace_head (c : ascii) (r : string) :
  PyStr.is_space c = false -> PyStr.ascii_lstrip (String c r) = String c r.
Proof.
  intros Hc.
  change (PyStr.ascii_lstrip (String c r))
    with (if PyStr.is_space c then PyStr.ascii_lstrip r else String c r).
  rewrite Hc. reflexivity.
Qed.

Lemma get_str_insert (ud : gmap string pyval) key s :
  get_str (<[key := VStr s]> ud) key = s.
Proof. unfold get_str. rewrite lookup_insert_eq. reflexivity. Qed.

Lemma get_str_same_entry (ud ud' : gmap string pyval) key :
  ud' !! key = ud !! key -> get_str ud' key = get_str ud key.
Proof. unfold get_str. intros ->. reflexivity. Qed.

Section MoreSessionProofs.
Context {W : Type} `{!PyStr.Text} `{!Collaborators W} `{!Helpers}.

(** How [stage] ends: it raises after the fetch or after the download and
    leaves the session alone, or it appends the file. *)
Lemma stage_outcome file_id sf saved confirmation (c : ctx W) :
  let run := stage file_id sf saved confirmation c in
  (exists e,
     run.1 = Raise e /\ user_data run.2 = user_data c /\
     (trace run.2 = (trace c ++ [GetFile file_id])%list \/
      trace run.2 = (trace c ++ [GetFile file_id;
                                 DownloadToDrive file_id (local_path sf)])%list)) \/
  (run.1 = Ok WAIT_ATTACHMENTS /\
   user_data run.2 = <["files" := VFiles (saved ++ [sf])]> (user_data c) /\
   trace run.2 = (trace c ++ [GetFile file_id; DownloadToDrive file_id (local_path sf);
                              ReplyText confirmation])%list).
Proof.
  cbv zeta. unfold stage. io_unfold. cbn [world user_data trace].
  destruct (bot_get_file (world c) file_id) as [[[]|e] w1]; cbn [fst snd world user_data trace].
  2:{ left. exists e. split; [reflexivity|]. split; [reflexivity|]. left; reflexivity. }
  destruct (download_to_drive w1 file_id (local_path sf)) as [[[]|e] w2];
    cbn [fst snd world user_data trace].
  2:{ left. exists e. split; [reflexivity|]. split; [reflexivity|].
      right. rewrite <- app_assoc. reflexivity. }
  right. split; [reflexivity|]. split; [reflexivity|].
  rewrite <- !app_assoc. reflexivity.
Qed.

(** The three ways [on_attachment] ends. *)
Lemma on_attachment_outcome settings u m (c : ctx W) :
  let run := on_attachment settings u m c in
  (exists st new,
     run = (Ok st, {| world := world c; user_data := user_data c;
                      trace := trace c ++ new |}) /\
     Forall (fun a => is_download a = false) new) \/
  (exists e file_id path,
     run.1 = Raise e /\ user_data run.2 = user_data c /\
     (trace run.2 = (trace c ++ [SendChatAction; GetFile file_id])%list \/
      trace run.2 = (trace c ++ [SendChatAction; GetFile file_id;
                                 DownloadToDrive file_id path])%list)) \/
  (exists sf file_id text,
     run.1 = Ok WAIT_ATTACHMENTS /\
     (length (staged_files (user_data c)) < MAX_ATTACHMENTS_PER_TASK)%nat /\
     user_data run.2
     = <["files" := VFiles (staged_files (user_data c) ++ [sf])]> (user_data c) /\
     trace run.2 = (trace c ++ [SendChatAction; GetFile file_id;
                                DownloadToDrive file_id (local_path sf);
                                ReplyText text])%list).
Proof.
  cbv zeta. remember (on_attachment settings u m c) as run eqn:Hrun.
  unfold on_attachment in Hrun. unfold io_bind at 1 in Hrun.
  unfold get_user_data at 1 in Hrun.
  destruct (ticket_of (user_data c)) as [ticket|].
  2:{ subst run. left. exists END, [ReplyText MSG_NO_SESSION]. split; [reflexivity|].
      repeat constructor. }
  unfold io_bind at 1 in Hrun. unfold get_world at 1 in Hrun.
  unfold io_bind at 1 in Hrun. unfold emit at 1 in Hrun.
  set (c1 := {| world := world c; user_data := user_data c;
                trace := trace c ++ [SendChatAction] |}) in Hrun.
  assert (Hstage : forall file_id sf confirmation,
            (length (staged_files (user_data c)) < MAX_ATTACHMENTS_PER_TASK)%nat ->
            let run := stage file_id sf (staged_files (user_data c)) confirmation c1 in
            (exists e file_id path,
               run.1 = Raise e /\ user_data run.2 = user_data c /\
               (trace run.2 = (trace c ++ [SendChatAction; GetFile file_id])%list \/
                trace run.2 = (trace c ++ [SendChatAction; GetFile file_id;
                                           DownloadToDrive file_id path])%list)) \/
            (exists sf file_id text,
               run.1 = Ok WAIT_ATTACHMENTS /\
               (length (staged_files (user_data c)) < MAX_ATTACHMENTS_PER_TASK)%nat /\
               user_data run.2
               = <["files" := VFiles (staged_files (user_data c) ++ [sf])]> (user_data c) /\
               trace run.2 = (trace c ++ [SendChatAction; GetFile file_id;
                                          DownloadToDrive file_id (local_path sf);
                                          ReplyText text])%list)).
  { intros file_id sf confirmation Hroom. cbv zeta.
    destruct (stage_outcome file_id sf (staged_files (user_data c)) confirmation c1)
      as [(e & Hres & Hud & Htr) | (Hres & Hud & Htr)];
      cbn [c1 trace user_data] in Hud, Htr; rewrite <- app_assoc in Htr.
    - left. exists e, file_id, (local_path sf). split; [exact Hres|]. split; [exact Hud|].
      destruct Htr as [Htr|Htr]; [left; exact Htr|right].
      rewrite Htr, <- app_assoc. reflexivity.
    - right. exists sf, file_id, confirmation. repeat split; assumption. }
  assert (Hreply : forall text,
            (reply_text text ;;; io_ret WAIT_ATTACHMENTS)%io c1
            = (Ok WAIT_ATTACHMENTS,
               {| world := world c; user_data := user_data c;
                  trace := trace c ++ [SendChatAction; ReplyText text] |})).
  { intros text. unfold reply_text, emit, io_bind, io_ret, c1. cbn [world user_data trace].
    rewrite <- app_assoc. reflexivity. }
  destruct (Nat.leb_spec MAX_ATTACHMENTS_PER_TASK (length (staged_files (user_data c))))
    as [Hfull|Hroom].
  { subst run. left. exists WAIT_ATTACHMENTS, [SendChatAction; ReplyText MSG_LIMIT].
    split; [exact (Hreply _)|repeat constructor]. }
  destruct (last (msg_photo m)) as [photo|].
  - destruct (_attachment_too_large (photo_file_size photo)); subst run.
    + left. exists WAIT_ATTACHMENTS, [SendChatAction; ReplyText MSG_TOO_LARGE].
      split; [exact (Hreply _)|repeat constructor].
    + right. exact (Hstage _ _ _ Hroom).
  - destruct (msg_document m) as [doc|].
    + destruct (_attachment_too_large (doc_file_size doc)); subst run.
      * left. exists WAIT_ATTACHMENTS, [SendChatAction; ReplyText MSG_TOO_LARGE].
        split; [exact (Hreply _)|repeat constructor].
      * right. exact (Hstage _ _ _ Hroom).
    + subst run. left. exists WAIT_ATTACHMENTS, [SendChatAction; ReplyText MSG_NOT_A_FILE].
      split; [exact (Hreply _)|repeat constructor].
Qed.

(** One attachment step: the entries other than [files] stay, the staged
    files grow by at most one at the end, and a file is added only after its
    download was logged. *)
Lemma attachment_step settings h (c : ctx W) :
  is_attachment_step h = true ->
  let c' := (run_handler settings h c).2 in
  (forall key, key <> "files" -> user_data c' !! key = user_data c !! key) /\
  exists added new,
    staged_files (user_data c') = (staged_files (user_data c) ++ added)%list /\
    (length added <= 1)%nat /\
    trace c' = (trace c ++ new)%list /\
    Forall (fun sf => exists file_id, In (DownloadToDrive file_id (local_path sf)) new)
      added.
Proof.
  intros Hstep. destruct h as [u0| |m0|m0|u0 m0| | | |choices u0]; try discriminate;
    cbn [run_handler]; cbv zeta.
  - destruct (on_attachment_outcome settings u0 m0 c)
      as [(st & new & -> & _) | [(e & fid & path & _ & Hud & Htr) |
                                  (sf & fid & text & _ & _ & Hud & Htr)]].
    + cbn [snd user_data trace]. split; [reflexivity|].
      exists [], new. rewrite app_nil_r. repeat split; [cbn; lia|constructor].
    + rewrite Hud. split; [reflexivity|].
      destruct Htr as [Htr|Htr]; rewrite Htr; eexists [], _; rewrite app_nil_r;
        (repeat split; [cbn; lia|constructor]).
    + rewrite Hud, Htr. split.
      * intros key Hkey. apply lookup_insert_ne. congruence.
      * exists [sf], [SendChatAction; GetFile fid; DownloadToDrive fid (local_path sf);
                      ReplyText text].
        rewrite staged_files_insert_files. repeat split; [cbn; lia|].
        constructor; [|constructor]. exists fid. cbn. auto.
  - unfold cb_attachments_done. io_unfold. cbn [snd user_data trace].
    split; [reflexivity|]. eexists [], _. rewrite app_nil_r, <- app_assoc.
    repeat split; [cbn; lia|constructor].
Qed.

Lemma attachment_steps_run settings hs (c : ctx W) :
  attachment_steps hs ->
  let c' := run_handlers settings hs c in
  (forall key, key <> "files" -> user_data c' !! key = user_data c !! key) /\
  exists added new,
    staged_files (user_data c') = (staged_files (user_data c) ++ added)%list /\
    (length added <= length hs)%nat /\
    trace c' = (trace c ++ new)%list /\
    Forall (fun sf => exists file_id, In (DownloadToDrive file_id (local_path sf)) new)
      added.
Proof.
  intros Hsteps. revert c. induction Hsteps as [|h hs Hh _ IH]; intros c; cbv zeta.
  - cbn [run_handlers]. split; [reflexivity|].
    exists [], []. rewrite !app_nil_r. repeat split; [cbn; lia|constructor].
  - cbn [run_handlers].
    destruct (attachment_step settings h c Hh) as (Hkeys1 & added1 & new1 & Hst1 & Hlen1 & Htr1 & Hdl1).
    destruct (IH (run_handler settings h c).2) as (Hkeys2 & added2 & new2 & Hst2 & Hlen2 & Htr2 & Hdl2).
    cbv zeta in Hkeys1, Hst1, Htr1, Hkeys2, Hst2, Htr2.
    split.
    + intros key Hkey. rewrite Hkeys2, Hkeys1 by exact Hkey. reflexivity.
    + exists (added1 ++ added2)%list, (new1 ++ new2)%list.
      rewrite Hst2, Hst1, Htr2, Htr1, <- !app_assoc.
      split; [reflexivity|]. split; [rewrite length_app; cbn [length]; lia|].
      split; [reflexivity|].
      apply Forall_app. split.
      * eapply Forall_impl; [exact Hdl1|]. intros sf [fid Hin]. exists fid.
        apply in_or_app. left; exact Hin.
      * eapply Forall_impl; [exact Hdl2|]. intros sf [fid Hin]. exists fid.
        apply in_or_app. right; exact Hin.
Qed.

(** X18: a title and a description that were accepted are still there when
    the attachment steps are over, so the confirm handler's data check
    passes. *)
Theorem draft_survives_attachment_steps settings m1 m2 hs (c : ctx W) :
  (on_title m1 c).1 = Ok WAIT_DESCRIPTION ->
  (on_description m2 (on_title m1 c).2).1 = Ok WAIT_ATTACHMENTS ->
  attachment_steps hs ->
  let c' := run_handlers settings hs (on_description m2 (on_title m1 c).2).2 in
  missing_data (user_data c') = false /\
  get_str (user_data c') "title" = PyStr.strip (or_empty (msg_text m1)) /\
  get_str (user_data c') "description" = PyStr.strip (or_empty (msg_text m2)).
Proof.
  intros Htitle Hdesc Hsteps. cbv zeta.
  destruct (attachment_steps_run settings hs (on_description m2 (on_title m1 c).2).2 Hsteps)
    as [Hkeys _]. cbv zeta in Hkeys.
  assert (Ht : PyStr.truthy (PyStr.strip (or_empty (msg_text m1))) = true /\
               user_data (on_title m1 c).2
               = <["title" := VStr (PyStr.strip (or_empty (msg_text m1)))]> (user_data c)).
  { revert Htitle. unfold on_title. cbv zeta.
    destruct (PyStr.truthy (PyStr.strip (or_empty (msg_text m1)))); cbn [negb].
    - intros _. split; reflexivity.
    - io_unfold. cbn. discriminate. }
  destruct Ht as [Ht Hud1].
  assert (Hd : PyStr.truthy (PyStr.strip (or_empty (msg_text m2))) = true /\
               user_data (on_description m2 (on_title m1 c).2).2
               = <["description" := VStr (PyStr.strip (or_empty (msg_text m2)))]>
                   (user_data (on_title m1 c).2)).
  { revert Hdesc. unfold on_description. cbv zeta.
    destruct (PyStr.truthy (PyStr.strip (or_empty (msg_text m2)))); cbn [negb].
    - intros _. split; reflexivity.
    - io_unfold. cbn. discriminate. }
  destruct Hd as [Hd Hud2].
  assert (Htitle' : get_str (user_data (run_handlers settings hs
                               (on_description m2 (on_title m1 c).2).2)) "title"
                    = PyStr.strip (or_empty (msg_text m1))).
  { rewrite (get_str_same_entry _ _ "title" (Hkeys "title" ltac:(discriminate))).
    rewrite Hud2. unfold get_str at 1. rewrite lookup_insert_ne by discriminate.
    rewrite Hud1. rewrite lookup_insert_eq. reflexivity. }
  assert (Hdesc' : get_str (user_data (run_handlers settings hs
                              (on_description m2 (on_title m1 c).2).2)) "description"
                   = PyStr.strip (or_empty (msg_text m2))).
  { rewrite (get_str_same_entry _ _ "description"
               (Hkeys "description" ltac:(discriminate))).
    rewrite Hud2. apply get_str_insert. }
  split; [|split; assumption].
  unfold missing_data. rewrite Htitle', Hdesc', !PyStr.strip_strip, Ht, Hd. reflexivity.
Qed.

(** X19: the start button drops whatever draft there was: the session holds
    a new ticket and no files and nothing else, so a confirm right after it
    is rejected for missing data without any collaborator call. *)
Theorem start_button_drops_previous_draft choices settings u (c : ctx W) :
  let c1 := (cb_start_task c).2 in
  (cb_start_task c).1 = Ok WAIT_TITLE /\
  user_data c1
  = <["files" := VFiles []]> (<["ticket_id" := VStr (make_ticket_id (world c)).1]> ∅) /\
  cb_confirm_create choices settings u c1
  = (Ok END, {| world := world c1; user_data := ∅;
                trace := trace c1 ++ [AnswerCallback; ReplyText MSG_MISSING_DATA] |}).
Proof.
  cbv zeta.
  assert (Hud : user_data (cb_start_task c).2
                = <["files" := VFiles []]>
                    (<["ticket_id" := VStr (make_ticket_id (world c)).1]> ∅)).
  { unfold cb_start_task, start_session. io_unfold. cbn [world user_data trace].
    destruct (make_ticket_id (world c)) as [t w']. reflexivity. }
  split; [|split; [exact Hud|]].
  - unfold cb_start_task, start_session. io_unfold. cbn [world user_data trace].
    destruct (make_ticket_id (world c)) as [t w']. reflexivity.
  - apply confirm_missing_data. unfold missing_data. rewrite Hud.
    unfold get_str. rewrite lookup_insert_ne by discriminate.
    rewrite lookup_insert_ne by discriminate. rewrite lookup_empty.
    rewrite (PyStr.strip_ascii "" eq_refl). reflexivity.
Qed.

(** The two ways [cmd_task] ends. *)
Lemma cmd_task_outcome settings u (c : ctx W) :
  let run := cmd_task settings u c in
  let admitted :=
    match _get_linked_bitrix_id (world c) (tg_id u) with
    | Some bid => (negb (bid =? 0) && _is_allowed settings (tg_id u))%bool
    | None => false
    end in
  if admitted then
    run.1 = Ok WAIT_TITLE /\ staged_files (user_data run.2) = [] /\
    get_str (user_data run.2) "title" = ""
  else
    exists text,
      run = (Ok END, {| world := world c; user_data := user_data c;
                        trace := trace c ++ [ReplyText text] |}).
Proof.
  cbv zeta. remember (cmd_task settings u c) as run eqn:Hrun.
  unfold cmd_task in Hrun. unfold io_bind at 1 in Hrun. unfold get_world at 1 in Hrun.
  assert (Hstart : let run := (start_session ;;; reply_text MSG_ASK_TITLE ;;;
                               io_ret WAIT_TITLE)%io c in
                   run.1 = Ok WAIT_TITLE /\ staged_files (user_data run.2) = [] /\
                   get_str (user_data run.2) "title" = "").
  { cbv zeta. unfold start_session. io_unfold. cbn [world user_data trace].
    destruct (make_ticket_id (world c)) as [t w']. cbn [fst snd user_data].
    split; [reflexivity|]. split; [apply staged_files_insert_files|].
    unfold get_str. rewrite lookup_insert_ne by discriminate.
    rewrite lookup_insert_ne by discriminate. rewrite lookup_empty. reflexivity. }
  assert (Hrefuse : forall text,
            exists text',
              ((reply_text text ;;; io_ret END)%io c : result conv_state * ctx W)
              = (Ok END, {| world := world c; user_data := user_data c;
                            trace := trace c ++ [ReplyText text'] |})).
  { intros text. exists text. reflexivity. }
  destruct (_get_linked_bitrix_id (world c) (tg_id u)) as [[|p|p]|]; cbn [Z.eqb negb andb].
  - subst run. exact (Hrefuse _).
  - destruct (_is_allowed settings (tg_id u)); cbn [negb] in Hrun |- *; subst run;
      [exact Hstart|exact (Hrefuse _)].
  - destruct (_is_allowed settings (tg_id u)); cbn [negb] in Hrun |- *; subst run;
      [exact Hstart|exact (Hrefuse _)].
  - subst run. exact (Hrefuse _).
Qed.

(** X20: [/task] starts a session exactly for a user who is linked to a
    non-zero Bitrix id and allowed; a refused [/task] ends the conversation
    with one reply and leaves the session and the world as they were. *)
Theorem task_command_gate settings u (c : ctx W) :
  let run := cmd_task settings u c in
  let admitted :=
    match _get_linked_bitrix_id (world c) (tg_id u) with
    | Some bid => (negb (bid =? 0) && _is_allowed settings (tg_id u))%bool
    | None => false
    end in
  if admitted then
    run.1 = Ok WAIT_TITLE /\ staged_files (user_data run.2) = [] /\
    get_str (user_data run.2) "title" = ""
  else
    exists text,
      run = (Ok END, {| world := world c; user_data := user_data c;
                        trace := trace c ++ [ReplyText text] |}).
Proof. apply cmd_task_outcome. Qed.

(** X21: over any run of attachment steps the staged files only grow at the
    end, by at most one per step, and every file that was added had its
    download logged before. *)
Theorem attachment_steps_append_only settings hs (c : ctx W) :
  attachment_steps hs ->
  let c' := run_handlers settings hs c in
  exists added new,
    staged_files (user_data c') = (staged_files (user_data c) ++ added)%list /\
    (length added <= length hs)%nat /\
    trace c' = (trace c ++ new)%list /\
    Forall (fun sf => exists file_id, In (DownloadToDrive file_id (local_path sf)) new)
      added.
Proof.
  intros Hsteps. exact (proj2 (attachment_steps_run settings hs c Hsteps)).
Qed.

(** X22: of the calls [on_attachment] makes, the model lets the fetch and
    the download raise; when the handler raises, the last thing logged is
    one of the two, the session is as before, nothing is staged and the user
    got no reply. *)
Theorem failed_download_stages_nothing settings u m (c : ctx W) e c' :
  on_attachment settings u m c = (Raise e, c') ->
  user_data c' = user_data c /\
  exists file_id,
    trace c' = (trace c ++ [SendChatAction; GetFile file_id])%list \/
    exists path,
      trace c' = (trace c ++ [SendChatAction; GetFile file_id;
                              DownloadToDrive file_id path])%list.
Proof.
  intros Hrun.
  destruct (on_attachment_outcome settings u m c)
    as [(st & new & Heq & _) | [(e0 & fid & path & _ & Hud & Htr) |
                                (sf & fid & text & Hres & _)]];
    cbv zeta in *; rewrite Hrun in *; cbn [fst snd] in *.
  - discriminate.
  - split; [exact Hud|]. exists fid.
    destruct Htr as [Htr|Htr]; [left; exact Htr|right; exists path; exact Htr].
  - discriminate.
Qed.

End MoreSessionProofs.

(** ** Identity link: parsing, the link conversation and the pre-handlers *)

Lemma digit_not_space (c : ascii) : is_digit c = true -> PyStr.is_space c = false.
Proof.
  unfold is_digit, PyStr.is_space. cbv zeta.
  generalize (nat_of_ascii c). intros n Hd.
  apply andb_true_iff in Hd as [Hlo Hhi].
  apply Nat.leb_le in Hlo. apply Nat.leb_le in Hhi.
  apply orb_false_iff. split; apply andb_false_iff; right; apply Nat.leb_gt; lia.
Qed.

Lemma rstrip_digits (s : string) : all_digits s = true -> PyStr.ascii_rstrip s = s.
Proof.
  induction s as [|c r IH]; [reflexivity|].
  intros Hd. apply andb_true_iff in Hd as [Hc Hr].
  rewrite (rstrip_nonspace_head c r (digit_not_space c Hc)), (IH Hr). reflexivity.
Qed.

Lemma ascii_strip_digits (s : string) : all_digits s = true -> PyStr.ascii_strip s = s.
Proof.
  intros Hd. unfold PyStr.ascii_strip. destruct s as [|c r]; [reflexivity|].
  pose proof Hd as Hd'. apply andb_true_iff in Hd' as [Hc _].
  rewrite (lstrip_nonspace_head c r (digit_not_space c Hc)).
  apply rstrip_digits. exact Hd.
Qed.

Lemma digits_are_ascii (s : string) : all_digits s = true -> PyStr.is_ascii s = true.
Proof.
  induction s as [|c r IH]; [reflexivity|].
  intros Hd. apply andb_true_iff in Hd as [Hc Hr].
  change (Nat.ltb (nat_of_ascii c) 128 && PyStr.is_ascii r = true).
  rewrite (IH Hr), andb_true_r. unfold is_digit in Hc. cbv zeta in Hc.
  apply andb_true_iff in Hc as [_ Hhi]. apply Nat.leb_le in Hhi.
  apply Nat.ltb_lt. lia.
Qed.

Lemma strip_digits `{!PyStr.Text} (s : string) : all_digits s = true -> PyStr.strip s = s.
Proof.
  intros Hd. rewrite (PyStr.strip_ascii s (digits_are_ascii s Hd)).
  apply ascii_strip_digits. exact Hd.
Qed.

Lemma uint_digits (d : Decimal.uint) : all_digits (NilEmpty.string_of_uint d) = true.
Proof. induction d; [reflexivity|exact IHd..]. Qed.

Lemma str_of_Z_isdigit (n : Z) : 0 <= n -> isdigit (str_of_Z n) = true.
Proof.
  intros Hn. unfold str_of_Z, isdigit. destruct n as [|p|p]; [reflexivity| |lia].
  cbn [Z.to_int NilZero.string_of_int]. unfold NilZero.string_of_uint.
  pose proof (DecimalPos.Unsigned.to_uint_nonnil p) as Hnil.
  destruct (Pos.to_uint p) as [|d|d|d|d|d|d|d|d|d|d] eqn:Hp; [congruence|..];
    apply (uint_digits d).
Qed.

Lemma int_of_digits_str_of_Z (n : Z) : 0 <= n -> int_of_digits (str_of_Z n) = n.
Proof.
  intros Hn. unfold str_of_Z, int_of_digits. destruct n as [|p|p]; [reflexivity| |lia].
  cbn [Z.to_int NilZero.string_of_int].
  rewrite (NilZero.usu (Pos.to_uint p) (DecimalPos.Unsigned.to_uint_nonnil p)).
  unfold Z.of_uint. rewrite DecimalPos.Unsigned.of_to. reflexivity.
Qed.

Lemma int_of_digits_nonneg (s : string) : 0 <= int_of_digits s.
Proof.
  unfold int_of_digits. destruct (NilZero.uint_of_string s); [|lia].
  unfold Z.of_uint. apply N2Z.is_nonneg.
Qed.

Lemma digit_run_digits (s : string) : all_digits (digit_run s) = true.
Proof.
  induction s as [|c r IH]; [reflexivity|].
  change (digit_run (String c r))
    with (if is_digit c then String c (digit_run r) else EmptyString).
  destruct (is_digit c) eqn:Hc; [|reflexivity].
  change (is_digit c && all_digits (digit_run r) = true). rewrite Hc, IH. reflexivity.
Qed.

Lemma digit_run_prefix (s : string) : PyStr.startswith (digit_run s) s = true.
Proof.
  induction s as [|c r IH]; [reflexivity|].
  change (digit_run (String c r))
    with (if is_digit c then String c (digit_run r) else EmptyString).
  destruct (is_digit c); [|reflexivity].
  change (Ascii.eqb c c && PyStr.startswith (digit_run r) r = true).
  rewrite Ascii.eqb_refl, IH. reflexivity.
Qed.

Lemma startswith_skip (p s : string) :
  PyStr.startswith p s = true -> s = p +:+ skip (String.length p) s.
Proof.
  revert s. induction p as [|a p IH]; intros s Hs; [reflexivity|].
  destruct s as [|b s]; [discriminate|].
  change (Ascii.eqb a b && PyStr.startswith p s = true) in Hs.
  apply andb_true_iff in Hs as [Hab Hs]. apply Ascii.eqb_eq in Hab. subst b.
  change (String a s = String a (p +:+ skip (String.length p) s)).
  f_equal. apply IH. exact Hs.
Qed.

Lemma startswith_app_same (p a b : string) :
  PyStr.startswith (p +:+ a) (p +:+ b) = PyStr.startswith a b.
Proof.
  induction p as [|ch p IH]; [reflexivity|].
  change (Ascii.eqb ch ch && PyStr.startswith (p +:+ a) (p +:+ b)
          = PyStr.startswith a b).
  rewrite Ascii.eqb_refl. exact IH.
Qed.

Lemma startswith_contains (needle s : string) :
  PyStr.startswith needle s = true -> PyStr.contains needle s = true.
Proof.
  intros Hs. destruct s as [|c r].
  - change (PyStr.startswith needle "" || false = true). rewrite Hs. reflexivity.
  - change (PyStr.startswith needle (String c r) || PyStr.contains needle r = true).
    rewrite Hs. reflexivity.
Qed.

Lemma match_user_segment_sound (s group : string) :
  match_user_segment s = Some group ->
  PyStr.startswith ("/user/" +:+ group) s = true /\ isdigit group = true.
Proof.
  unfold match_user_segment. cbv zeta.
  destruct (PyStr.startswith "/user/" s) eqn:Hs; [|discriminate].
  destruct (PyStr.truthy (digit_run (skip 6 s))) eqn:Ht; [|discriminate].
  destruct (PyStr.startswith "/" (after_digits (skip 6 s))); [|discriminate].
  unfold andb. intros Heq.
  assert (Hg : group = digit_run (skip 6 s)) by congruence. rewrite Hg. clear Heq Hg. split.
  - rewrite (startswith_skip "/user/" s Hs) at 2.
    rewrite startswith_app_same. apply digit_run_prefix.
  - unfold isdigit. rewrite Ht, digit_run_digits. reflexivity.
Qed.

Lemma match_user_prefix_sound (s group : string) :
  match_user_prefix s = Some group ->
  PyStr.startswith ("user/" +:+ group) s = true /\ isdigit group = true.
Proof.
  unfold match_user_prefix. cbv zeta.
  destruct (PyStr.startswith "user/" s) eqn:Hs; [|discriminate].
  destruct (PyStr.truthy (digit_run (skip 5 s))) eqn:Ht; [|discriminate].
  intros Heq.
  assert (Hg : group = digit_run (skip 5 s)) by congruence. rewrite Hg. clear Heq Hg. split.
  - rewrite (startswith_skip "user/" s Hs) at 2.
    rewrite startswith_app_same. apply digit_run_prefix.
  - unfold isdigit. rewrite Ht, digit_run_digits. reflexivity.
Qed.

Lemma re_search_sound (match_here : string -> option string) (s group : string) :
  re_search match_here s = Some group ->
  exists before rest, s = before +:+ rest /\ match_here rest = Some group.
Proof.
  induction s as [|c r IH].
  - cbn [re_search]. destruct (match_here "") eqn:Hm; [|discriminate].
    intros [= <-]. exists "", "". split; [reflexivity|exact Hm].
  - cbn [re_search]. destruct (match_here (String c r)) eqn:Hm.
    + intros [= <-]. exists "", (String c r). split; [reflexivity|exact Hm].
    + intros Hr. destruct (IH Hr) as (before & rest & -> & Hrest).
      exists (String c before), rest. split; [reflexivity|exact Hrest].
Qed.

Lemma parse_sound `{!PyStr.Text} (text : option string) (n : Z) :
  parse_bitrix_user_id text = Some n ->
  exists group,
    isdigit group = true /\ n = int_of_digits group /\
    (PyStr.strip (or_empty text) = group \/
     PyStr.contains ("user/" +:+ group) (PyStr.strip (or_empty text)) = true).
Proof.
  unfold parse_bitrix_user_id. cbv zeta.
  destruct (isdigit (PyStr.strip (or_empty text))) eqn:Hdig.
  { intros [= <-]. exists (PyStr.strip (or_empty text)).
    split; [exact Hdig|]. split; [reflexivity|left; reflexivity]. }
  destruct (re_search match_user_segment (PyStr.strip (or_empty text))) as [group|] eqn:Hseg.
  { intros [= <-]. exists group.
    destruct (re_search_sound _ _ _ Hseg) as (before & rest & Heq & Hm).
    destruct (match_user_segment_sound rest group Hm) as [Hstart Hd].
    split; [exact Hd|]. split; [reflexivity|]. right. rewrite Heq.
    apply contains_app_r. destruct rest as [|c r]; [discriminate|].
    change (Ascii.eqb "/" c && PyStr.startswith ("user/" +:+ group) r = true) in Hstart.
    apply andb_true_iff in Hstart as [_ Hstart].
    change (PyStr.startswith ("user/" +:+ group) (String c r)
            || PyStr.contains ("user/" +:+ group) r = true).
    apply orb_true_iff. right. apply startswith_contains. exact Hstart. }
  destruct (re_search match_user_prefix (PyStr.strip (or_empty text))) as [group|] eqn:Hpre;
    [|discriminate].
  intros [= <-]. exists group.
  destruct (re_search_sound _ _ _ Hpre) as (before & rest & Heq & Hm).
  destruct (match_user_prefix_sound rest group Hm) as [Hstart Hd].
  split; [exact Hd|]. split; [reflexivity|]. right. rewrite Heq.
  apply contains_app_r, startswith_contains. exact Hstart.
Qed.

(** X23: the decimal text of a non-negative number is read back as that
    number. *)
Theorem parse_reads_back_a_plain_number `{!PyStr.Text} (n : Z) :
  0 <= n -> parse_bitrix_user_id (Some (str_of_Z n)) = Some n.
Proof.
  intros Hn. unfold parse_bitrix_user_id. cbv zeta. cbn [or_empty].
  pose proof (str_of_Z_isdigit n Hn) as Hd.
  assert (Hall : all_digits (str_of_Z n) = true).
  { unfold isdigit in Hd. apply andb_true_iff in Hd as [_ Hd]. exact Hd. }
  rewrite (strip_digits _ Hall), Hd, (int_of_digits_str_of_Z n Hn). reflexivity.
Qed.

(** X24: on ASCII text, an id that [parse_bitrix_user_id] returns is never
    negative, and it is the value of a run of digits that is the whole
    stripped text or follows [user/] in it. *)
Theorem parsed_id_is_a_digit_group_of_the_text `{!PyStr.Text}
    (text : option string) (n : Z) :
  PyStr.is_ascii (or_empty text) = true ->
  parse_bitrix_user_id text = Some n ->
  0 <= n /\
  exists group,
    isdigit group = true /\ n = int_of_digits group /\
    (PyStr.strip (or_empty text) = group \/
     PyStr.contains ("user/" +:+ group) (PyStr.strip (or_empty text)) = true).
Proof.
  intros _ Hparse. destruct (parse_sound text n Hparse) as (group & Hd & Hn & Hwhere).
  split; [rewrite Hn; apply int_of_digits_nonneg|].
  exists group. repeat split; assumption.
Qed.

Section LinkProofs.
Context {W : Type} `{!PyStr.Text} `{!Collaborators W} `{!Helpers} `{!LinkStore W}.

(** The two ways [link_receive] ends. *)
Lemma link_receive_outcome settings u m (c : ctx W) :
  let run := link_receive settings u m c in
  user_data run.2 = user_data c /\
  ((exists n,
      0 < n /\ _is_allowed settings (tg_id u) = true /\
      parse_bitrix_user_id (msg_text m) = Some n /\
      run.1 = Ok LINK_END /\
      world run.2 = _set_linked_bitrix_id (world c) (tg_id u) n) \/
   (world run.2 = world c /\
    (run.1 = Ok LINK_WAIT \/
     (run.1 = Ok LINK_END /\ _is_allowed settings (tg_id u) = false)))).
Proof.
  cbv zeta. remember (link_receive settings u m c) as run eqn:Hrun.
  unfold link_receive in Hrun.
  destruct (_is_allowed settings (tg_id u)) eqn:Hallowed; cbn [negb] in Hrun.
  2:{ subst run. split; [reflexivity|]. right. split; [reflexivity|].
      right. split; reflexivity. }
  destruct (parse_bitrix_user_id (msg_text m)) as [n|] eqn:Hparse.
  2:{ subst run. split; [reflexivity|]. right. split; [reflexivity|]. left; reflexivity. }
  destruct (parse_sound _ _ Hparse) as (group & _ & Hn & _).
  pose proof (int_of_digits_nonneg group) as Hnonneg. rewrite <- Hn in Hnonneg.
  destruct n as [|p|p]; [| |lia].
  - subst run. split; [reflexivity|]. right. split; [reflexivity|]. left; reflexivity.
  - subst run. split; [reflexivity|]. left. exists (Z.pos p).
    split; [lia|]. split; [reflexivity|]. split; [reflexivity|]. split; reflexivity.
Qed.

(** X25: on a message whose text is ASCII and no longer than a Telegram
    message can be (4096 characters, below the 4300 digits at which [int]
    refuses a decimal text), [link_receive] writes the link store only for
    an allowed user whose text parses to a positive id, and then it stores
    exactly that id and ends the conversation; in every other case the
    store is untouched.  The session data is never changed. *)
Theorem link_receive_stores_positive_ids_only settings u m (c : ctx W) :
  PyStr.is_ascii (or_empty (msg_text m)) = true ->
  (String.length (or_empty (msg_text m)) <= 4096)%nat ->
  let run := link_receive settings u m c in
  user_data run.2 = user_data c /\
  ((exists n,
      0 < n /\ _is_allowed settings (tg_id u) = true /\
      parse_bitrix_user_id (msg_text m) = Some n /\
      run.1 = Ok LINK_END /\
      world run.2 = _set_linked_bitrix_id (world c) (tg_id u) n) \/
   (world run.2 = world c /\
    (run.1 = Ok LINK_WAIT \/
     (run.1 = Ok LINK_END /\ _is_allowed settings (tg_id u) = false)))).
Proof. intros _ _. apply link_receive_outcome. Qed.

(** X26: when the link store gives back what was written, an allowed user
    whose link message was accepted can start a task right away. *)
Theorem linked_user_can_start_task settings u m (c : ctx W) :
  (forall w tg_user_id n,
     _get_linked_bitrix_id (_set_linked_bitrix_id w tg_user_id n) tg_user_id = Some n) ->
  _is_allowed settings (tg_id u) = true ->
  (link_receive settings u m c).1 = Ok LINK_END ->
  (cmd_task settings u (link_receive settings u m c).2).1 = Ok WAIT_TITLE.
Proof.
  intros Hstore Hallowed Hend.
  destruct (link_receive_outcome settings u m c) as [_ Hcases]. cbv zeta in Hcases.
  pose proof (cmd_task_outcome settings u (link_receive settings u m c).2) as Htask.
  cbv zeta in Htask.
  destruct Hcases as [(n & Hn & _ & _ & _ & Hworld) | (_ & [Hwait | [_ Hno]])].
  - rewrite Hworld, Hstore, Hallowed in Htask.
    destruct n as [|p|p]; [lia| |lia]. cbn [Z.eqb negb andb] in Htask.
    exact (proj1 Htask).
  - rewrite Hend in Hwait. discriminate.
  - congruence.
Qed.

(** How [maybe_show_menu] ends: it has been shown already and nothing
    happens, or the flag is set and then the menu is sent, or nothing is
    sent, or the update has no user or no message and the call raises. *)
Lemma maybe_show_menu_outcome settings u m (c : ctx W) :
  let run := maybe_show_menu settings u m c in
  world run.2 = world c /\
  ((run = (Ok tt, c) /\
    exists v, user_data c !! "_menu_shown" = Some v /\ pyval_truthy v = true) \/
   (user_data run.2 = <["_menu_shown" := VBool true]> (user_data c) /\
    ((run.1 = Ok tt /\
      (trace run.2 = trace c \/
       exists text, trace run.2 = (trace c ++ [ReplyText text])%list)) \/
     (exists name,
        run.1 = Raise (no_attribute name) /\ trace run.2 = trace c /\
        (u = None \/ m = None))))).
Proof.
  cbv zeta. remember (maybe_show_menu settings u m c) as run eqn:Hrun.
  unfold maybe_show_menu in Hrun. unfold io_bind at 1 in Hrun.
  unfold get_user_data at 1 in Hrun. cbv zeta in Hrun.
  assert (Hshown : (match user_data c !! "_menu_shown" with
                    | Some v => pyval_truthy v
                    | None => false
                    end) = true ->
                   exists v, user_data c !! "_menu_shown" = Some v /\
                             pyval_truthy v = true).
  { destruct (user_data c !! "_menu_shown") as [v|]; [|discriminate].
    intros Hv. exists v. split; [reflexivity|exact Hv]. }
  destruct (match user_data c !! "_menu_shown" with
            | Some v => pyval_truthy v
            | None => false
            end).
  { subst run. split; [reflexivity|]. left. split; [reflexivity|].
    apply Hshown. reflexivity. }
  clear Hshown. unfold io_bind at 1 in Hrun. unfold put_user_data at 1 in Hrun.
  set (c1 := {| world := world c;
                user_data := <["_menu_shown" := VBool true]> (user_data c);
                trace := trace c |}) in Hrun.
  destruct (bool_decide _).
  { subst run. split; [reflexivity|]. right. split; [reflexivity|].
    left. split; [reflexivity|]. left; reflexivity. }
  unfold cmd_start in Hrun. destruct u as [u|].
  2:{ subst run. split; [reflexivity|]. right. split; [reflexivity|].
      right. exists "id". repeat split. left; reflexivity. }
  destruct m as [m|].
  2:{ subst run. split; [reflexivity|]. right. split; [reflexivity|].
      right. exists "reply_text". repeat split. right; reflexivity. }
  subst run. split; [reflexivity|]. right. split; [reflexivity|].
  left. split; [reflexivity|]. right. eexists. reflexivity.
Qed.

Lemma hydrate_link_outcome ou (c : ctx W) :
  let run := hydrate_link ou c in
  run.1 = Ok tt /\ world run.2 = world c /\ trace run.2 = trace c /\
  (user_data run.2 = user_data c \/
   exists bid, bid <> 0 /\
     user_data run.2 = <["bitrix_user_id" := VInt bid]> (user_data c)).
Proof.
  cbv zeta. unfold hydrate_link. destruct ou as [u|]; [|repeat split; left; reflexivity].
  io_unfold. cbn [world].
  destruct (_get_linked_bitrix_id (world c) (tg_id u)) as [bid|];
    [|repeat split; left; reflexivity].
  destruct (Z.eqb_spec bid 0) as [->|Hne]; [repeat split; left; reflexivity|].
  cbn [fst snd world user_data trace]. repeat split. right. exists bid.
  split; [exact Hne|reflexivity].
Qed.

(** X27: the menu is shown at most once.  [maybe_show_menu] sends at most
    one reply; with replies to the chat taken as never failing, it raises
    only on an update without a user or without a message, and then after
    it has set its flag and without a reply; and once it has run, running
    it again, for any update, changes nothing and sends nothing. *)
Theorem menu_is_shown_once settings u m u' m' (c : ctx W) :
  let run := maybe_show_menu settings u m c in
  (run.1 = Ok tt \/
   exists name,
     run.1 = Raise (no_attribute name) /\ trace run.2 = trace c /\
     (u = None \/ m = None)) /\
  (trace run.2 = trace c \/
   exists text, trace run.2 = (trace c ++ [ReplyText text])%list) /\
  maybe_show_menu settings u' m' run.2 = (Ok tt, run.2).
Proof.
  cbv zeta.
  destruct (maybe_show_menu_outcome settings u m c) as (_ & Hcases).
  cbv zeta in Hcases.
  assert (Hagain : forall c1 : ctx W,
            (exists v, user_data c1 !! "_menu_shown" = Some v /\ pyval_truthy v = true) ->
            maybe_show_menu settings u' m' c1 = (Ok tt, c1)).
  { intros c1 (v & Hv & Htruthy). unfold maybe_show_menu. unfold io_bind at 1.
    unfold get_user_data at 1. cbv zeta. rewrite Hv, Htruthy. reflexivity. }
  destruct Hcases as [[Hsame Hshown] | [Hud Hends]].
  - rewrite Hsame. cbn [fst snd]. split; [left; reflexivity|].
    split; [left; reflexivity|]. apply Hagain. exact Hshown.
  - assert (Hflag : exists v,
              user_data (maybe_show_menu settings u m c).2 !! "_menu_shown" = Some v /\
              pyval_truthy v = true).
    { exists (VBool true). rewrite Hud, lookup_insert_eq. split; reflexivity. }
    destruct Hends as [[Hres Htr] | (name & Hres & Htr & Hnone)].
    + split; [left; exact Hres|]. split; [exact Htr|]. apply Hagain. exact Hflag.
    + split; [right; exists name; repeat split; assumption|].
      split; [left; exact Htr|]. apply Hagain. exact Hflag.
Qed.

(** X28: [hydrate_link] and [maybe_show_menu], the two handlers that run
    around every update, never touch the link store and change no entry of
    the session other than their own two keys, whether they return or
    raise: the draft of a task is left alone.  [maybe_show_menu] is taken
    from the context [hydrate_link] leaves, or from the one it started in,
    which is where a failing lookup of the link store leaves it. *)
Theorem prehandlers_leave_draft_alone settings ou u m key (c c1 : ctx W) :
  key <> "_menu_shown" -> key <> "bitrix_user_id" ->
  c1 = (hydrate_link ou c).2 \/ c1 = c ->
  let c2 := (maybe_show_menu settings u m c1).2 in
  world c1 = world c /\
  world c2 = world c /\
  user_data c2 !! key = user_data c !! key /\
  staged_files (user_data c2) = staged_files (user_data c) /\
  missing_data (user_data c2) = missing_data (user_data c).
Proof.
  intros Hmenu Hbid Hc1. cbv zeta.
  destruct (hydrate_link_outcome ou c) as (_ & Hw1 & _ & Hud1).
  destruct (maybe_show_menu_outcome settings u m c1) as (Hw2 & Hcases).
  cbv zeta in Hw1, Hud1, Hw2, Hcases.
  assert (Hfirst : world c1 = world c /\
            forall k, k <> "bitrix_user_id" -> user_data c1 !! k = user_data c !! k).
  { destruct Hc1 as [-> | ->]; [|split; reflexivity].
    split; [exact Hw1|]. intros k Hk.
    destruct Hud1 as [-> | (bid & _ & ->)]; [reflexivity|].
    apply lookup_insert_ne. congruence. }
  destruct Hfirst as [Hw Hfirst].
  assert (Hkeys : forall k, k <> "_menu_shown" -> k <> "bitrix_user_id" ->
            user_data (maybe_show_menu settings u m c1).2 !! k = user_data c !! k).
  { intros k Hk1 Hk2.
    destruct Hcases as [[-> _] | [-> _]]; [exact (Hfirst k Hk2)|].
    rewrite lookup_insert_ne by congruence. exact (Hfirst k Hk2). }
  split; [exact Hw|]. split; [congruence|].
  split; [apply Hkeys; assumption|]. split.
  - apply staged_files_same_entry. apply Hkeys; discriminate.
  - unfold missing_data.
    rewrite (get_str_same_entry _ _ "title" (Hkeys "title" ltac:(discriminate)
                                               ltac:(discriminate))).
    rewrite (get_str_same_entry _ _ "description"
               (Hkeys "description" ltac:(discriminate) ltac:(discriminate))).
    reflexivity.
Qed.

End LinkProofs.

(** * The statements at concrete inputs *)

Import Scripted.

Section UnreadableReply.
Context `{!PyStr.Text}.

(** C1, as stated, fails on the code.  The ticketing collaborator accepts
    the first
    [tasks.task.add] call and answers with a task that carries no id the
    client can read.  No creator was rejected; the client raises its own
    parse failure as a [BitrixError], the handler takes it for a rejection
    of the creator field and posts again without it, and the task of the
    second reply is the one reported: two tasks may exist for one confirm.
    The handler's log line on this path reads
    [Bitrix rejected CREATED_BY=..., retrying without it]. *)
Theorem fallback_after_unreadable_reply :
  posts unreadable_then_created = [reply_without_id; reply_with_id 901] /\
  let out := cb_confirm_create [] settings alice
               (start unreadable_then_created (draft "T" "D" [])) in
  out.1 = Ok END /\
  map has_creator_field (http_posts (trace out.2)) = [true; false] /\
  last (trace out.2)
  = Some (ReplyText (PyStr.join nl ["Задача создана ✅"; "ID: 901"])).
Proof.
  split; [reflexivity|]. cbv zeta.
  set (c := start unreadable_then_created (draft "T" "D" [])).
  assert (Htitle : PyStr.strip (get_str (user_data c) "title") = "T").
  { assert (get_str (user_data c) "title" = "T") as -> by (vm_compute; reflexivity).
    rewrite PyStr.strip_ascii by reflexivity. reflexivity. }
  assert (Hdesc : PyStr.strip (get_str (user_data c) "description") = "D").
  { assert (get_str (user_data c) "description" = "D") as -> by (vm_compute; reflexivity).
    rewrite PyStr.strip_ascii by reflexivity. reflexivity. }
  assert (Hm : missing_data (user_data c) = false).
  { unfold missing_data. rewrite Htitle, Hdesc. reflexivity. }
  rewrite (@confirm_without_files script _ collaborators plain_helpers
             [] settings alice c 15 Hm
             ltac:(vm_compute; reflexivity) ltac:(vm_compute; reflexivity)).
  rewrite Htitle, Hdesc.
  generalize (build_task_description "D" (build_initiator_block alice)
                (build_attachments_block [] (upload_dir settings))).
  intros full_desc.
  set (c0 := {| world := world c; user_data := user_data c;
                trace := trace c ++ [AnswerCallback; ReplyText MSG_CREATING] |}).
  destruct (submit_retries_on_bitrix_error settings "T" full_desc 15 [] [] c0)
    as (r1 & c1 & Hfirst & Hposts & _ & _ & Hcase).
  cbv zeta in Hfirst, Hposts, Hcase.
  assert (Hr1 : exists message details,
                  r1 = Raise (BitrixError message details) /\
                  world c1 = {| uploads := []; posts := [reply_with_id 901];
                                linked := Some 15 |}).
  { vm_compute in Hfirst. injection Hfirst as <- <-.
    eexists _, _. split; reflexivity. }
  destruct Hr1 as (message & details & -> & Hw1).
  destruct Hcase as (r2 & c2 & Hsecond & Hcase).
  assert (Hr2 : r2 = Ok 901).
  { revert Hsecond. unfold create_task, call. io_unfold. cbn [world].
    rewrite Hw1. vm_compute. congruence. }
  subst r2.
  assert (Hlink : _task_link settings 901 = Ok "").
  { unfold _task_link. cbn [or_empty bitrix_task_url_template bitrix_portal_base settings].
    rewrite (PyStr.strip_ascii "" eq_refl). reflexivity. }
  pose proof (report_created_outcome settings 901 [] [] c2) as Hout.
  rewrite Hlink in Hout. destruct Hout as [text Hout].
  assert (Htext : text = PyStr.join nl ["Задача создана ✅"; "ID: 901"]).
  { revert Hout. unfold report_created. io_unfold. rewrite Hlink. cbn.
    intros [= Heq]. apply app_inv_head in Heq. injection Heq as <-.
    vm_compute. reflexivity. }
  rewrite Hcase, Hout. cbn [fst snd trace].
  split; [reflexivity|]. split.
  - rewrite Hcase, Hout in Hposts. cbn [snd trace] in Hposts.
    rewrite http_posts_reply in Hposts.
    change (trace c2 ++ [ReplyText text])%list with (trace c2 ++ [ReplyText text])%list.
    rewrite http_posts_reply, Hposts. vm_compute. reflexivity.
  - rewrite last_snoc, Htext. reflexivity.
Qed.

End UnreadableReply.

#[local] Existing Instance ascii_text.

(** A document of 20 MiB plus one byte, sent to a session with two staged
    files: nothing is fetched or written and the session is as before. *)
Lemma oversized_blob_not_staged_witness :
  on_attachment settings alice big_document (start quiet (draft "T" "D" [file_a; file_b]))
  = (Ok WAIT_ATTACHMENTS,
     {| world := quiet; user_data := draft "T" "D" [file_a; file_b];
        trace := [SendChatAction; ReplyText MSG_TOO_LARGE] |}).
Proof.
  destruct (oversized_blob_not_staged settings alice big_document
              (start quiet (draft "T" "D" [file_a; file_b])) 20971521
              eq_refl eq_refl)
    as (st & new & Hrun & _ & Hroom).
  destruct (Hroom "T-0001" eq_refl) as [Hst Hnew].
  - vm_compute. lia.
  - rewrite Hrun, Hst, Hnew. reflexivity.
Defined.

(** Two files, three attempts, a storage service that is down: the service
    is called three times for each file. *)
Lemma retryable_failures_exhaust_attempts_witness :
  exists new c',
    @_upload_files_to_bitrix_disk unit ascii_text Outage.collaborators
      [1; 0; 1; 1; 0]%nat 77 [file_a; file_b] 3 2 Outage.start
    = (Ok ([], ["a.png"; "b.pdf"]), c') /\
    trace c' = new /\
    length (answers_for 0 (@replay unit Outage.collaborators new tt).1) = 3%nat /\
    length (answers_for 1 (@replay unit Outage.collaborators new tt).1) = 3%nat.
Proof.
  assert (Hdown : @always_fails_retryably unit ascii_text Outage.collaborators).
  { intros w folder_id path name attempt max_attempts.
    exists (TransportError "connect timeout"), w. split; reflexivity. }
  destruct (@retryable_failures_exhaust_attempts unit ascii_text Outage.collaborators
              [1; 0; 1; 1; 0]%nat 77 [file_a; file_b] 3 2 Outage.start)
    as (uploaded & failed & new & c' & Hrun & Htr & _ & _ & _ & Hall).
  destruct (Hall ltac:(discriminate) ltac:(lia) Hdown) as (-> & -> & Hcount).
  exists new, c'. split; [exact Hrun|]. split; [exact Htr|].
  split; [apply (Hcount 0%nat) | apply (Hcount 1%nat)]; cbn; lia.
Defined.

(** A draft whose title is only blanks. *)
Lemma confirm_rejects_missing_data_witness :
  cb_confirm_create [] settings alice (start quiet (draft "   " "D" [file_a]))
  = (Ok END, {| world := quiet; user_data := ∅;
                trace := [AnswerCallback; ReplyText MSG_MISSING_DATA] |}).
Proof.
  destruct (confirm_rejects_missing_data [] settings alice
              (start quiet (draft "   " "D" [file_a]))
              ltac:(vm_compute; exact I) ltac:(vm_compute; exact I)
              ltac:(left; vm_compute; reflexivity))
    as (new & Hrun & Hnew & _).
  rewrite Hrun, Hnew. reflexivity.
Defined.

(** C9, as stated, fails: a user with no linked identity confirms a draft
    whose title is empty; the only reply is the missing-data message, not the
    link-required one.  (The texts are ASCII, where [str.strip] is the ASCII
    function.) *)
Lemma unlinked_confirm_told_data_is_missing :
  _get_linked_bitrix_id unlinked (tg_id alice) = None /\
  cb_confirm_create [] settings alice (start unlinked (draft "" "D" []))
  = (Ok END, {| world := unlinked; user_data := ∅;
                trace := [AnswerCallback; ReplyText MSG_MISSING_DATA] |}) /\
  ~ In (ReplyText MSG_NOT_LINKED) [AnswerCallback; ReplyText MSG_MISSING_DATA].
Proof.
  split; [reflexivity|]. split; [vm_compute; reflexivity|].
  intros [H0|[H0|[]]]; vm_compute in H0; discriminate H0.
Qed.

(** The same user with a complete draft. *)
Lemma confirm_without_link_creates_nothing_witness :
  cb_confirm_create [] settings alice (start unlinked (draft "T" "D" [file_a]))
  = (Ok END, {| world := unlinked; user_data := ∅;
                trace := [AnswerCallback; ReplyText MSG_NOT_LINKED] |}).
Proof.
  destruct (@confirm_without_link_creates_nothing script ascii_text collaborators
              plain_helpers [] settings alice
              (start unlinked (draft "T" "D" [file_a]))
              ltac:(vm_compute; exact I) ltac:(vm_compute; exact I) eq_refl)
    as [(text & Hrun & Htext) _].
  rewrite Hrun, Htext. reflexivity.
Defined.

(** Two staged files and no storage service: the confirm creates no task. *)
Lemma all_uploads_failed_no_task_witness :
  exists c',
    cb_confirm_create [] settings alice (start quiet (draft "T" "D" [file_a; file_b]))
    = (Ok END, c') /\
    user_data c' = ∅ /\
    http_posts (trace c') = [] /\
    last (trace c') = Some (ReplyText (MSG_ALL_UPLOADS_FAILED ["a.png"; "b.pdf"])).
Proof.
  edestruct (all_uploads_failed_no_task [] settings alice
               (start quiet (draft "T" "D" [file_a; file_b])))
    as (c' & new & text & Hrun & Hud & Htr & Hposts & Htext).
  - vm_compute. discriminate.
  - vm_compute. reflexivity.
  - discriminate.
  - exists c'. split; [exact Hrun|]. split; [exact Hud|]. split; [exact Hposts|].
    rewrite Htr, app_assoc, last_snoc, Htext. reflexivity.
Defined.

(** Ten documents staged through the handlers; the eleventh is refused. *)
Lemma staged_count_never_exceeds_limit_witness :
  length (staged_files (user_data ten_files_staged)) = 10%nat /\
  on_attachment settings alice (small_document 11) ten_files_staged
  = (Ok WAIT_ATTACHMENTS,
     {| world := world ten_files_staged; user_data := user_data ten_files_staged;
        trace := trace ten_files_staged ++ [SendChatAction; ReplyText MSG_LIMIT] |}).
Proof.
  assert (Hreach : session_reachable settings ten_files_staged).
  { apply reachable_after. apply reach_fresh. reflexivity. }
  destruct (staged_count_never_exceeds_limit settings ten_files_staged Hreach)
    as [_ Hfull].
  assert (Hlen : length (staged_files (user_data ten_files_staged)) = 10%nat)
    by (vm_compute; reflexivity).
  split; [exact Hlen|].
  destruct (Hfull alice (small_document 11) "T-0001" ltac:(vm_compute; reflexivity) Hlen)
    as [Hrej _].
  exact Hrej.
Defined.

(** * Further statements at concrete inputs *)

Import MoreScripts ScriptedDisk.

(** Two files and a storage service that stores everything. *)
Lemma accepted_uploads_attempted_once_witness :
  exists uploaded c',
    @_upload_files_to_bitrix_disk Z ascii_text Healthy.collaborators [1; 0]%nat 77
      [file_a; file_b] 3 2 Healthy.start
    = (Ok (uploaded, []), c') /\
    length uploaded = 2%nat /\
    attempts_of 0 (trace c') = 1%nat /\
    attempts_of 1 (trace c') = 1%nat.
Proof.
  assert (Hok : @always_succeeds Z Healthy.collaborators).
  { intros w folder_id path name attempt max_attempts.
    exists (100 + w), (w + 1). reflexivity. }
  destruct (@accepted_uploads_attempted_once Z ascii_text Healthy.collaborators [1; 0]%nat 77
              [file_a; file_b] 3 2 Healthy.start ltac:(lia) Hok)
    as (uploaded & c' & Hrun & Hlen & Hcount).
  exists uploaded, c'. split; [exact Hrun|]. split; [exact Hlen|].
  split; [apply (Hcount 0%nat) | apply (Hcount 1%nat)]; cbn; lia.
Defined.

(** Two files, three attempts allowed, a storage service that refuses. *)
Lemma terminal_failures_not_retried_witness :
  exists c',
    @_upload_files_to_bitrix_disk unit ascii_text Denied.collaborators [1; 0]%nat 77
      [file_a; file_b] 3 2 Outage.start
    = (Ok ([], ["a.png"; "b.pdf"]), c') /\
    attempts_of 0 (trace c') = 1%nat /\
    attempts_of 1 (trace c') = 1%nat.
Proof.
  assert (Hno : @always_fails_terminally unit ascii_text Denied.collaborators).
  { intros w folder_id path name attempt max_attempts.
    exists (BitrixError "ACCESS_DENIED" "no rights"), w. split; reflexivity. }
  destruct (@terminal_failures_not_retried unit ascii_text Denied.collaborators [1; 0]%nat 77
              [file_a; file_b] 3 2 Outage.start ltac:(lia) Hno)
    as (c' & Hrun & Hcount).
  exists c'. split; [exact Hrun|].
  split; [apply (Hcount 0%nat) | apply (Hcount 1%nat)]; cbn; lia.
Defined.

(** No attempt allowed. *)
Lemma no_attempts_allowed_fails_all_witness :
  _upload_files_to_bitrix_disk [] 77 [file_a; file_b] 0 2 (start quiet ∅)
  = (Ok ([], ["a.png"; "b.pdf"]), start quiet ∅).
Proof.
  exact (@no_attempts_allowed_fails_all script ascii_text collaborators [] 77 [file_a; file_b] 0 2
           (start quiet ∅) ltac:(lia)).
Defined.

(** A resolver failure reported in the details, in mixed case. *)
Lemma marker_in_message_or_details_is_retryable_witness :
  _is_retryable_upload_error
    (BitrixError "Upload failed" "Temporary failure in name resolution") = true.
Proof.
  apply (marker_in_message_or_details_is_retryable "temporar").
  - unfold retry_markers. cbn. intuition.
  - right. vm_compute. reflexivity.
Defined.

(** An HTML error page sent with status 503. *)
Lemma gateway_status_replies_are_retryable_witness :
  _is_retryable_upload_error
    (non_json_error (str_of_Z 503) "<html>Service Unavailable</html>") = true.
Proof.
  apply (gateway_status_replies_are_retryable 503).
  right. left. reflexivity.
Defined.

(** The reply of a created task has no [error] key. *)
Lemma call_never_returns_an_error_payload_witness :
  exists payload c',
    call "tasks.task.add" [] (start created_at_once ∅) = (Ok payload, c') /\
    (forall kv, payload = JObj kv -> assoc "error" kv = None) /\
    trace c' = [HttpPost "tasks.task.add" []].
Proof.
  set (run := call "tasks.task.add" [] (start created_at_once ∅)).
  assert (Hrun : run = (Ok (JObj [("result", JObj [("task", JObj [("id", JNum 901)])])]),
                        run.2)) by (vm_compute; reflexivity).
  destruct (@call_never_returns_an_error_payload script collaborators plain_helpers
              "tasks.task.add" [] (start created_at_once ∅) _ _ Hrun)
    as (_ & Herr & _ & Htr).
  eexists _, _. split; [exact Hrun|]. split; [exact Herr|exact Htr].
Defined.

(** The id of the created task is the one in the reply. *)
Lemma create_task_id_comes_from_reply_witness :
  exists c' status text payload,
    create_task "T" "D" 1 None (Some 2) (Some 15) [] (start created_at_once ∅)
    = (Ok 901, c') /\
    http_post created_at_once "tasks.task.add"
      (task_fields "T" "D" 1 None (Some 2) (Some 15))
    = (HttpResponse status text (Some payload), world c') /\
    py_int (subscript (subscript (subscript (Some payload) "result") "task") "id")
    = Some 901.
Proof.
  set (run := create_task "T" "D" 1 None (Some 2) (Some 15) [] (start created_at_once ∅)).
  assert (Hrun : run = (Ok 901, run.2)) by (vm_compute; reflexivity).
  destruct (@create_task_id_comes_from_reply script collaborators plain_helpers
              "T" "D" 1 None (Some 2) (Some 15) [] (start created_at_once ∅) _ _ Hrun)
    as (status & text & payload & Hpost & _ & Hid).
  exists run.2, status, text, payload. split; [exact Hrun|]. split; [exact Hpost|].
  cbv zeta in Hid. destruct Hid as [Hid | [Hnone _]]; [exact Hid|].
  exfalso. clear -Hpost Hnone. vm_compute in Hpost.
  assert (Hp : payload = JObj [("result", JObj [("task", JObj [("id", JNum 901)])])])
    by congruence.
  rewrite Hp in Hnone. vm_compute in Hnone. discriminate Hnone.
Defined.

(** A file stored on the disk under the last segment of its path. *)
Lemma client_upload_id_comes_from_reply_witness :
  exists c' status text payload,
    client_upload_to_folder 77 "/srv/uploads/a.png" None (start file_stored ∅)
    = (Ok 555, c') /\
    post_file file_stored 77 "/srv/uploads/a.png" "a.png"
    = (HttpResponse status text (Some payload), world c') /\
    py_int (subscript (subscript (Some payload) "result") "ID") = Some 555.
Proof.
  set (run := client_upload_to_folder 77 "/srv/uploads/a.png" None (start file_stored ∅)).
  assert (Hrun : run = (Ok 555, run.2)) by (vm_compute; reflexivity).
  destruct (client_upload_id_comes_from_reply 77 "/srv/uploads/a.png" None
              (start file_stored ∅) _ _ Hrun)
    as (status & text & payload & Hpost & _ & Hid & _).
  exists run.2, status, text, payload. split; [exact Hrun|]. split; [exact Hpost|exact Hid].
Defined.



(** Two staged files, the second one refused by the disk. *)
Lemma partial_upload_failure_still_submits_witness :
  exists rest,
    trace (cb_confirm_create [] settings alice two_files_confirmed).2
    = (trace two_files_uploaded ++
       [ReplyText (MSG_SOME_UPLOADS_FAILED ["b.pdf"]); ReplyText MSG_CREATING;
        HttpPost "tasks.task.add"
          (confirm_fields settings alice two_files_confirmed (Some 15))]
       ++ rest)%list.
Proof.
  assert (Hrun : _upload_files_to_bitrix_disk [] (bitrix_disk_folder_id settings)
                   (staged_files (user_data two_files_confirmed))
                   (bitrix_upload_max_attempts settings)
                   (bitrix_upload_parallelism settings)
                   (at_upload_start two_files_confirmed
                      (length (staged_files (user_data two_files_confirmed))))
                 = (Ok ([501], ["b.pdf"]), two_files_uploaded))
    by (vm_compute; reflexivity).
  exact (@partial_upload_failure_still_submits script ascii_text collaborators plain_helpers
           [] settings alice two_files_confirmed 15 501 [] "b.pdf" [] two_files_uploaded
           ltac:(vm_compute; reflexivity) ltac:(reflexivity)
           ltac:(vm_compute; discriminate) Hrun).
Defined.

(** Title, description, one document and the "done" button. *)
Lemma draft_survives_attachment_steps_witness :
  let c' :=
    run_handlers settings
      [CallOnAttachment alice (small_document 1); CallCbAttachmentsDone]
      (on_description (text_message "Does not print ")
         (on_title (text_message " Printer") (start quiet ∅)).2).2 in
  missing_data (user_data c') = false /\
  get_str (user_data c') "title" = "Printer" /\
  get_str (user_data c') "description" = "Does not print".
Proof.
  exact (@draft_survives_attachment_steps script ascii_text collaborators plain_helpers settings
           (text_message " Printer") (text_message "Does not print ")
           [CallOnAttachment alice (small_document 1); CallCbAttachmentsDone]
           (start quiet ∅)
           ltac:(vm_compute; reflexivity) ltac:(vm_compute; reflexivity)
           ltac:(repeat constructor)).
Defined.

(** Two documents and the "done" button after a fresh start. *)
Lemma attachment_steps_append_only_witness :
  exists added new,
    staged_files (user_data
      (run_handlers settings
         [CallOnAttachment alice (small_document 1);
          CallOnAttachment alice (small_document 2); CallCbAttachmentsDone]
         (start quiet (draft "T" "D" [file_a]))))
    = ([file_a] ++ added)%list /\
    (length added <= 3)%nat /\
    trace (run_handlers settings
             [CallOnAttachment alice (small_document 1);
              CallOnAttachment alice (small_document 2); CallCbAttachmentsDone]
             (start quiet (draft "T" "D" [file_a])))
    = ([] ++ new)%list /\
    Forall (fun sf => exists file_id, In (DownloadToDrive file_id (local_path sf)) new)
      added.
Proof.
  exact (@attachment_steps_append_only script ascii_text collaborators plain_helpers settings
           [CallOnAttachment alice (small_document 1);
            CallOnAttachment alice (small_document 2); CallCbAttachmentsDone]
           (start quiet (draft "T" "D" [file_a]))
           ltac:(repeat constructor)).
Defined.

(** A document whose download times out. *)
Lemma failed_download_stages_nothing_witness :
  exists c',
    @on_attachment unit Flaky.collaborators plain_helpers settings alice
      (small_document 1) flaky_session
    = (Raise (TransportError "read timeout"), c') /\
    user_data c' = draft "T" "D" [].
Proof.
  set (run := @on_attachment unit Flaky.collaborators plain_helpers settings alice
                (small_document 1) flaky_session).
  assert (Hrun : run = (Raise (TransportError "read timeout"), run.2))
    by (vm_compute; reflexivity).
  destruct (@failed_download_stages_nothing unit Flaky.collaborators plain_helpers
              settings alice (small_document 1) flaky_session _ _ Hrun)
    as [Hud _].
  exists run.2. split; [exact Hrun|exact Hud].
Defined.

(** The number 123 as text. *)
Lemma parse_reads_back_a_plain_number_witness :
  parse_bitrix_user_id (Some (str_of_Z 123)) = Some 123.
Proof. apply (parse_reads_back_a_plain_number 123). lia. Defined.

(** A profile link. *)
Lemma parsed_id_is_a_digit_group_of_the_text_witness :
  0 <= 123 /\
  exists group,
    isdigit group = true /\ 123 = int_of_digits group /\
    (PyStr.strip "https://portal.bitrix24.ru/company/personal/user/123/" = group \/
     PyStr.contains ("user/" +:+ group)
       (PyStr.strip "https://portal.bitrix24.ru/company/personal/user/123/") = true).
Proof.
  exact (parsed_id_is_a_digit_group_of_the_text
           (Some "https://portal.bitrix24.ru/company/personal/user/123/") 123
           ltac:(vm_compute; reflexivity) ltac:(vm_compute; reflexivity)).
Defined.

(** A user links profile 123 and starts a task. *)
Lemma linked_user_can_start_task_witness :
  (@cmd_task (gmap Z Z) Linked.collaborators settings alice
     (@link_receive (gmap Z Z) ascii_text Linked.link_store
        settings alice (text_message "123") Linked.start).2).1
  = Ok WAIT_TITLE.
Proof.
  apply (@linked_user_can_start_task (gmap Z Z) ascii_text Linked.collaborators
           Linked.link_store settings alice (text_message "123") Linked.start).
  - intros w tg_user_id n. apply lookup_insert_eq.
  - reflexivity.
  - vm_compute. reflexivity.
Defined.

(** The title of a draft after both handlers have run. *)
Lemma prehandlers_leave_draft_alone_witness :
  let c := start quiet (draft "T" "D" [file_a]) in
  let c2 := (maybe_show_menu settings (Some alice) (Some (text_message "hello"))
               (hydrate_link (Some alice) c).2).2 in
  user_data c2 !! "title" = Some (VStr "T") /\
  staged_files (user_data c2) = [file_a].
Proof.
  destruct (@prehandlers_leave_draft_alone script ascii_text collaborators
              settings (Some alice) (Some alice) (Some (text_message "hello")) "title"
              (start quiet (draft "T" "D" [file_a]))
              (hydrate_link (Some alice) (start quiet (draft "T" "D" [file_a]))).2
              ltac:(discriminate) ltac:(discriminate) (or_introl eq_refl))
    as (_ & _ & Hkey & Hfiles & _).
  cbv zeta. split.
  - etransitivity; [exact Hkey|]. vm_compute. reflexivity.
  - etransitivity; [exact Hfiles|]. vm_compute. reflexivity.
Defined.

(** An update that has a user and no message, on a fresh session: the flag
    is set, [cmd_start] raises, and the next update shows nothing. *)
Lemma menu_is_shown_once_witness :
  let run := maybe_show_menu settings (Some alice) None (start quiet ∅) in
  run.1 = Raise (no_attribute "reply_text") /\
  trace run.2 = [] /\
  maybe_show_menu settings (Some alice) (Some (text_message "hello")) run.2
  = (Ok tt, run.2).
Proof.
  destruct (@menu_is_shown_once script ascii_text settings (Some alice) None
              (Some alice) (Some (text_message "hello")) (start quiet ∅))
    as (_ & _ & Hagain).
  cbv zeta. split; [vm_compute; reflexivity|]. split; [vm_compute; reflexivity|].
  exact Hagain.
Defined.

(** A user sends the number 123 to the link conversation. *)
Lemma link_receive_stores_positive_ids_only_witness :
  let run := @link_receive (gmap Z Z) ascii_text Linked.link_store
               settings alice (text_message "123") Linked.start in
  run.1 = Ok LINK_END /\
  world run.2
  = @_set_linked_bitrix_id (gmap Z Z) Linked.link_store (world Linked.start)
      (tg_id alice) 123.
Proof.
  destruct (@link_receive_stores_positive_ids_only (gmap Z Z) ascii_text Linked.link_store
              settings alice (text_message "123") Linked.start
              ltac:(vm_compute; reflexivity) ltac:(cbn; lia))
    as [_ [(n & _ & _ & Hparse & Hres & Hw) | [_ Hcases]]]; cbv zeta.
  - assert (Hn : n = 123) by (vm_compute in Hparse; congruence).
    subst n. split; [exact Hres|exact Hw].
  - exfalso. destruct Hcases as [Hwait | [_ Hallowed]].
    + vm_compute in Hwait. discriminate Hwait.
    + vm_compute in Hallowed. discriminate Hallowed.
Defined.

(** Two files and a storage service that times out once per file. *)
Lemma uploads_retried_until_accepted_witness :
  exists uploaded c',
    @_upload_files_to_bitrix_disk unit ascii_text Recovering.collaborators [0; 1; 1]%nat 77
      [file_a; file_b] 3 2 Outage.start
    = (Ok (uploaded, []), c') /\
    length uploaded = 2%nat /\
    attempts_of 0 (trace c') = 2%nat /\
    attempts_of 1 (trace c') = 2%nat.
Proof.
  assert (Hok : @succeeds_from unit ascii_text Recovering.collaborators 2).
  { intros w folder_id path name attempt max_attempts. split; intros Hattempt.
    - exists (TransportError "read timeout"), w.
      cbn [upload_to_folder Recovering.collaborators].
      destruct (Z.ltb_spec attempt 2); [split; reflexivity|lia].
    - exists 7, w. cbn [upload_to_folder Recovering.collaborators].
      destruct (Z.ltb_spec attempt 2); [lia|reflexivity]. }
  destruct (@uploads_retried_until_accepted unit ascii_text Recovering.collaborators [0; 1; 1]%nat 77
              [file_a; file_b] 3 2 2 Outage.start ltac:(lia) Hok)
    as (uploaded & c' & Hrun & Hlen & Hcount).
  exists uploaded, c'. split; [exact Hrun|]. split; [exact Hlen|].
  split; [apply (Hcount 0%nat) | apply (Hcount 1%nat)]; cbn; lia.
Defined.
